(** * Cinema schema: QR attendance validation, constraints and statistics

    A shallow embedding of [supabase/migrations/20251107170000_cinema_schema.sql]:
    the tables with their constraints, the helper [current_user_is_admin],
    the stored routine [validate_reservation_qr] and the view
    [screening_stats].

    Tables are lists of rows in insertion order.  A statement that violates
    a constraint raises an error and leaves the database as it was (the
    surrounding transaction is rolled back).  The routine is [security
    definer], so row level security policies do not filter what it reads or
    writes.  Calls are executed one after the other. *)

From Stdlib Require Import List ZArith NArith String Ascii Bool Lia.
Import ListNotations.

Local Open Scope string_scope.

(** ** Column types *)

(** [uuid] values are 128-bit numbers; only their equality matters here. *)
Definition uuid := N.

(** [timestamp with time zone], as microseconds since the epoch. *)
Definition timestamptz := Z.

(** [create type public.reservation_status as enum (...)]. *)
Inductive reservation_status : Set :=
| pending
| confirmed
| cancelled
| checked_in
| no_show.

Definition reservation_status_eqb (a b : reservation_status) : bool :=
  match a, b with
  | pending, pending
  | confirmed, confirmed
  | cancelled, cancelled
  | checked_in, checked_in
  | no_show, no_show => true
  | _, _ => false
  end.

(** ** Rows *)

(** [public.profiles]: the table is created elsewhere; the migration adds
    [role] and reads [user_id]. *)
Module Profile.
Record row : Set := {
  user_id : uuid;
  role : string
}.
End Profile.

Module Movie.
Record row : Set := {
  id : uuid;
  title : string;
  synopsis : option string;
  duration_minutes : option Z;
  rating : option string;
  poster_url : option string;
  is_active : bool;
  created_at : timestamptz;
  updated_at : timestamptz
}.
End Movie.

Module Screening.
Record row : Set := {
  id : uuid;
  movie_id : uuid;
  starts_at : timestamptz;
  ends_at : option timestamptz;
  auditorium : string;
  capacity : Z;
  notes : option string;
  created_at : timestamptz;
  updated_at : timestamptz
}.
End Screening.

Module Reservation.
Record row : Set := {
  id : uuid;
  screening_id : uuid;
  user_id : uuid;
  status : reservation_status;
  seat_label : option string;
  qr_token : string;
  reserved_at : timestamptz;
  created_at : timestamptz;
  updated_at : timestamptz
}.
End Reservation.

Module AttendanceLog.
Record row : Set := {
  id : uuid;
  reservation_id : uuid;
  scanned_by : option uuid;
  scanned_at : timestamptz;
  created_at : timestamptz
}.
End AttendanceLog.

(** The composite type [public.qr_validation_result].  The identifiers and
    the status are nullable; the routine always fills the other three. *)
Record qr_validation_result : Set := {
  reservation_id : option uuid;
  screening_id : option uuid;
  status : option reservation_status;
  message : string;
  already_scanned : bool;
  is_valid : bool
}.

(** ** Database state and session *)

Record database : Set := {
  auth_users : list uuid;                      (* auth.users (id) *)
  profiles : list Profile.row;
  movies : list Movie.row;
  screenings : list Screening.row;
  reservations : list Reservation.row;
  attendance_logs : list AttendanceLog.row
}.

(** What a call reads from its environment: [auth.uid()] (null when nobody
    is signed in), [now()] and the value drawn by [gen_random_uuid()] for
    the one row the routine inserts. *)
Record session : Set := {
  auth_uid : option uuid;
  now : timestamptz;
  gen_random_uuid : uuid
}.

(** Errors a statement can raise. *)
Inductive sql_error : Set :=
| unique_violation (constraint : string)
| foreign_key_violation (constraint : string)
| division_by_zero
| check_violation (constraint : string)
| insufficient_privilege (table : string).

Inductive exec (A : Type) : Type :=
| Ok (a : A)
| Raise (e : sql_error).
Arguments Ok {A} a.
Arguments Raise {A} e.

Definition bind {A B : Type} (m : exec A) (k : A -> exec B) : exec B :=
  match m with
  | Ok a => k a
  | Raise e => Raise e
  end.

Notation "x <- m ;; k" := (bind m (fun x => k))
  (at level 61, m at next level, right associativity).

(** ** [trim]

    [trim(text)] removes the longest run of space characters (U+0020, and
    nothing else) from both ends. *)
Definition is_space (c : ascii) : bool := Ascii.eqb c " "%char.

Fixpoint ltrim (s : string) : string :=
  match s with
  | EmptyString => EmptyString
  | String c s' => if is_space c then ltrim s' else s
  end.

Fixpoint rtrim (s : string) : string :=
  match s with
  | EmptyString => EmptyString
  | String c s' =>
      match rtrim s' with
      | EmptyString => if is_space c then EmptyString else String c EmptyString
      | t => String c t
      end
  end.

Definition trim (s : string) : string := rtrim (ltrim s).

(** [coalesce(x, d)] with a non-null default. *)
Definition coalesce {A : Type} (x : option A) (d : A) : A :=
  match x with
  | Some v => v
  | None => d
  end.

(** [coalesce(trim(p_token), '') = ''] *)
Definition token_is_blank (p_token : option string) : bool :=
  String.eqb (coalesce (option_map trim p_token) "") "".

(** Every character of [s] is a space. *)
Fixpoint only_spaces (s : string) : bool :=
  match s with
  | EmptyString => true
  | String c s' => is_space c && only_spaces s'
  end.

(** ** [current_user_is_admin] *)

Definition current_user_is_admin (sess : session) (db : database) : bool :=
  match auth_uid sess with
  | None => false
  | Some uid =>
      existsb (fun p => N.eqb (Profile.user_id p) uid
                        && String.eqb (Profile.role p) "admin")
              (profiles db)
  end.

(** ** Statements used by the routine *)

(** [select * from public.reservations where qr_token = p_token], first row. *)
Definition select_reservation_by_token (p_token : string) (db : database)
  : option Reservation.row :=
  find (fun r => String.eqb (Reservation.qr_token r) p_token) (reservations db).

(** [select * from public.reservations where id = v_id], first row. *)
Definition select_reservation_by_id (v_id : uuid) (db : database)
  : option Reservation.row :=
  find (fun r => N.eqb (Reservation.id r) v_id) (reservations db).

(** [exists (select 1 from public.attendance_logs where reservation_id = v_id)] *)
Definition attendance_log_exists (v_id : uuid) (db : database) : bool :=
  existsb (fun l => N.eqb (AttendanceLog.reservation_id l) v_id)
          (attendance_logs db).

Definition set_attendance_logs (ls : list AttendanceLog.row) (db : database)
  : database :=
  {| auth_users := auth_users db;
     profiles := profiles db;
     movies := movies db;
     screenings := screenings db;
     reservations := reservations db;
     attendance_logs := ls |}.

Definition set_reservations (rs : list Reservation.row) (db : database)
  : database :=
  {| auth_users := auth_users db;
     profiles := profiles db;
     movies := movies db;
     screenings := screenings db;
     reservations := rs;
     attendance_logs := attendance_logs db |}.

(** [insert into public.attendance_logs (reservation_id, scanned_by)
    values (v_id, p_scanner)]: the other columns take their defaults.  The
    unique indexes are checked when the row is added (primary key first),
    the foreign keys at the end of the statement. *)
Definition new_attendance_log (sess : session) (v_id : uuid)
    (p_scanner : option uuid) : AttendanceLog.row :=
  {| AttendanceLog.id := gen_random_uuid sess;
     AttendanceLog.reservation_id := v_id;
     AttendanceLog.scanned_by := p_scanner;
     AttendanceLog.scanned_at := now sess;
     AttendanceLog.created_at := now sess |}.

Definition insert_attendance_log (sess : session) (v_id : uuid)
    (p_scanner : option uuid) (db : database) : exec database :=
  let new_row := new_attendance_log sess v_id p_scanner in
  if existsb (fun l => N.eqb (AttendanceLog.id l) (AttendanceLog.id new_row))
             (attendance_logs db)
  then Raise (unique_violation "attendance_logs_pkey")
  else if existsb (fun l => N.eqb (AttendanceLog.reservation_id l) v_id)
                  (attendance_logs db)
  then Raise (unique_violation "attendance_logs_reservation_id_unique")
  else if negb (existsb (fun r => N.eqb (Reservation.id r) v_id)
                        (reservations db))
  then Raise (foreign_key_violation "attendance_logs_reservation_id_fkey")
  else if match p_scanner with
          | None => false
          | Some u => negb (existsb (N.eqb u) (auth_users db))
          end
  then Raise (foreign_key_violation "attendance_logs_scanned_by_fkey")
  else Ok (set_attendance_logs (attendance_logs db ++ [new_row]) db).

(** The row written by [update public.reservations set status = 'checked_in',
    updated_at = now()]; the trigger [reservations_set_updated_at] sets
    [updated_at] to [now()] as well. *)
Definition check_in_row (sess : session) (r : Reservation.row)
  : Reservation.row :=
  {| Reservation.id := Reservation.id r;
     Reservation.screening_id := Reservation.screening_id r;
     Reservation.user_id := Reservation.user_id r;
     Reservation.status := checked_in;
     Reservation.seat_label := Reservation.seat_label r;
     Reservation.qr_token := Reservation.qr_token r;
     Reservation.reserved_at := Reservation.reserved_at r;
     Reservation.created_at := Reservation.created_at r;
     Reservation.updated_at := now sess |}.

(** [update public.reservations set ... where id = v_id] *)
Definition update_reservation_checked_in (sess : session) (v_id : uuid)
    (db : database) : database :=
  set_reservations
    (map (fun r => if N.eqb (Reservation.id r) v_id
                   then check_in_row sess r else r)
         (reservations db))
    db.

(** ** [validate_reservation_qr] *)

Definition validate_reservation_qr (sess : session) (p_token : option string)
    (p_scanner : option uuid) (db : database)
  : exec (qr_validation_result * database) :=
  if negb (current_user_is_admin sess db) then
    Ok ({| reservation_id := None; screening_id := None;
           status := Some cancelled;
           message := "Solo personal autorizado puede validar códigos.";
           already_scanned := false; is_valid := false |}, db)
  else if token_is_blank p_token then
    Ok ({| reservation_id := None; screening_id := None;
           status := Some cancelled;
           message := "Código QR inválido.";
           already_scanned := false; is_valid := false |}, db)
  else
    match match p_token with
          | Some t => select_reservation_by_token t db
          | None => None
          end with
    | None =>
        Ok ({| reservation_id := None; screening_id := None;
               status := Some cancelled;
               message := "No se encontró una reserva para este código.";
               already_scanned := false; is_valid := false |}, db)
    | Some v_reservation =>
        if reservation_status_eqb (Reservation.status v_reservation) cancelled
        then
          Ok ({| reservation_id := Some (Reservation.id v_reservation);
                 screening_id := Some (Reservation.screening_id v_reservation);
                 status := Some (Reservation.status v_reservation);
                 message :=
                   "La reserva está cancelada y no puede registrarse asistencia.";
                 already_scanned := false; is_valid := false |}, db)
        else if attendance_log_exists (Reservation.id v_reservation) db then
          Ok ({| reservation_id := Some (Reservation.id v_reservation);
                 screening_id := Some (Reservation.screening_id v_reservation);
                 status := Some (Reservation.status v_reservation);
                 message := "Esta reserva ya fue validada previamente.";
                 already_scanned := true; is_valid := false |}, db)
        else
          db1 <- insert_attendance_log sess (Reservation.id v_reservation)
                   p_scanner db ;;
          let db2 :=
            update_reservation_checked_in sess
              (Reservation.id v_reservation) db1 in
          let v_reread :=
            select_reservation_by_id (Reservation.id v_reservation) db2 in
          Ok ({| reservation_id := option_map Reservation.id v_reread;
                 screening_id := option_map Reservation.screening_id v_reread;
                 status := option_map Reservation.status v_reread;
                 message := "Asistencia registrada correctamente.";
                 already_scanned := false; is_valid := true |}, db2)
    end.

(** The results of the five early [return]s. *)

Definition unauthorized_result : qr_validation_result :=
  {| reservation_id := None; screening_id := None;
     status := Some cancelled;
     message := "Solo personal autorizado puede validar códigos.";
     already_scanned := false; is_valid := false |}.

Definition invalid_token_result : qr_validation_result :=
  {| reservation_id := None; screening_id := None;
     status := Some cancelled;
     message := "Código QR inválido.";
     already_scanned := false; is_valid := false |}.

Definition not_found_result : qr_validation_result :=
  {| reservation_id := None; screening_id := None;
     status := Some cancelled;
     message := "No se encontró una reserva para este código.";
     already_scanned := false; is_valid := false |}.

Definition cancelled_result (r : Reservation.row) : qr_validation_result :=
  {| reservation_id := Some (Reservation.id r);
     screening_id := Some (Reservation.screening_id r);
     status := Some (Reservation.status r);
     message := "La reserva está cancelada y no puede registrarse asistencia.";
     already_scanned := false; is_valid := false |}.

Definition already_scanned_result (r : Reservation.row)
  : qr_validation_result :=
  {| reservation_id := Some (Reservation.id r);
     screening_id := Some (Reservation.screening_id r);
     status := Some (Reservation.status r);
     message := "Esta reserva ya fue validada previamente.";
     already_scanned := true; is_valid := false |}.

(** The result of the last [return], for the row [r] read back. *)
Definition checked_in_result (r : Reservation.row) : qr_validation_result :=
  {| reservation_id := Some (Reservation.id r);
     screening_id := Some (Reservation.screening_id r);
     status := Some checked_in;
     message := "Asistencia registrada correctamente.";
     already_scanned := false; is_valid := true |}.

(** The database the routine leaves after checking reservation [r] in. *)
Definition checked_in_db (sess : session) (r : Reservation.row)
    (p_scanner : option uuid) (db : database) : database :=
  {| auth_users := auth_users db;
     profiles := profiles db;
     movies := movies db;
     screenings := screenings db;
     reservations :=
       map (fun x => if N.eqb (Reservation.id x) (Reservation.id r)
                     then check_in_row sess x else x)
           (reservations db);
     attendance_logs :=
       attendance_logs db
       ++ [new_attendance_log sess (Reservation.id r) p_scanner] |}.

(** [p_scanner] is null or the id of a row of [auth.users]. *)
Definition scanner_is_known (p_scanner : option uuid) (db : database) : bool :=
  match p_scanner with
  | None => true
  | Some u => existsb (N.eqb u) (auth_users db)
  end.

(** The value drawn by [gen_random_uuid()] is not the id of a stored log. *)
Definition log_id_is_new (sess : session) (db : database) : bool :=
  negb (existsb (fun l => N.eqb (AttendanceLog.id l) (gen_random_uuid sess))
                (attendance_logs db)).

(** ** A sequence of calls *)

Record call : Set := {
  call_session : session;
  call_token : option string;
  call_scanner : option uuid
}.

(** The database after one call: what the routine leaves when it returns,
    the database as it was when it raises. *)
Definition db_after_call (c : call) (db : database) : database :=
  match validate_reservation_qr (call_session c) (call_token c)
          (call_scanner c) db with
  | Ok (_, db') => db'
  | Raise _ => db
  end.

Definition db_after_calls (cs : list call) (db : database) : database :=
  fold_left (fun d c => db_after_call c d) cs db.

(** Number of attendance logs that reference reservation [v_id]. *)
Definition count_attendance_logs (v_id : uuid) (db : database) : nat :=
  List.length (filter (fun l => N.eqb (AttendanceLog.reservation_id l) v_id)
                 (attendance_logs db)).

(** The state in which the token [t] has been scanned for reservation
    [rid]: the token still selects that reservation, which is not
    cancelled and has exactly one attendance log. *)
Definition scanned (t : string) (rid : uuid) (db : database) : Prop :=
  token_is_blank (Some t) = false
  /\ count_attendance_logs rid db = 1%nat
  /\ exists r,
      select_reservation_by_token t db = Some r
      /\ Reservation.id r = rid
      /\ Reservation.status r <> cancelled.

(** ** Row level security

    The policies of [public.reservations] for the role [authenticated]
    are permissive, so a row passes when one of them holds: the caller is
    an admin, or [user_id = auth.uid()].  The same condition guards
    select, insert, update and delete.  The other tables have the admin
    policies only. *)
Definition reservations_policy (sess : session) (db : database)
    (r : Reservation.row) : bool :=
  current_user_is_admin sess db
  || match auth_uid sess with
     | Some uid => N.eqb (Reservation.user_id r) uid
     | None => false
     end.

(** ** Inserting a reservation

    [insert into public.reservations values (new_row)] with every column
    given, sent by a caller of the role [authenticated].  The policies
    are checked on the new row first (a row they refuse raises 42501);
    then the unique indexes, in the order they were created with the
    table (primary key, [reservations_user_screening_unique],
    [reservations_qr_token_unique]); the foreign keys follow. *)
Definition insert_reservation (sess : session) (new_row : Reservation.row)
    (db : database) : exec database :=
  if negb (reservations_policy sess db new_row)
  then Raise (insufficient_privilege "reservations")
  else if existsb (fun r => N.eqb (Reservation.id r) (Reservation.id new_row))
                  (reservations db)
  then Raise (unique_violation "reservations_pkey")
  else if existsb
            (fun r => N.eqb (Reservation.screening_id r)
                            (Reservation.screening_id new_row)
                      && N.eqb (Reservation.user_id r)
                               (Reservation.user_id new_row))
            (reservations db)
  then Raise (unique_violation "reservations_user_screening_unique")
  else if existsb (fun r => String.eqb (Reservation.qr_token r)
                                       (Reservation.qr_token new_row))
                  (reservations db)
  then Raise (unique_violation "reservations_qr_token_unique")
  else if negb (existsb (fun s => N.eqb (Screening.id s)
                                        (Reservation.screening_id new_row))
                        (screenings db))
  then Raise (foreign_key_violation "reservations_screening_id_fkey")
  else if negb (existsb (N.eqb (Reservation.user_id new_row)) (auth_users db))
  then Raise (foreign_key_violation "reservations_user_id_fkey")
  else Ok (set_reservations (reservations db ++ [new_row]) db).


(** ** [numeric] arithmetic

    A [numeric] is a decimal number: [unscaled / 10 ^ dscale], shown with
    [dscale] digits after the point.  The operations below are the ones
    the view uses, with PostgreSQL's rules for the scale of a result: an
    integer cast has scale 0, a product has the sum of the scales, a
    quotient the scale chosen by [select_div_scale], and [round(x, n)]
    has scale [n]. *)

Local Open Scope Z_scope.

Record numeric : Set := {
  unscaled : Z;
  dscale : nat
}.

(** [n::numeric] for an integer [n]. *)
Definition numeric_of_int (n : Z) : numeric :=
  {| unscaled := n; dscale := 0%nat |}.

(** [p / q] rounded to the nearest integer, ties away from zero ([0 < q]). *)
Definition div_round_half_away (p q : Z) : Z :=
  Z.sgn p * ((2 * Z.abs p + q) / (2 * q)).

(** Weight and value of the leading base-10000 digit of [n >= 0]
    ([(0, 0)] for zero): [n] lies in [[d * 10000 ^ w, (d + 1) * 10000 ^ w)]. *)
Fixpoint nbase_leading (fuel : nat) (n : Z) : Z * Z :=
  match fuel with
  | O => (0, n)
  | S fuel' =>
      if n <? 10000 then (0, n)
      else let '(w, d) := nbase_leading fuel' (n / 10000) in (w + 1, d)
  end.

Definition nbase_weight_digit (n : Z) : Z * Z :=
  nbase_leading (S (Z.to_nat (Z.log2 n))) n.

(** [select_div_scale]: the scale of a quotient of two integers, at least
    16 significant digits ([NUMERIC_MIN_SIG_DIGITS]), at most 1000. *)
Definition select_div_scale (a b : Z) : Z :=
  let '(weight1, firstdigit1) := nbase_weight_digit (Z.abs a) in
  let '(weight2, firstdigit2) := nbase_weight_digit (Z.abs b) in
  let qweight :=
    if firstdigit1 <=? firstdigit2 then weight1 - weight2 - 1
    else weight1 - weight2 in
  Z.min (Z.max (16 - qweight * 4) 0) 1000.

(** [a::numeric / b::numeric] for integers [a] and [b]: the quotient
    rounded at the selected scale; dividing by zero raises. *)
Definition numeric_div_integers (a b : Z) : exec numeric :=
  if b =? 0 then Raise division_by_zero
  else
    let rscale := select_div_scale a b in
    Ok {| unscaled :=
            Z.sgn b * div_round_half_away (a * 10 ^ rscale) (Z.abs b);
          dscale := Z.to_nat rscale |}.

(** [x * y]: exact, the scales add up. *)
Definition numeric_mul (x y : numeric) : numeric :=
  {| unscaled := unscaled x * unscaled y;
     dscale := (dscale x + dscale y)%nat |}.

(** [round(x, n)] for [n >= 0]: ties away from zero, result scale [n]. *)
Definition numeric_round (x : numeric) (n : nat) : numeric :=
  if Nat.leb (dscale x) n
  then {| unscaled := unscaled x * 10 ^ Z.of_nat (n - dscale x)%nat;
          dscale := n |}
  else {| unscaled :=
            div_round_half_away (unscaled x) (10 ^ Z.of_nat (dscale x - n)%nat);
          dscale := n |}.

(** [nullif(x, y)] on integers. *)
Definition nullif (x y : Z) : option Z :=
  if x =? y then None else Some x.

(** Division of nullable operands: null when one of them is null. *)
Definition sql_numeric_div (x y : option Z) : exec (option numeric) :=
  match x, y with
  | Some a, Some b => q <- numeric_div_integers a b ;; Ok (Some q)
  | _, _ => Ok None
  end.

(** [coalesce(round((n::numeric / nullif(d::numeric, 0)) * 100, 2), 0)],
    the shape of both rate columns. *)
Definition rate_percent (n d : Z) : exec numeric :=
  q <- sql_numeric_div (Some n) (nullif d 0) ;;
  Ok (coalesce
        (option_map
           (fun x => numeric_round (numeric_mul x (numeric_of_int 100)) 2%nat) q)
        (numeric_of_int 0)).

(** ** The view [screening_stats] *)

Module ScreeningStat.
Record row : Set := {
  screening_id : uuid;
  movie_id : uuid;
  movie_title : option string;
  starts_at : timestamptz;
  ends_at : option timestamptz;
  auditorium : string;
  capacity : Z;
  total_reservations : Z;
  active_reservations : Z;
  checked_in_count : Z;
  occupancy_rate : numeric;
  attendance_rate : numeric;
  created_at : timestamptz;
  updated_at : timestamptz
}.
End ScreeningStat.

(** [r.status in ('pending', 'confirmed', 'checked_in', 'no_show')] *)
Definition status_is_active (st : reservation_status) : bool :=
  reservation_status_eqb st pending
  || reservation_status_eqb st confirmed
  || reservation_status_eqb st checked_in
  || reservation_status_eqb st no_show.

(** [count(r.id) filter (where p)] over the joined rows [rs]. *)
Definition count_filter (p : Reservation.row -> bool)
    (rs : list Reservation.row) : Z :=
  Z.of_nat (List.length (filter p rs)).

(** Rows of [public.reservations r] joined [on r.screening_id = s.id]. *)
Definition reservations_of_screening (s : Screening.row) (db : database)
  : list Reservation.row :=
  filter (fun r => N.eqb (Reservation.screening_id r) (Screening.id s))
         (reservations db).

(** The view's row for screening [s].  [s.id] and [m.id] are primary keys,
    so the group of [s] holds [s] itself, at most one movie, and the
    reservations of [s]. *)
Definition screening_stat (db : database) (s : Screening.row)
  : exec ScreeningStat.row :=
  let m := find (fun m => N.eqb (Movie.id m) (Screening.movie_id s))
                (movies db) in
  let rs := reservations_of_screening s db in
  let total := count_filter (fun _ => true) rs in
  let active :=
    count_filter (fun r => status_is_active (Reservation.status r)) rs in
  let checked :=
    count_filter
      (fun r => reservation_status_eqb (Reservation.status r) checked_in) rs in
  occupancy <- rate_percent total (Screening.capacity s) ;;
  attendance <- rate_percent checked total ;;
  Ok {| ScreeningStat.screening_id := Screening.id s;
        ScreeningStat.movie_id := Screening.movie_id s;
        ScreeningStat.movie_title := option_map Movie.title m;
        ScreeningStat.starts_at := Screening.starts_at s;
        ScreeningStat.ends_at := Screening.ends_at s;
        ScreeningStat.auditorium := Screening.auditorium s;
        ScreeningStat.capacity := Screening.capacity s;
        ScreeningStat.total_reservations := total;
        ScreeningStat.active_reservations := active;
        ScreeningStat.checked_in_count := checked;
        ScreeningStat.occupancy_rate := occupancy;
        ScreeningStat.attendance_rate := attendance;
        ScreeningStat.created_at := Screening.created_at s;
        ScreeningStat.updated_at := Screening.updated_at s |}.

Fixpoint map_exec {A B : Type} (f : A -> exec B) (l : list A)
  : exec (list B) :=
  match l with
  | [] => Ok []
  | x :: l' => y <- f x ;; ys <- map_exec f l' ;; Ok (y :: ys)
  end.

(** [select * from public.screening_stats] *)
Definition screening_stats (db : database) : exec (list ScreeningStat.row) :=
  map_exec (screening_stat db) (screenings db).

(** Reference definition, following the specification's wording rather
    than the view's arithmetic: [100 * n / d] as an exact fraction, rounded
    once to two decimals (ties away from zero), and [0] when [d] is zero. *)
Definition exact_rate_percent (n d : Z) : numeric :=
  if d =? 0 then numeric_of_int 0
  else {| unscaled := Z.sgn d * div_round_half_away (10000 * n) (Z.abs d);
          dscale := 2%nat |}.

(** ** Key constraints as predicates on a database *)

(** [id uuid ... primary key] of [public.reservations]. *)
Definition reservations_pkey (db : database) : Prop :=
  NoDup (map Reservation.id (reservations db)).

(** [constraint reservations_qr_token_unique unique (qr_token)]. *)
Definition reservations_qr_token_unique (db : database) : Prop :=
  NoDup (map Reservation.qr_token (reservations db)).

(** [constraint reservations_user_screening_unique unique (screening_id,
    user_id)]. *)
Definition reservations_user_screening_unique (db : database) : Prop :=
  NoDup (map (fun r => (Reservation.screening_id r, Reservation.user_id r))
             (reservations db)).

(** [id uuid ... primary key] of [public.attendance_logs]. *)
Definition attendance_logs_pkey (db : database) : Prop :=
  NoDup (map AttendanceLog.id (attendance_logs db)).

(** [create unique index attendance_logs_reservation_id_unique]. *)
Definition attendance_logs_reservation_id_unique (db : database) : Prop :=
  NoDup (map AttendanceLog.reservation_id (attendance_logs db)).

(** The unique keys of the two tables the routine writes. *)
Definition unique_keys (db : database) : Prop :=
  reservations_pkey db
  /\ reservations_user_screening_unique db
  /\ reservations_qr_token_unique db
  /\ attendance_logs_pkey db
  /\ attendance_logs_reservation_id_unique db.

(** ** Foreign keys as a predicate on a database

    [screenings.movie_id], [reservations.screening_id],
    [reservations.user_id], [attendance_logs.reservation_id] and
    [attendance_logs.scanned_by] (when not null) name a stored row. *)
Definition foreign_keys (db : database) : Prop :=
  Forall (fun s =>
            existsb (fun m => N.eqb (Movie.id m) (Screening.movie_id s))
                    (movies db) = true)
         (screenings db)
  /\ Forall (fun r =>
               existsb (fun s => N.eqb (Screening.id s)
                                       (Reservation.screening_id r))
                       (screenings db) = true
               /\ existsb (N.eqb (Reservation.user_id r)) (auth_users db)
                  = true)
            (reservations db)
  /\ Forall (fun l =>
               existsb (fun r => N.eqb (Reservation.id r)
                                       (AttendanceLog.reservation_id l))
                       (reservations db) = true
               /\ scanner_is_known (AttendanceLog.scanned_by l) db = true)
            (attendance_logs db).

(** Every reservation that has an attendance log is checked in. *)
Definition logged_reservations_checked_in (db : database) : Prop :=
  forall r, In r (reservations db) ->
            attendance_log_exists (Reservation.id r) db = true ->
            Reservation.status r = checked_in.

(** ** Statements issued through the data hooks *)

Definition set_screenings (ss : list Screening.row) (db : database)
  : database :=
  {| auth_users := auth_users db;
     profiles := profiles db;
     movies := movies db;
     screenings := ss;
     reservations := reservations db;
     attendance_logs := attendance_logs db |}.

Definition set_movies (ms : list Movie.row) (db : database) : database :=
  {| auth_users := auth_users db;
     profiles := profiles db;
     movies := ms;
     screenings := screenings db;
     reservations := reservations db;
     attendance_logs := attendance_logs db |}.

(** Removing the reservations selected by [gone]; [attendance_logs
    .reservation_id ... on delete cascade] removes the logs that reference
    the id of a removed row. *)
Definition delete_reservations_where (gone : Reservation.row -> bool)
    (db : database) : database :=
  let gone_ids := map Reservation.id (filter gone (reservations db)) in
  set_attendance_logs
    (filter (fun l => negb (existsb (N.eqb (AttendanceLog.reservation_id l))
                                    gone_ids))
            (attendance_logs db))
    (set_reservations (filter (fun r => negb (gone r)) (reservations db)) db).

(** Removing the screenings selected by [gone];
    [reservations.screening_id ... on delete cascade] removes their
    reservations, and these their logs. *)
Definition delete_screenings_where (gone : Screening.row -> bool)
    (db : database) : database :=
  let gone_ids := map Screening.id (filter gone (screenings db)) in
  delete_reservations_where
    (fun r => existsb (N.eqb (Reservation.screening_id r)) gone_ids)
    (set_screenings (filter (fun s => negb (gone s)) (screenings db)) db).

(** [delete from public.reservations where id = v_id]: the rows the
    policies let the caller see.  The cascade is not filtered. *)
Definition delete_reservation (sess : session) (v_id : uuid) (db : database)
  : database :=
  delete_reservations_where
    (fun r => N.eqb (Reservation.id r) v_id && reservations_policy sess db r)
    db.

(** [delete from public.screenings where id = v_id], admins only. *)
Definition delete_screening (sess : session) (v_id : uuid) (db : database)
  : database :=
  if current_user_is_admin sess db
  then delete_screenings_where (fun s => N.eqb (Screening.id s) v_id) db
  else db.

(** [delete from public.movies where id = v_id], admins only;
    [screenings.movie_id ... on delete cascade]. *)
Definition delete_movie (sess : session) (v_id : uuid) (db : database)
  : database :=
  if current_user_is_admin sess db
  then
    let gone m := N.eqb (Movie.id m) v_id in
    let gone_ids := map Movie.id (filter gone (movies db)) in
    delete_screenings_where
      (fun s => existsb (N.eqb (Screening.movie_id s)) gone_ids)
      (set_movies (filter (fun m => negb (gone m)) (movies db)) db)
  else db.

(** [delete from public.attendance_logs where id = v_id], admins only. *)
Definition delete_attendance_log (sess : session) (v_id : uuid)
    (db : database) : database :=
  if current_user_is_admin sess db
  then set_attendance_logs
         (filter (fun l => negb (N.eqb (AttendanceLog.id l) v_id))
                 (attendance_logs db))
         db
  else db.

(** The row written by [update public.reservations set status =
    new_status, seat_label = new_seat_label]; the trigger
    [reservations_set_updated_at] ([handle_timestamp_updated_at]) stamps
    it with [now()]. *)
Definition edited_row (sess : session) (new_status : reservation_status)
    (new_seat_label : option string) (r : Reservation.row)
  : Reservation.row :=
  {| Reservation.id := Reservation.id r;
     Reservation.screening_id := Reservation.screening_id r;
     Reservation.user_id := Reservation.user_id r;
     Reservation.status := new_status;
     Reservation.seat_label := new_seat_label;
     Reservation.qr_token := Reservation.qr_token r;
     Reservation.reserved_at := Reservation.reserved_at r;
     Reservation.created_at := Reservation.created_at r;
     Reservation.updated_at := now sess |}.

(** [update public.reservations set status = new_status, seat_label =
    new_seat_label where id = v_id], the statement behind the edit form:
    the rows the policies let the caller see are rewritten. *)
Definition update_reservation (sess : session) (v_id : uuid)
    (new_status : reservation_status) (new_seat_label : option string)
    (db : database) : database :=
  set_reservations
    (map (fun r =>
            if N.eqb (Reservation.id r) v_id && reservations_policy sess db r
            then edited_row sess new_status new_seat_label r
            else r)
         (reservations db))
    db.

(** [insert into public.attendance_logs (reservation_id, scanned_by)], as
    sent by the attendance hook: the policy is checked on the new row
    before the constraints. *)
Definition create_attendance_log (sess : session) (v_id : uuid)
    (p_scanner : option uuid) (db : database) : exec database :=
  if current_user_is_admin sess db
  then insert_attendance_log sess v_id p_scanner db
  else Raise (insufficient_privilege "attendance_logs").

(** [constraint screenings_time_range check (ends_at is null or ends_at >
    starts_at)]. *)
Definition screenings_time_range (s : Screening.row) : bool :=
  match Screening.ends_at s with
  | None => true
  | Some e => Screening.starts_at s <? e
  end.

(** [insert into public.screenings values (new_row)] with every column
    given: the policy (admins only) is checked on the new row, then the
    check constraints, then the primary key, and the foreign key at the
    end of the statement. *)
Definition insert_screening (sess : session) (new_row : Screening.row)
    (db : database) : exec database :=
  if negb (current_user_is_admin sess db)
  then Raise (insufficient_privilege "screenings")
  else if negb (0 <? Screening.capacity new_row)
  then Raise (check_violation "screenings_capacity_check")
  else if negb (screenings_time_range new_row)
  then Raise (check_violation "screenings_time_range")
  else if existsb (fun s => N.eqb (Screening.id s) (Screening.id new_row))
                  (screenings db)
  then Raise (unique_violation "screenings_pkey")
  else if negb (existsb (fun m => N.eqb (Movie.id m)
                                        (Screening.movie_id new_row))
                        (movies db))
  then Raise (foreign_key_violation "screenings_movie_id_fkey")
  else Ok (set_screenings (screenings db ++ [new_row]) db).

(** ** Sample data *)

Definition sample_reservation (i s u : uuid) (st : reservation_status)
    (tok : string) : Reservation.row :=
  {| Reservation.id := i;
     Reservation.screening_id := s;
     Reservation.user_id := u;
     Reservation.status := st;
     Reservation.seat_label := None;
     Reservation.qr_token := tok;
     Reservation.reserved_at := 0;
     Reservation.created_at := 0;
     Reservation.updated_at := 0 |}.
Arguments sample_reservation (i s u)%_N st tok%_string.

Definition sample_movie : Movie.row :=
  {| Movie.id := 1000%N;
     Movie.title := "Dune Part 2";
     Movie.synopsis := None;
     Movie.duration_minutes := Some 166;
     Movie.rating := None;
     Movie.poster_url := None;
     Movie.is_active := true;
     Movie.created_at := 0;
     Movie.updated_at := 0 |}.

Definition sample_screening : Screening.row :=
  {| Screening.id := 100%N;
     Screening.movie_id := 1000%N;
     Screening.starts_at := 1000;
     Screening.ends_at := None;
     Screening.auditorium := "Sala 1";
     Screening.capacity := 50;
     Screening.notes := None;
     Screening.created_at := 0;
     Screening.updated_at := 0 |}.

(** User 1 is an admin, user 2 a student.  Reservation 10 is confirmed,
    11 is cancelled, 12 is confirmed with a token made of one space, and
    13 is cancelled with a token made of two spaces. *)
Definition sample_db : database :=
  {| auth_users := [1; 2; 3; 4; 5]%N;
     profiles :=
       [ {| Profile.user_id := 1%N; Profile.role := "admin" |};
         {| Profile.user_id := 2%N; Profile.role := "student" |} ];
     movies := [sample_movie];
     screenings := [sample_screening];
     reservations :=
       [ sample_reservation 10 100 2 confirmed "a1b2c3d4e5f60718";
         sample_reservation 11 100 3 cancelled "0f1e2d3c4b5a6978";
         sample_reservation 12 100 4 confirmed " ";
         sample_reservation 13 100 5 cancelled "  " ];
     attendance_logs := [] |}.

Definition admin_session : session :=
  {| auth_uid := Some 1%N; now := 5000; gen_random_uuid := 900%N |}.

Definition student_session : session :=
  {| auth_uid := Some 2%N; now := 5000; gen_random_uuid := 900%N |}.



(** [sample_db] after an admin has scanned the token of reservation 10. *)
Definition sample_scanned_db : database :=
  checked_in_db admin_session
    (sample_reservation 10 100 2 confirmed "a1b2c3d4e5f60718") (Some 1%N)
    sample_db.

(** Later calls: the same token again, a student, a cancelled
    reservation's token, an unknown token. *)
Definition sample_calls : list call :=
  [ {| call_session := admin_session;
       call_token := Some "a1b2c3d4e5f60718";
       call_scanner := Some 1%N |};
    {| call_session := student_session;
       call_token := Some "a1b2c3d4e5f60718";
       call_scanner := None |};
    {| call_session := admin_session;
       call_token := Some "0f1e2d3c4b5a6978";
       call_scanner := Some 1%N |};
    {| call_session := admin_session;
       call_token := Some "deadbeefdeadbeef";
       call_scanner := None |} ].

(** The screening of "Dune Part 2" with capacity 50 and thirty
    reservations, ten of them checked in and twenty confirmed. *)
Definition dune_reservation (i : nat) : Reservation.row :=
  {| Reservation.id := N.of_nat (200 + i);
     Reservation.screening_id := 100%N;
     Reservation.user_id := N.of_nat (300 + i);
     Reservation.status := if Nat.ltb i 10 then checked_in else confirmed;
     Reservation.seat_label := None;
     Reservation.qr_token := String (ascii_of_nat (48 + i)) "dune";
     Reservation.reserved_at := 0;
     Reservation.created_at := 0;
     Reservation.updated_at := 0 |}.

Definition dune_db : database :=
  {| auth_users := map (fun i => N.of_nat (300 + i)) (seq 0 30);
     profiles := [ {| Profile.user_id := 1%N; Profile.role := "admin" |} ];
     movies := [sample_movie];
     screenings := [sample_screening];
     reservations := map dune_reservation (seq 0 30);
     attendance_logs := [] |}.

(** The columns of a reservation that no call of the routine writes. *)
Definition reservation_fixed_columns (r : Reservation.row) :=
  (Reservation.id r, Reservation.screening_id r, Reservation.user_id r,
   Reservation.seat_label r, Reservation.qr_token r,
   Reservation.reserved_at r, Reservation.created_at r).

(** [sample_db] with a screening of capacity 4, which its four
    reservations fill. *)
Definition full_screening : Screening.row :=
  {| Screening.id := 100%N;
     Screening.movie_id := 1000%N;
     Screening.starts_at := 1000;
     Screening.ends_at := None;
     Screening.auditorium := "Sala 1";
     Screening.capacity := 4;
     Screening.notes := None;
     Screening.created_at := 0;
     Screening.updated_at := 0 |}.

Definition full_db : database := set_screenings [full_screening] sample_db.

(** Proves [NoDup] of a list of distinct literals. *)
Ltac nodup_by_computation :=
  repeat (constructor;
          [simpl; intros H;
           repeat (destruct H as [H|H]; [discriminate|]); exact H|]);
  constructor.

(** [id uuid ... primary key] of [public.screenings]. *)
Definition screenings_pkey (db : database) : Prop :=
  NoDup (map Screening.id (screenings db)).

(** [sample_db] with a second movie, shown once in another room. *)
Definition second_movie : Movie.row :=
  {| Movie.id := 2000%N;
     Movie.title := "Interstellar";
     Movie.synopsis := None;
     Movie.duration_minutes := Some 169;
     Movie.rating := None;
     Movie.poster_url := None;
     Movie.is_active := true;
     Movie.created_at := 0;
     Movie.updated_at := 0 |}.

Definition second_screening : Screening.row :=
  {| Screening.id := 200%N;
     Screening.movie_id := 2000%N;
     Screening.starts_at := 2000;
     Screening.ends_at := Some 3000;
     Screening.auditorium := "Sala 2";
     Screening.capacity := 80;
     Screening.notes := None;
     Screening.created_at := 0;
     Screening.updated_at := 0 |}.

Definition two_movie_db : database :=
  set_reservations
    (reservations sample_db
     ++ [sample_reservation 30 200 2 confirmed "9988776655443322"])
    (set_screenings [sample_screening; second_screening]
       (set_movies [sample_movie; second_movie] sample_db)).

(** * Properties *)

(** ** Basic facts *)

Lemma reservation_status_eqb_eq (a b : reservation_status) :
  reservation_status_eqb a b = true <-> a = b.
Proof. destruct a, b; simpl; split; congruence. Qed.

Lemma reservation_status_eqb_neq (a b : reservation_status) :
  reservation_status_eqb a b = false <-> a <> b.
Proof. destruct a, b; simpl; split; congruence. Qed.

Lemma only_spaces_ltrim (s : string) :
  only_spaces (ltrim s) = only_spaces s.
Proof.
  induction s as [|c s IH]; simpl; [reflexivity|].
  destruct (is_space c) eqn:Hc; simpl.
  - exact IH.
  - rewrite Hc. reflexivity.
Qed.

Lemma rtrim_empty (s : string) :
  String.eqb (rtrim s) "" = only_spaces s.
Proof.
  induction s as [|c s IH]; simpl; [reflexivity|].
  destruct (rtrim s) eqn:Hr; simpl in *.
  - rewrite <- IH. destruct (is_space c); reflexivity.
  - rewrite <- IH. rewrite andb_false_r. reflexivity.
Qed.

(** The guard [coalesce(trim(p_token), '') = ''] holds for a non-null token
    exactly when every character of it is a space. *)
Lemma token_is_blank_Some (t : string) :
  token_is_blank (Some t) = only_spaces t.
Proof.
  unfold token_is_blank, trim; simpl.
  rewrite rtrim_empty. apply only_spaces_ltrim.
Qed.

Section FindFacts.
Context {A K : Type} (key : A -> K) (eqb : K -> K -> bool).
Hypothesis eqb_spec : forall x y, eqb x y = true <-> x = y.

(** Looking a row up by a unique key returns that row. *)
Lemma find_unique_key (l : list A) (r : A) :
  NoDup (map key l) -> In r l ->
  find (fun x => eqb (key x) (key r)) l = Some r.
Proof.
  induction l as [|x l IH]; simpl; intros Hnd Hin; [contradiction|].
  inversion Hnd as [|? ? Hx Hnd']; subst.
  destruct Hin as [->|Hin].
  - replace (eqb (key r) (key r)) with true; [reflexivity|].
    symmetry. apply eqb_spec. reflexivity.
  - destruct (eqb (key x) (key r)) eqn:E.
    + apply eqb_spec in E. exfalso. apply Hx. rewrite E.
      apply in_map. exact Hin.
    + apply IH; assumption.
Qed.

(** An update that keeps the key does not change which row is found. *)
Lemma find_map_key (f : A -> A) (k : K) (l : list A) :
  (forall x, key (f x) = key x) ->
  find (fun x => eqb (key x) k) (map f l)
  = option_map f (find (fun x => eqb (key x) k) l).
Proof.
  intros Hf. induction l as [|x l IH]; simpl; [reflexivity|].
  rewrite Hf. destruct (eqb (key x) k); [reflexivity|exact IH].
Qed.

Lemma find_none_key (k : K) (l : list A) :
  (forall x, In x l -> key x <> k) ->
  find (fun x => eqb (key x) k) l = None.
Proof.
  intros H. induction l as [|x l IH]; simpl; [reflexivity|].
  destruct (eqb (key x) k) eqn:E.
  - apply eqb_spec in E. exfalso. apply (H x); [left; reflexivity|exact E].
  - apply IH. intros y Hy. apply H. right. exact Hy.
Qed.
End FindFacts.

Lemma select_reservation_by_token_unique (db : database)
    (r : Reservation.row) :
  reservations_qr_token_unique db -> In r (reservations db) ->
  select_reservation_by_token (Reservation.qr_token r) db = Some r.
Proof.
  intros Hu Hin. unfold select_reservation_by_token.
  apply (find_unique_key Reservation.qr_token String.eqb String.eqb_eq);
    assumption.
Qed.

Lemma select_reservation_by_token_none (db : database) (t : string) :
  (forall r, In r (reservations db) -> Reservation.qr_token r <> t) ->
  select_reservation_by_token t db = None.
Proof.
  intros H. unfold select_reservation_by_token.
  apply (find_none_key Reservation.qr_token String.eqb String.eqb_eq).
  exact H.
Qed.

(** ** The branches of [validate_reservation_qr]

    One lemma per [return] of the routine, each under the conditions that
    lead to it. *)

Lemma validate_unauthorized sess p_token p_scanner db :
  current_user_is_admin sess db = false ->
  validate_reservation_qr sess p_token p_scanner db
  = Ok (unauthorized_result, db).
Proof. unfold validate_reservation_qr. intros ->. reflexivity. Qed.

Lemma validate_blank sess p_token p_scanner db :
  current_user_is_admin sess db = true ->
  token_is_blank p_token = true ->
  validate_reservation_qr sess p_token p_scanner db
  = Ok (invalid_token_result, db).
Proof. unfold validate_reservation_qr. intros -> ->. reflexivity. Qed.

Lemma validate_not_found sess t p_scanner db :
  current_user_is_admin sess db = true ->
  token_is_blank (Some t) = false ->
  select_reservation_by_token t db = None ->
  validate_reservation_qr sess (Some t) p_scanner db
  = Ok (not_found_result, db).
Proof.
  unfold validate_reservation_qr. intros -> -> ->. reflexivity.
Qed.

Lemma validate_cancelled sess t p_scanner db r :
  current_user_is_admin sess db = true ->
  token_is_blank (Some t) = false ->
  select_reservation_by_token t db = Some r ->
  Reservation.status r = cancelled ->
  validate_reservation_qr sess (Some t) p_scanner db
  = Ok (cancelled_result r, db).
Proof.
  unfold validate_reservation_qr, cancelled_result. intros -> -> -> Hst.
  simpl. rewrite Hst. reflexivity.
Qed.

Lemma validate_already_scanned sess t p_scanner db r :
  current_user_is_admin sess db = true ->
  token_is_blank (Some t) = false ->
  select_reservation_by_token t db = Some r ->
  Reservation.status r <> cancelled ->
  attendance_log_exists (Reservation.id r) db = true ->
  validate_reservation_qr sess (Some t) p_scanner db
  = Ok (already_scanned_result r, db).
Proof.
  unfold validate_reservation_qr. intros -> -> -> Hst ->.
  apply reservation_status_eqb_neq in Hst. simpl. rewrite Hst. reflexivity.
Qed.

Lemma find_some_in {A : Type} (p : A -> bool) (l : list A) (x : A) :
  find p l = Some x -> In x l /\ p x = true.
Proof. apply find_some. Qed.

Lemma insert_attendance_log_ok sess v_id p_scanner db :
  log_id_is_new sess db = true ->
  attendance_log_exists v_id db = false ->
  (exists r, In r (reservations db) /\ Reservation.id r = v_id) ->
  scanner_is_known p_scanner db = true ->
  insert_attendance_log sess v_id p_scanner db
  = Ok (set_attendance_logs
          (attendance_logs db ++ [new_attendance_log sess v_id p_scanner]) db).
Proof.
  unfold insert_attendance_log, log_id_is_new, attendance_log_exists,
    scanner_is_known.
  intros Hnew Hlog [r [Hin Hid]] Hsc. simpl.
  apply negb_true_iff in Hnew. rewrite Hnew, Hlog.
  assert (Hfk : existsb (fun x => N.eqb (Reservation.id x) v_id)
                        (reservations db) = true).
  { apply existsb_exists. exists r. split; [exact Hin|].
    apply N.eqb_eq. exact Hid. }
  rewrite Hfk. simpl.
  destruct p_scanner as [u|]; [rewrite Hsc|]; reflexivity.
Qed.

(** The row read back after the update is the first row with the id of
    [r], checked in. *)
Lemma reread_after_update sess (r : Reservation.row) db :
  In r (reservations db) ->
  exists x,
    select_reservation_by_id (Reservation.id r) db = Some x
    /\ Reservation.id x = Reservation.id r
    /\ select_reservation_by_id (Reservation.id r)
         (update_reservation_checked_in sess (Reservation.id r) db)
       = Some (check_in_row sess x).
Proof.
  intros Hin. unfold select_reservation_by_id, update_reservation_checked_in.
  simpl.
  destruct (find (fun x => N.eqb (Reservation.id x) (Reservation.id r))
                 (reservations db)) as [x|] eqn:Hf.
  - exists x. destruct (find_some_in _ _ _ Hf) as [_ Hx].
    split; [reflexivity|]. split; [apply N.eqb_eq; exact Hx|].
    rewrite (find_map_key Reservation.id N.eqb).
    + rewrite Hf. simpl. rewrite Hx. reflexivity.
    + intros y. destruct (N.eqb (Reservation.id y) (Reservation.id r));
        reflexivity.
  - exfalso. apply (find_none _ _ Hf) in Hin. rewrite N.eqb_refl in Hin.
    discriminate.
Qed.

Lemma validate_success sess t p_scanner db r :
  current_user_is_admin sess db = true ->
  token_is_blank (Some t) = false ->
  select_reservation_by_token t db = Some r ->
  Reservation.status r <> cancelled ->
  attendance_log_exists (Reservation.id r) db = false ->
  log_id_is_new sess db = true ->
  scanner_is_known p_scanner db = true ->
  exists x,
    select_reservation_by_id (Reservation.id r) db = Some x
    /\ Reservation.id x = Reservation.id r
    /\ validate_reservation_qr sess (Some t) p_scanner db
       = Ok (checked_in_result x, checked_in_db sess r p_scanner db).
Proof.
  intros Hadm Hb Hsel Hst Hlog Hnew Hsc.
  destruct (find_some_in _ _ _ Hsel) as [Hin _].
  unfold validate_reservation_qr. rewrite Hadm, Hb, Hsel, Hlog. simpl.
  apply reservation_status_eqb_neq in Hst. rewrite Hst.
  rewrite (insert_attendance_log_ok sess (Reservation.id r) p_scanner db);
    try assumption; [|exists r; split; [assumption|reflexivity]].
  simpl.
  destruct (reread_after_update sess r
              (set_attendance_logs
                 (attendance_logs db
                  ++ [new_attendance_log sess (Reservation.id r) p_scanner])
                 db) Hin) as [x [Hx [Hid Hre]]].
  exists x. split; [exact Hx|]. split; [exact Hid|].
  rewrite Hre. simpl. unfold checked_in_result. rewrite Hid. reflexivity.
Qed.

(** ** Guard order *)

(** C3 (as amended): the guards are tried in the order authorization,
    token shape, lookup, cancelled, duplicate log; the first one that
    fires decides the result and the database stays as it is.  In
    particular a caller who is not an admin gets [is_valid = false], null
    identifiers, [already_scanned = false] and the message
    'Solo personal autorizado puede validar códigos.', whatever the token
    and whatever the reservations table holds. *)
Theorem validate_guard_order (sess : session) (p_scanner : option uuid)
    (db : database) :
  (forall p_token,
      current_user_is_admin sess db = false ->
      validate_reservation_qr sess p_token p_scanner db
      = Ok ({| reservation_id := None; screening_id := None;
               status := Some cancelled;
               message := "Solo personal autorizado puede validar códigos.";
               already_scanned := false; is_valid := false |}, db))
  /\ (forall p_token,
      current_user_is_admin sess db = true ->
      token_is_blank p_token = true ->
      validate_reservation_qr sess p_token p_scanner db
      = Ok (invalid_token_result, db))
  /\ (forall t,
      current_user_is_admin sess db = true ->
      token_is_blank (Some t) = false ->
      select_reservation_by_token t db = None ->
      validate_reservation_qr sess (Some t) p_scanner db
      = Ok (not_found_result, db))
  /\ (forall t r,
      current_user_is_admin sess db = true ->
      token_is_blank (Some t) = false ->
      select_reservation_by_token t db = Some r ->
      Reservation.status r = cancelled ->
      validate_reservation_qr sess (Some t) p_scanner db
      = Ok (cancelled_result r, db))
  /\ (forall t r,
      current_user_is_admin sess db = true ->
      token_is_blank (Some t) = false ->
      select_reservation_by_token t db = Some r ->
      Reservation.status r <> cancelled ->
      attendance_log_exists (Reservation.id r) db = true ->
      validate_reservation_qr sess (Some t) p_scanner db
      = Ok (already_scanned_result r, db)).
Proof.
  repeat split; intros.
  - apply validate_unauthorized; assumption.
  - apply validate_blank; assumption.
  - apply validate_not_found; assumption.
  - apply validate_cancelled; assumption.
  - apply validate_already_scanned; assumption.
Qed.

(** A student scanning the token of a cancelled reservation is turned away
    by the first guard. *)
Lemma validate_guard_order_witness :
  validate_reservation_qr student_session (Some "0f1e2d3c4b5a6978") None
    sample_db
  = Ok ({| reservation_id := None; screening_id := None;
           status := Some cancelled;
           message := "Solo personal autorizado puede validar códigos.";
           already_scanned := false; is_valid := false |}, sample_db).
Proof.
  apply (proj1 (validate_guard_order student_session None sample_db)).
  reflexivity.
Defined.

(** The message returned to a caller who is not an admin is the Spanish
    text of the routine, not the English wording. *)
Lemma unauthorized_message_literal :
  current_user_is_admin student_session sample_db = false
  /\ exists res,
    validate_reservation_qr student_session (Some "a1b2c3d4e5f60718") None
      sample_db = Ok (res, sample_db)
    /\ is_valid res = false
    /\ message res = "Solo personal autorizado puede validar códigos."
    /\ message res <> "only authorized staff may validate codes".
Proof.
  split; [reflexivity|].
  eexists. split; [reflexivity|]. repeat split. discriminate.
Qed.

(** ** Blank tokens *)




(** ** Unknown tokens *)

(** C5 (as amended): for every token that matches no reservation's
    [qr_token], a call by an admin returns [is_valid = false],
    [already_scanned = false], null identifiers, and leaves the database
    as it is; the message is 'No se encontró una reserva para este código.'
    when the token has a character other than a space, and
    'Código QR inválido.' when it has none. *)
Theorem validate_unknown_token (sess : session) (t : string)
    (p_scanner : option uuid) (db : database) :
  current_user_is_admin sess db = true ->
  (forall r, In r (reservations db) -> Reservation.qr_token r <> t) ->
  exists res,
    validate_reservation_qr sess (Some t) p_scanner db = Ok (res, db)
    /\ is_valid res = false
    /\ already_scanned res = false
    /\ reservation_id res = None
    /\ screening_id res = None
    /\ (only_spaces t = false ->
        message res = "No se encontró una reserva para este código.")
    /\ (only_spaces t = true -> message res = "Código QR inválido.").
Proof.
  intros Hadm Hno.
  destruct (only_spaces t) eqn:Hsp.
  - exists invalid_token_result. split.
    + apply validate_blank; [exact Hadm|].
      rewrite token_is_blank_Some. exact Hsp.
    + repeat split; intros; congruence.
  - exists not_found_result. split.
    + apply validate_not_found; [exact Hadm| |].
      * rewrite token_is_blank_Some. exact Hsp.
      * apply select_reservation_by_token_none. exact Hno.
    + repeat split; intros; congruence.
Qed.

Lemma validate_unknown_token_witness :
  exists res,
    validate_reservation_qr admin_session (Some "deadbeefdeadbeef") None
      sample_db = Ok (res, sample_db)
    /\ is_valid res = false
    /\ already_scanned res = false
    /\ reservation_id res = None
    /\ screening_id res = None
    /\ (only_spaces "deadbeefdeadbeef" = false ->
        message res = "No se encontró una reserva para este código.")
    /\ (only_spaces "deadbeefdeadbeef" = true ->
        message res = "Código QR inválido.").
Proof.
  apply validate_unknown_token.
  - reflexivity.
  - intros r Hin. simpl in Hin.
    repeat (destruct Hin as [<-|Hin]; [discriminate|]). contradiction.
Defined.

(** A token of three spaces is not empty and matches no reservation, and
    the answer is the one for a malformed code, not the one of the lookup. *)
Lemma space_token_is_not_looked_up :
  current_user_is_admin admin_session sample_db = true
  /\ (forall r, In r (reservations sample_db) ->
                Reservation.qr_token r <> "   ")
  /\ exists res,
      validate_reservation_qr admin_session (Some "   ") None sample_db
      = Ok (res, sample_db)
      /\ message res = "Código QR inválido."
      /\ message res <> "No se encontró una reserva para este código."
      /\ message res <> "no reservation found for this code".
Proof.
  split; [reflexivity|]. split.
  - intros r Hin. simpl in Hin.
    repeat (destruct Hin as [<-|Hin]; [discriminate|]). contradiction.
  - eexists. split; [reflexivity|]. split; [reflexivity|].
    split; discriminate.
Qed.

(** ** Results that name no reservation *)

(** C10: when the caller is not an admin, when the token is blank and when
    the token matches no reservation, the [status] field of the result is
    the enum value ['cancelled'], not null, although the identifiers are
    null. *)
Theorem validate_status_without_reservation (sess : session)
    (p_token : option string) (p_scanner : option uuid) (db : database) :
  (current_user_is_admin sess db = false
   \/ token_is_blank p_token = true
   \/ exists t, p_token = Some t /\ select_reservation_by_token t db = None) ->
  exists res,
    validate_reservation_qr sess p_token p_scanner db = Ok (res, db)
    /\ status res = Some cancelled
    /\ reservation_id res = None
    /\ screening_id res = None
    /\ is_valid res = false.
Proof.
  intros H.
  destruct (current_user_is_admin sess db) eqn:Hadm.
  - destruct (token_is_blank p_token) eqn:Hb.
    + exists invalid_token_result. split; [|repeat split].
      apply validate_blank; assumption.
    + destruct H as [H|[H|[t [-> Hsel]]]]; try discriminate.
      exists not_found_result. split; [|repeat split].
      apply validate_not_found; assumption.
  - exists unauthorized_result. split; [|repeat split].
    apply validate_unauthorized; assumption.
Qed.

Lemma validate_status_without_reservation_witness :
  exists res,
    validate_reservation_qr admin_session (Some "deadbeefdeadbeef") None
      sample_db = Ok (res, sample_db)
    /\ status res = Some cancelled
    /\ reservation_id res = None
    /\ screening_id res = None
    /\ is_valid res = false.
Proof.
  apply validate_status_without_reservation.
  right. right. exists "deadbeefdeadbeef". split; reflexivity.
Defined.

(** ** Cancelled reservations *)

(** C4 (as amended): for every cancelled reservation, a call by an admin
    with its token changes nothing in the database and returns
    [is_valid = false] and [already_scanned = false]; when the token has
    a character other than a space the result carries the reservation and
    screening identifiers, the status ['cancelled'] and the message
    'La reserva está cancelada y no puede registrarse asistencia.'. *)
Theorem validate_cancelled_reservation (sess : session)
    (p_scanner : option uuid) (db : database) (r : Reservation.row) :
  current_user_is_admin sess db = true ->
  reservations_qr_token_unique db ->
  In r (reservations db) ->
  Reservation.status r = cancelled ->
  exists res,
    validate_reservation_qr sess (Some (Reservation.qr_token r)) p_scanner db
    = Ok (res, db)
    /\ is_valid res = false
    /\ already_scanned res = false
    /\ (only_spaces (Reservation.qr_token r) = false ->
        res = {| reservation_id := Some (Reservation.id r);
                 screening_id := Some (Reservation.screening_id r);
                 status := Some cancelled;
                 message :=
                   "La reserva está cancelada y no puede registrarse asistencia.";
                 already_scanned := false; is_valid := false |}).
Proof.
  intros Hadm Hu Hin Hst.
  destruct (only_spaces (Reservation.qr_token r)) eqn:Hsp.
  - exists invalid_token_result. split; [|repeat split; discriminate].
    apply validate_blank; [exact Hadm|].
    rewrite token_is_blank_Some. exact Hsp.
  - exists (cancelled_result r). split; [|repeat split].
    + apply validate_cancelled; try assumption.
      * rewrite token_is_blank_Some. exact Hsp.
      * apply select_reservation_by_token_unique; assumption.
    + intros _. unfold cancelled_result. rewrite Hst. reflexivity.
Qed.

Lemma sample_db_tokens_unique : reservations_qr_token_unique sample_db.
Proof.
  unfold reservations_qr_token_unique. simpl.
  repeat (constructor; [simpl; intros H;
    repeat (destruct H as [H|H]; [discriminate|]); exact H|]).
  constructor.
Qed.

Lemma sample_db_pkey : reservations_pkey sample_db.
Proof.
  unfold reservations_pkey. simpl.
  repeat (constructor; [simpl; intros H;
    repeat (destruct H as [H|H]; [discriminate|]); exact H|]).
  constructor.
Qed.

Lemma validate_cancelled_reservation_witness :
  exists res,
    validate_reservation_qr admin_session (Some "0f1e2d3c4b5a6978") None
      sample_db = Ok (res, sample_db)
    /\ is_valid res = false
    /\ already_scanned res = false
    /\ (only_spaces "0f1e2d3c4b5a6978" = false ->
        res = {| reservation_id := Some 11%N;
                 screening_id := Some 100%N;
                 status := Some cancelled;
                 message :=
                   "La reserva está cancelada y no puede registrarse asistencia.";
                 already_scanned := false; is_valid := false |}).
Proof.
  apply (validate_cancelled_reservation admin_session None sample_db
           (sample_reservation 11 100 3 cancelled "0f1e2d3c4b5a6978")).
  - reflexivity.
  - exact sample_db_tokens_unique.
  - simpl. right. left. reflexivity.
  - reflexivity.
Defined.

(** Reservation 13 is cancelled and its token is two spaces: scanning it
    returns the answer for a malformed code, with null identifiers.  For
    reservation 11 the message is the Spanish text. *)
Lemma cancelled_blank_token_has_no_identifiers :
  current_user_is_admin admin_session sample_db = true
  /\ In (sample_reservation 13 100 5 cancelled "  ") (reservations sample_db)
  /\ (exists res,
        validate_reservation_qr admin_session (Some "  ") None sample_db
        = Ok (res, sample_db)
        /\ reservation_id res = None
        /\ screening_id res = None
        /\ message res = "Código QR inválido.")
  /\ (exists res,
        validate_reservation_qr admin_session (Some "0f1e2d3c4b5a6978") None
          sample_db = Ok (res, sample_db)
        /\ message res
           = "La reserva está cancelada y no puede registrarse asistencia."
        /\ message res
           <> "reservation is cancelled and cannot be checked in").
Proof.
  split; [reflexivity|].
  split; [simpl; tauto|]. split.
  - eexists. split; [reflexivity|]. repeat split.
  - eexists. split; [reflexivity|]. split; [reflexivity|discriminate].
Qed.

(** ** A successful scan *)

Lemma count_attendance_logs_none (v_id : uuid) (db : database) :
  attendance_log_exists v_id db = false -> count_attendance_logs v_id db = 0%nat.
Proof.
  unfold attendance_log_exists, count_attendance_logs.
  induction (attendance_logs db) as [|l ls IH]; simpl; [reflexivity|].
  intros H. apply orb_false_iff in H. destruct H as [Hl Hls].
  rewrite Hl. apply IH. exact Hls.
Qed.

Lemma count_attendance_logs_checked_in sess r p_scanner db (v_id : uuid) :
  count_attendance_logs v_id (checked_in_db sess r p_scanner db)
  = (count_attendance_logs v_id db
     + if N.eqb (Reservation.id r) v_id then 1 else 0)%nat.
Proof.
  unfold count_attendance_logs, checked_in_db. simpl.
  rewrite filter_app, length_app. simpl.
  destruct (N.eqb (Reservation.id r) v_id); reflexivity.
Qed.

(** C1 (as amended): let the key constraints of [reservations] hold and
    let [r] be a reservation that is not cancelled, has no attendance log
    and whose token has a character other than a space.  When an admin
    calls the routine with that token and a scanner that is null or a
    known user (the id drawn for the new log being unused), the routine
    adds exactly one attendance log, carrying the id of [r] and the
    scanner, sets the status of [r] to ['checked_in'] and its
    [updated_at] to [now()], changes nothing else, and returns
    [is_valid = true], [already_scanned = false], the message
    'Asistencia registrada correctamente.', both identifiers and the
    status ['checked_in']. *)
Theorem validate_checks_in (sess : session) (p_scanner : option uuid)
    (db : database) (r : Reservation.row) :
  current_user_is_admin sess db = true ->
  reservations_pkey db ->
  reservations_qr_token_unique db ->
  In r (reservations db) ->
  only_spaces (Reservation.qr_token r) = false ->
  Reservation.status r <> cancelled ->
  attendance_log_exists (Reservation.id r) db = false ->
  scanner_is_known p_scanner db = true ->
  log_id_is_new sess db = true ->
  exists db',
    validate_reservation_qr sess (Some (Reservation.qr_token r)) p_scanner db
    = Ok ({| reservation_id := Some (Reservation.id r);
             screening_id := Some (Reservation.screening_id r);
             status := Some checked_in;
             message := "Asistencia registrada correctamente.";
             already_scanned := false; is_valid := true |}, db')
    /\ attendance_logs db'
       = (attendance_logs db
          ++ [ {| AttendanceLog.id := gen_random_uuid sess;
                  AttendanceLog.reservation_id := Reservation.id r;
                  AttendanceLog.scanned_by := p_scanner;
                  AttendanceLog.scanned_at := now sess;
                  AttendanceLog.created_at := now sess |} ])%list
    /\ count_attendance_logs (Reservation.id r) db' = 1%nat
    /\ reservations db'
       = map (fun x => if N.eqb (Reservation.id x) (Reservation.id r)
                       then check_in_row sess x else x)
             (reservations db)
    /\ select_reservation_by_token (Reservation.qr_token r) db'
       = Some {| Reservation.id := Reservation.id r;
                 Reservation.screening_id := Reservation.screening_id r;
                 Reservation.user_id := Reservation.user_id r;
                 Reservation.status := checked_in;
                 Reservation.seat_label := Reservation.seat_label r;
                 Reservation.qr_token := Reservation.qr_token r;
                 Reservation.reserved_at := Reservation.reserved_at r;
                 Reservation.created_at := Reservation.created_at r;
                 Reservation.updated_at := now sess |}
    /\ (forall x, In x (reservations db) ->
                  Reservation.id x <> Reservation.id r ->
                  In x (reservations db'))
    /\ auth_users db' = auth_users db
    /\ profiles db' = profiles db
    /\ movies db' = movies db
    /\ screenings db' = screenings db.
Proof.
  intros Hadm Hpk Hu Hin Hsp Hst Hlog Hsc Hnew.
  assert (Hsel : select_reservation_by_token (Reservation.qr_token r) db
                 = Some r)
    by (apply select_reservation_by_token_unique; assumption).
  assert (Hb : token_is_blank (Some (Reservation.qr_token r)) = false)
    by (rewrite token_is_blank_Some; exact Hsp).
  destruct (validate_success sess _ p_scanner db r Hadm Hb Hsel Hst Hlog
              Hnew Hsc) as [x [Hx [_ Hval]]].
  assert (Hxr : x = r).
  { unfold select_reservation_by_id in Hx.
    rewrite (find_unique_key Reservation.id N.eqb N.eqb_eq) in Hx;
      [congruence|exact Hpk|exact Hin]. }
  subst x.
  exists (checked_in_db sess r p_scanner db).
  split; [exact Hval|].
  split; [reflexivity|].
  split.
  { rewrite count_attendance_logs_checked_in, N.eqb_refl.
    rewrite count_attendance_logs_none by exact Hlog. reflexivity. }
  split; [reflexivity|].
  split.
  { unfold select_reservation_by_token, checked_in_db. simpl.
    rewrite (find_map_key Reservation.qr_token String.eqb).
    - fold (select_reservation_by_token (Reservation.qr_token r) db).
      rewrite Hsel. simpl. rewrite N.eqb_refl. reflexivity.
    - intros y. destruct (N.eqb (Reservation.id y) (Reservation.id r));
        reflexivity. }
  split.
  { intros y Hy Hne. unfold checked_in_db. simpl.
    apply in_map_iff. exists y. split; [|exact Hy].
    apply N.eqb_neq in Hne. rewrite Hne. reflexivity. }
  repeat split.
Qed.

Lemma validate_checks_in_witness :
  exists db',
    validate_reservation_qr admin_session (Some "a1b2c3d4e5f60718")
      (Some 1%N) sample_db
    = Ok ({| reservation_id := Some 10%N;
             screening_id := Some 100%N;
             status := Some checked_in;
             message := "Asistencia registrada correctamente.";
             already_scanned := false; is_valid := true |}, db')
    /\ attendance_logs db'
       = [ {| AttendanceLog.id := 900%N;
              AttendanceLog.reservation_id := 10%N;
              AttendanceLog.scanned_by := Some 1%N;
              AttendanceLog.scanned_at := 5000;
              AttendanceLog.created_at := 5000 |} ]
    /\ count_attendance_logs 10%N db' = 1%nat.
Proof.
  destruct (validate_checks_in admin_session (Some 1%N) sample_db
              (sample_reservation 10 100 2 confirmed "a1b2c3d4e5f60718"))
    as [db' [Hval [Hlogs [Hcount _]]]].
  - reflexivity.
  - exact sample_db_pkey.
  - exact sample_db_tokens_unique.
  - simpl. left. reflexivity.
  - reflexivity.
  - discriminate.
  - reflexivity.
  - reflexivity.
  - reflexivity.
  - exists db'. split; [exact Hval|]. split; [exact Hlogs|exact Hcount].
Defined.

(** Reservation 12 is confirmed, has no log, and its token is one space:
    an admin scanning it is told the code is malformed and nothing is
    recorded.  Reservation 10 scanned with a scanner id that is not a user
    makes the insert fail on its foreign key.  The message of a
    successful scan is the Spanish text. *)
Lemma blank_token_reservation_is_not_checked_in :
  current_user_is_admin admin_session sample_db = true
  /\ In (sample_reservation 12 100 4 confirmed " ") (reservations sample_db)
  /\ attendance_log_exists 12%N sample_db = false
  /\ (exists res,
        validate_reservation_qr admin_session (Some " ") (Some 1%N) sample_db
        = Ok (res, sample_db)
        /\ is_valid res = false)
  /\ validate_reservation_qr admin_session (Some "a1b2c3d4e5f60718")
       (Some 77%N) sample_db
     = Raise (foreign_key_violation "attendance_logs_scanned_by_fkey")
  /\ (exists res db',
        validate_reservation_qr admin_session (Some "a1b2c3d4e5f60718")
          (Some 1%N) sample_db = Ok (res, db')
        /\ message res = "Asistencia registrada correctamente."
        /\ message res <> "attendance registered successfully").
Proof.
  split; [reflexivity|].
  split; [simpl; tauto|]. split; [reflexivity|]. split.
  - eexists. split; reflexivity.
  - split; [reflexivity|].
    eexists. eexists. split; [reflexivity|].
    split; [reflexivity|discriminate].
Qed.

(** ** Scanning the same token again *)

(** What a valid result tells about the call that produced it. *)
Lemma validate_valid_inv sess p_token p_scanner db res db1 :
  validate_reservation_qr sess p_token p_scanner db = Ok (res, db1) ->
  is_valid res = true ->
  exists t r,
    p_token = Some t
    /\ token_is_blank (Some t) = false
    /\ select_reservation_by_token t db = Some r
    /\ Reservation.status r <> cancelled
    /\ attendance_log_exists (Reservation.id r) db = false
    /\ log_id_is_new sess db = true
    /\ db1 = checked_in_db sess r p_scanner db
    /\ reservation_id res = Some (Reservation.id r).
Proof.
  unfold validate_reservation_qr.
  destruct (current_user_is_admin sess db); simpl;
    [|intros H; inversion H; subst; discriminate].
  destruct (token_is_blank p_token) eqn:Hb;
    [intros H; inversion H; subst; discriminate|].
  destruct p_token as [t|]; [|intros H; inversion H; subst; discriminate].
  destruct (select_reservation_by_token t db) as [r|] eqn:Hsel;
    [|intros H; inversion H; subst; discriminate].
  destruct (reservation_status_eqb (Reservation.status r) cancelled) eqn:Hst;
    [intros H; inversion H; subst; discriminate|].
  destruct (attendance_log_exists (Reservation.id r) db) eqn:Hlog;
    [intros H; inversion H; subst; discriminate|].
  destruct (find_some_in _ _ _ Hsel) as [Hin _].
  unfold insert_attendance_log.
  fold (attendance_log_exists (Reservation.id r) db). rewrite Hlog.
  unfold log_id_is_new.
  destruct (existsb _ (attendance_logs db)); simpl; [discriminate|].
  destruct (existsb _ (reservations db)); simpl; [|discriminate].
  destruct (match p_scanner with
            | Some u => negb (existsb (N.eqb u) (auth_users db))
            | None => false
            end); simpl; [discriminate|].
  intros H _. inversion H as [[Hres Hdb]]. clear H.
  exists t, r. repeat split; try assumption.
  - apply reservation_status_eqb_neq. exact Hst.
  - simpl.
    destruct (reread_after_update sess r
                (set_attendance_logs
                   (attendance_logs db
                    ++ [new_attendance_log sess (Reservation.id r) p_scanner])
                   db) Hin) as [x [_ [Hid Hre]]].
    rewrite Hre. simpl. rewrite Hid. reflexivity.
Qed.

(** A call either leaves the database as it is or returns a valid result. *)
Lemma validate_db_cases sess p_token p_scanner db res db1 :
  validate_reservation_qr sess p_token p_scanner db = Ok (res, db1) ->
  db1 = db \/ is_valid res = true.
Proof.
  unfold validate_reservation_qr.
  destruct (current_user_is_admin sess db); simpl;
    [|intros H; inversion H; left; reflexivity].
  destruct (token_is_blank p_token);
    [intros H; inversion H; left; reflexivity|].
  destruct (match p_token with
            | Some t => select_reservation_by_token t db
            | None => None
            end) as [r|];
    [|intros H; inversion H; left; reflexivity].
  destruct (reservation_status_eqb (Reservation.status r) cancelled);
    [intros H; inversion H; left; reflexivity|].
  destruct (attendance_log_exists (Reservation.id r) db);
    [intros H; inversion H; left; reflexivity|].
  destruct (insert_attendance_log sess (Reservation.id r) p_scanner db);
    simpl; [|discriminate].
  intros H; inversion H. right. reflexivity.
Qed.

Lemma select_by_token_checked_in sess r0 p_scanner db t :
  select_reservation_by_token t (checked_in_db sess r0 p_scanner db)
  = option_map
      (fun x => if N.eqb (Reservation.id x) (Reservation.id r0)
                then check_in_row sess x else x)
      (select_reservation_by_token t db).
Proof.
  unfold select_reservation_by_token, checked_in_db. simpl.
  apply (find_map_key Reservation.qr_token String.eqb).
  intros y. destruct (N.eqb (Reservation.id y) (Reservation.id r0));
    reflexivity.
Qed.

Lemma scanned_after_valid sess p_token p_scanner db res db1 :
  validate_reservation_qr sess p_token p_scanner db = Ok (res, db1) ->
  is_valid res = true ->
  exists t rid,
    p_token = Some t /\ reservation_id res = Some rid /\ scanned t rid db1.
Proof.
  intros Hval Hvalid.
  destruct (validate_valid_inv _ _ _ _ _ _ Hval Hvalid)
    as [t [r [-> [Hb [Hsel [Hst [Hlog [_ [-> Hrid]]]]]]]]].
  exists t, (Reservation.id r). split; [reflexivity|]. split; [exact Hrid|].
  split; [exact Hb|]. split.
  - rewrite count_attendance_logs_checked_in, N.eqb_refl.
    rewrite count_attendance_logs_none by exact Hlog. reflexivity.
  - exists (check_in_row sess r). rewrite select_by_token_checked_in, Hsel.
    simpl. rewrite N.eqb_refl. repeat split. simpl. discriminate.
Qed.

Lemma scanned_db_after_call t rid c db :
  scanned t rid db -> scanned t rid (db_after_call c db).
Proof.
  intros Hs. unfold db_after_call.
  destruct (validate_reservation_qr (call_session c) (call_token c)
              (call_scanner c) db) as [[res db1]|e] eqn:Hval; [|exact Hs].
  destruct (validate_db_cases _ _ _ _ _ _ Hval) as [->|Hvalid]; [exact Hs|].
  destruct (validate_valid_inv _ _ _ _ _ _ Hval Hvalid)
    as [t' [r' [_ [_ [_ [_ [Hlog' [_ [-> _]]]]]]]]].
  destruct Hs as [Hb [Hcount [r [Hsel [Hid Hst]]]]].
  assert (Hne : N.eqb (Reservation.id r') rid = false).
  { destruct (N.eqb (Reservation.id r') rid) eqn:E; [|reflexivity].
    apply N.eqb_eq in E. rewrite E in Hlog'.
    rewrite (count_attendance_logs_none _ _ Hlog') in Hcount. discriminate. }
  split; [exact Hb|]. split.
  - rewrite count_attendance_logs_checked_in, Hne. lia.
  - exists r. rewrite select_by_token_checked_in, Hsel. simpl.
    rewrite Hid, N.eqb_sym, Hne. repeat split; assumption.
Qed.

Lemma scanned_db_after_calls t rid cs db :
  scanned t rid db -> scanned t rid (db_after_calls cs db).
Proof.
  unfold db_after_calls. revert db.
  induction cs as [|c cs IH]; simpl; intros db Hs; [exact Hs|].
  apply IH. apply scanned_db_after_call. exact Hs.
Qed.

Lemma attendance_log_exists_of_count (v_id : uuid) (db : database) :
  count_attendance_logs v_id db = 1%nat ->
  attendance_log_exists v_id db = true.
Proof.
  intros H. destruct (attendance_log_exists v_id db) eqn:E; [reflexivity|].
  rewrite (count_attendance_logs_none _ _ E) in H. discriminate.
Qed.

(** C2 (as amended): once a call has returned a valid result for a token,
    every later call by an admin with that same token, made while the
    token still selects that reservation, the reservation is not
    cancelled and it still has an attendance log, returns
    [already_scanned = true] and [is_valid = false] for that reservation
    and leaves the database as it is, so that no second log is written.
    These conditions hold after any further calls of the routine itself
    (by anyone, with any tokens), and then the reservation has exactly
    one attendance log. *)
Theorem validate_second_scan (sess : session) (p_token : option string)
    (p_scanner : option uuid) (db db1 : database)
    (res : qr_validation_result) :
  validate_reservation_qr sess p_token p_scanner db = Ok (res, db1) ->
  is_valid res = true ->
  exists t rid,
    p_token = Some t
    /\ reservation_id res = Some rid
    /\ (forall (cs : list call) (sess' : session) (p_scanner' : option uuid),
          current_user_is_admin sess' (db_after_calls cs db1) = true ->
          exists res',
            validate_reservation_qr sess' p_token p_scanner'
              (db_after_calls cs db1)
            = Ok (res', db_after_calls cs db1)
            /\ already_scanned res' = true
            /\ is_valid res' = false
            /\ reservation_id res' = Some rid
            /\ count_attendance_logs rid (db_after_calls cs db1) = 1%nat)
    /\ (forall (db2 : database) (r : Reservation.row) (sess' : session)
               (p_scanner' : option uuid),
          current_user_is_admin sess' db2 = true ->
          select_reservation_by_token t db2 = Some r ->
          Reservation.id r = rid ->
          Reservation.status r <> cancelled ->
          attendance_log_exists rid db2 = true ->
          validate_reservation_qr sess' p_token p_scanner' db2
          = Ok ({| reservation_id := Some rid;
                   screening_id := Some (Reservation.screening_id r);
                   status := Some (Reservation.status r);
                   message := "Esta reserva ya fue validada previamente.";
                   already_scanned := true; is_valid := false |}, db2)).
Proof.
  intros Hval Hvalid.
  destruct (scanned_after_valid _ _ _ _ _ _ Hval Hvalid)
    as [t [rid [-> [Hrid Hs]]]].
  exists t, rid. split; [reflexivity|]. split; [exact Hrid|]. split.
  - intros cs sess' p_scanner' Hadm.
    apply (scanned_db_after_calls t rid cs) in Hs.
    destruct Hs as [Hb [Hcount [r [Hsel [Hid Hst]]]]].
    exists (already_scanned_result r).
    split.
    + apply validate_already_scanned; try assumption.
      rewrite Hid. apply attendance_log_exists_of_count. exact Hcount.
    + simpl. rewrite Hid. repeat split; assumption.
  - intros db2 r sess' p_scanner' Hadm Hsel Hid Hst Hlog.
    destruct Hs as [Hb _]. subst rid.
    apply (validate_already_scanned sess' t p_scanner' db2 r);
      assumption.
Qed.

Lemma validate_second_scan_witness :
  (exists res',
     validate_reservation_qr admin_session (Some "a1b2c3d4e5f60718") None
       (db_after_calls sample_calls sample_scanned_db)
     = Ok (res', db_after_calls sample_calls sample_scanned_db)
     /\ already_scanned res' = true
     /\ is_valid res' = false
     /\ reservation_id res' = Some 10%N
     /\ count_attendance_logs 10%N
          (db_after_calls sample_calls sample_scanned_db) = 1%nat)
  /\ validate_reservation_qr admin_session (Some "a1b2c3d4e5f60718") None
       (update_reservation student_session 10%N confirmed None
          sample_scanned_db)
     = Ok ({| reservation_id := Some 10%N;
              screening_id := Some 100%N;
              status := Some confirmed;
              message := "Esta reserva ya fue validada previamente.";
              already_scanned := true; is_valid := false |},
           update_reservation student_session 10%N confirmed None
             sample_scanned_db).
Proof.
  destruct (validate_second_scan admin_session (Some "a1b2c3d4e5f60718")
              (Some 1%N) sample_db sample_scanned_db
              (checked_in_result
                 (sample_reservation 10 100 2 confirmed "a1b2c3d4e5f60718"))
              eq_refl eq_refl)
    as [t [rid [Ht [Hrid [Hcalls Hstate]]]]].
  inversion Ht. subst t. inversion Hrid. subst rid.
  split.
  - apply (Hcalls sample_calls admin_session None). reflexivity.
  - apply (Hstate
             (update_reservation student_session 10%N confirmed None
                sample_scanned_db)
             (edited_row student_session confirmed None
                (check_in_row admin_session
                   (sample_reservation 10 100 2 confirmed
                      "a1b2c3d4e5f60718")))
             admin_session None).
    + reflexivity.
    + reflexivity.
    + reflexivity.
    + discriminate.
    + reflexivity.
Defined.

(** A scan that follows a valid one is not always told that the
    reservation was already scanned: once the owner (or an admin) has set
    the reservation to cancelled through the table, the scan gets the
    cancelled answer with [already_scanned = false], although the log is
    still there; and once an admin has deleted the log, the scan is valid
    again and writes another log. *)
Lemma second_scan_after_cancel_or_log_removal :
  validate_reservation_qr admin_session (Some "a1b2c3d4e5f60718")
    (Some 1%N) sample_db
  = Ok (checked_in_result
          (sample_reservation 10 100 2 confirmed "a1b2c3d4e5f60718"),
        sample_scanned_db)
  /\ is_valid
       (checked_in_result
          (sample_reservation 10 100 2 confirmed "a1b2c3d4e5f60718")) = true
  /\ validate_reservation_qr admin_session (Some "a1b2c3d4e5f60718") None
       (update_reservation student_session 10%N cancelled None
          sample_scanned_db)
     = Ok ({| reservation_id := Some 10%N;
              screening_id := Some 100%N;
              status := Some cancelled;
              message :=
                "La reserva está cancelada y no puede registrarse asistencia.";
              already_scanned := false; is_valid := false |},
           update_reservation student_session 10%N cancelled None
             sample_scanned_db)
  /\ count_attendance_logs 10%N
       (update_reservation student_session 10%N cancelled None
          sample_scanned_db) = 1%nat
  /\ exists db2,
       validate_reservation_qr admin_session (Some "a1b2c3d4e5f60718") None
         (delete_attendance_log admin_session 900%N sample_scanned_db)
       = Ok ({| reservation_id := Some 10%N;
                screening_id := Some 100%N;
                status := Some checked_in;
                message := "Asistencia registrada correctamente.";
                already_scanned := false; is_valid := true |}, db2)
       /\ count_attendance_logs 10%N
            (delete_attendance_log admin_session 900%N sample_scanned_db)
          = 0%nat
       /\ count_attendance_logs 10%N db2 = 1%nat.
Proof.
  split; [reflexivity|]. split; [reflexivity|]. split; [reflexivity|].
  split; [reflexivity|].
  eexists. split; [reflexivity|]. split; reflexivity.
Qed.

(** ** One reservation per screening and user *)




(** ** The unique keys are kept *)

Lemma existsb_false_not_in {A K : Type} (key : A -> K)
    (eqb : K -> K -> bool) (k : K) (l : list A) :
  (forall x y, eqb x y = true <-> x = y) ->
  existsb (fun x => eqb (key x) k) l = false -> ~ In k (map key l).
Proof.
  intros Hspec Hex Hin. apply in_map_iff in Hin.
  destruct Hin as [x [Hk Hx]].
  assert (existsb (fun x => eqb (key x) k) l = true).
  { apply existsb_exists. exists x. split; [exact Hx|].
    apply Hspec. exact Hk. }
  congruence.
Qed.

Lemma NoDup_map_snoc {A K : Type} (key : A -> K) (l : list A) (x : A) :
  NoDup (map key l) -> ~ In (key x) (map key l) ->
  NoDup (map key (l ++ [x])).
Proof.
  intros Hnd Hnin. rewrite map_app. apply NoDup_app.
  - exact Hnd.
  - simpl. constructor; [intros []|constructor].
  - intros a Ha [<-|[]]. exact (Hnin Ha).
Qed.

Lemma map_key_checked_in {K : Type} (key : Reservation.row -> K) sess v_id
    (l : list Reservation.row) :
  (forall x, key (check_in_row sess x) = key x) ->
  map key (map (fun x => if N.eqb (Reservation.id x) v_id
                         then check_in_row sess x else x) l)
  = map key l.
Proof.
  intros Hk. rewrite map_map. apply map_ext. intros x.
  destruct (N.eqb (Reservation.id x) v_id); [apply Hk|reflexivity].
Qed.

(** Whatever a call of the routine returns, the unique keys that held
    before it hold after it. *)
Lemma validate_keeps_unique_keys sess p_token p_scanner db res db1 :
  validate_reservation_qr sess p_token p_scanner db = Ok (res, db1) ->
  unique_keys db -> unique_keys db1.
Proof.
  intros Hval Hk.
  destruct (validate_db_cases _ _ _ _ _ _ Hval) as [->|Hvalid]; [exact Hk|].
  destruct (validate_valid_inv _ _ _ _ _ _ Hval Hvalid)
    as [t [r [_ [_ [_ [_ [Hlog [Hnew [-> _]]]]]]]]].
  destruct Hk as [Hpk [Hpair [Htok [Hlpk Hlu]]]].
  unfold unique_keys, reservations_pkey, reservations_user_screening_unique,
    reservations_qr_token_unique, attendance_logs_pkey,
    attendance_logs_reservation_id_unique, checked_in_db in *.
  cbn [reservations attendance_logs].
  rewrite !map_key_checked_in by reflexivity.
  repeat (split; [assumption|]). split.
  - apply NoDup_map_snoc; [exact Hlpk|].
    apply (existsb_false_not_in AttendanceLog.id N.eqb _ _ N.eqb_eq).
    unfold log_id_is_new in Hnew. apply negb_true_iff in Hnew. exact Hnew.
  - apply NoDup_map_snoc; [exact Hlu|].
    apply (existsb_false_not_in AttendanceLog.reservation_id N.eqb _ _
             N.eqb_eq).
    exact Hlog.
Qed.

Lemma pair_eqb_spec (x y : uuid * uuid) :
  (N.eqb (fst x) (fst y) && N.eqb (snd x) (snd y) = true) <-> x = y.
Proof.
  destruct x as [a b], y as [c d]. simpl.
  rewrite andb_true_iff, !N.eqb_eq. split.
  - intros [-> ->]. reflexivity.
  - intros H. inversion H. split; reflexivity.
Qed.

(** A reservation that is stored leaves the unique keys in place. *)
Lemma insert_reservation_keeps_unique_keys sess new_row db db1 :
  insert_reservation sess new_row db = Ok db1 ->
  unique_keys db -> unique_keys db1.
Proof.
  unfold insert_reservation.
  destruct (negb (reservations_policy sess db new_row)); [discriminate|].
  destruct (existsb _ (reservations db)) eqn:Hpk; [discriminate|].
  destruct (existsb _ (reservations db)) eqn:Hpair in |- *; [discriminate|].
  destruct (existsb _ (reservations db)) eqn:Htok in |- *; [discriminate|].
  destruct (negb _); [discriminate|].
  destruct (negb _); [discriminate|].
  intros H. inversion H. clear H. subst db1.
  intros [Kpk [Kpair [Ktok [Klpk Klu]]]].
  unfold unique_keys, reservations_pkey, reservations_user_screening_unique,
    reservations_qr_token_unique, attendance_logs_pkey,
    attendance_logs_reservation_id_unique in *.
  cbn [reservations attendance_logs set_reservations].
  split; [|split; [|split; [|split; assumption]]].
  - apply NoDup_map_snoc; [exact Kpk|].
    apply (existsb_false_not_in Reservation.id N.eqb _ _ N.eqb_eq).
    exact Hpk.
  - apply NoDup_map_snoc; [exact Kpair|].
    apply (existsb_false_not_in
             (fun r => (Reservation.screening_id r, Reservation.user_id r))
             (fun x y => N.eqb (fst x) (fst y) && N.eqb (snd x) (snd y))
             _ _ pair_eqb_spec).
    exact Hpair.
  - apply NoDup_map_snoc; [exact Ktok|].
    apply (existsb_false_not_in Reservation.qr_token String.eqb _ _
             String.eqb_eq).
    exact Htok.
Qed.

(** ** The counts of [screening_stats] *)

Lemma rate_percent_zero (n : Z) : rate_percent n 0 = Ok (numeric_of_int 0).
Proof. reflexivity. Qed.

Lemma rate_percent_nonzero (n d : Z) :
  d <> 0 ->
  exists q,
    numeric_div_integers n d = Ok q
    /\ rate_percent n d
       = Ok (numeric_round (numeric_mul q (numeric_of_int 100)) 2).
Proof.
  intros Hd. unfold rate_percent, nullif, sql_numeric_div, numeric_div_integers.
  apply Z.eqb_neq in Hd. rewrite Hd. simpl. rewrite Hd. simpl.
  eexists. split; reflexivity.
Qed.

Lemma rate_percent_ok (n d : Z) : exists x, rate_percent n d = Ok x.
Proof.
  destruct (Z.eq_dec d 0) as [->|Hd].
  - eexists. apply rate_percent_zero.
  - destruct (rate_percent_nonzero n d Hd) as [q [_ H]]. eexists. exact H.
Qed.

(** The view never raises: every screening gets its row. *)
Lemma screening_stat_ok (db : database) (s : Screening.row) :
  exists st,
    screening_stat db s = Ok st
    /\ rate_percent (ScreeningStat.total_reservations st) (Screening.capacity s)
       = Ok (ScreeningStat.occupancy_rate st)
    /\ rate_percent (ScreeningStat.checked_in_count st)
         (ScreeningStat.total_reservations st)
       = Ok (ScreeningStat.attendance_rate st)
    /\ ScreeningStat.screening_id st = Screening.id s
    /\ ScreeningStat.capacity st = Screening.capacity s
    /\ ScreeningStat.total_reservations st
       = Z.of_nat (List.length (reservations_of_screening s db))
    /\ ScreeningStat.active_reservations st
       = count_filter (fun r => status_is_active (Reservation.status r))
           (reservations_of_screening s db)
    /\ ScreeningStat.checked_in_count st
       = count_filter
           (fun r => reservation_status_eqb (Reservation.status r) checked_in)
           (reservations_of_screening s db).
Proof.
  unfold screening_stat.
  set (rs := reservations_of_screening s db).
  assert (Htot : count_filter (fun _ => true) rs = Z.of_nat (List.length rs)).
  { unfold count_filter. f_equal. f_equal.
    induction rs as [|x l IH]; simpl; [reflexivity|]. rewrite IH.
    reflexivity. }
  destruct (rate_percent_ok (count_filter (fun _ => true) rs)
              (Screening.capacity s)) as [occ Hocc].
  destruct (rate_percent_ok
              (count_filter
                 (fun r => reservation_status_eqb (Reservation.status r)
                             checked_in) rs)
              (count_filter (fun _ => true) rs)) as [att Hatt].
  rewrite Hocc, Hatt. simpl.
  eexists. split; [reflexivity|]. simpl.
  repeat split; assumption.
Qed.

Lemma screening_stats_rows (db : database) :
  exists rows,
    screening_stats db = Ok rows
    /\ forall s, In s (screenings db) ->
                 exists st, In st rows /\ screening_stat db s = Ok st.
Proof.
  unfold screening_stats.
  induction (screenings db) as [|s l IH]; simpl.
  - exists []. split; [reflexivity|]. intros s [].
  - destruct IH as [rows [Hrows Hall]].
    destruct (screening_stat_ok db s) as [st [Hst _]].
    rewrite Hst, Hrows. simpl.
    exists (st :: rows). split; [reflexivity|].
    intros s' [<-|Hin].
    + exists st. split; [left; reflexivity|exact Hst].
    + destruct (Hall s' Hin) as [st' [Hin' Hst']].
      exists st'. split; [right; exact Hin'|exact Hst'].
Qed.

Lemma count_filter_split (p : Reservation.row -> bool)
    (rs : list Reservation.row) :
  Z.of_nat (List.length rs)
  = count_filter p rs + count_filter (fun r => negb (p r)) rs.
Proof.
  unfold count_filter.
  induction rs as [|x l IH]; [reflexivity|].
  cbn [filter]. destruct (p x); cbn [negb List.length];
    rewrite !Nat2Z.inj_succ; lia.
Qed.

Lemma count_filter_ext (p q : Reservation.row -> bool)
    (rs : list Reservation.row) :
  (forall r, p r = q r) -> count_filter p rs = count_filter q rs.
Proof.
  intros H. unfold count_filter. f_equal. f_equal.
  apply filter_ext. exact H.
Qed.

(** C8: in the row of every screening, a reservation counts as active
    exactly when its status is pending, confirmed, checked_in or no_show;
    [active_reservations] leaves the cancelled reservations out while
    [total_reservations] counts them, and [checked_in_count] counts the
    reservations whose status is checked_in. *)
Theorem screening_stats_counts (db : database) (s : Screening.row) :
  In s (screenings db) ->
  exists rows st,
    screening_stats db = Ok rows
    /\ In st rows
    /\ screening_stat db s = Ok st
    /\ (forall st0,
          status_is_active st0 = true
          <-> st0 = pending \/ st0 = confirmed \/ st0 = checked_in
              \/ st0 = no_show)
    /\ ScreeningStat.total_reservations st
       = Z.of_nat (List.length (reservations_of_screening s db))
    /\ ScreeningStat.active_reservations st
       = count_filter
           (fun r => negb (reservation_status_eqb (Reservation.status r)
                             cancelled))
           (reservations_of_screening s db)
    /\ ScreeningStat.total_reservations st
       = ScreeningStat.active_reservations st
         + count_filter
             (fun r => reservation_status_eqb (Reservation.status r) cancelled)
             (reservations_of_screening s db)
    /\ ScreeningStat.checked_in_count st
       = count_filter
           (fun r => reservation_status_eqb (Reservation.status r) checked_in)
           (reservations_of_screening s db).
Proof.
  intros Hin.
  destruct (screening_stats_rows db) as [rows [Hrows Hall]].
  destruct (Hall s Hin) as [st [Hst Hrow]].
  destruct (screening_stat_ok db s)
    as [st' [Hrow' [_ [_ [_ [_ [Htot [Hact Hchk]]]]]]]].
  assert (st' = st) by congruence. subst st'.
  assert (Hactive : forall r : Reservation.row,
             status_is_active (Reservation.status r)
             = negb (reservation_status_eqb (Reservation.status r) cancelled)).
  { intros r. destruct (Reservation.status r); reflexivity. }
  exists rows, st. repeat split; try assumption.
  - destruct st0; simpl; intros H; try discriminate; tauto.
  - intros [->|[->|[->| ->]]]; reflexivity.
  - rewrite Hact. apply count_filter_ext. exact Hactive.
  - rewrite Htot, Hact.
    rewrite (count_filter_split
               (fun r => status_is_active (Reservation.status r))).
    f_equal. apply count_filter_ext. intros r. rewrite Hactive.
    apply negb_involutive.
Qed.

Lemma screening_stats_counts_witness :
  exists rows st,
    screening_stats sample_db = Ok rows
    /\ In st rows
    /\ ScreeningStat.total_reservations st = 4
    /\ ScreeningStat.active_reservations st = 2
    /\ ScreeningStat.checked_in_count st = 0.
Proof.
  destruct (screening_stats_counts sample_db sample_screening)
    as [rows [st [Hrows [Hin [_ [_ [Htot [Hact [_ Hchk]]]]]]]]].
  - simpl. left. reflexivity.
  - exists rows, st. repeat split; assumption.
Defined.

(** ** The rates of [screening_stats] *)

(** Rounding to the nearest integer, for a non-negative numerator. *)
Lemma div_round_half_away_nonneg (p q : Z) :
  0 <= p -> 0 < q -> div_round_half_away p q = (2 * p + q) / (2 * q).
Proof.
  intros Hp Hq. unfold div_round_half_away.
  destruct (Z.eq_dec p 0) as [->|Hne].
  - change (Z.sgn 0) with 0. rewrite Z.mul_0_l. symmetry.
    apply Z.div_small. lia.
  - rewrite Z.sgn_pos, Z.abs_eq by lia. lia.
Qed.

(** Rounding [m * n / d] at a finer grid [1 / n] first and then to an
    integer gives the same as rounding [m / d] once, when the grid is
    finer than [1 / d]. *)
Lemma round_twice_exact (m d n : Z) :
  0 <= m -> 0 < d -> d < n ->
  (2 * ((2 * (m * n) + d) / (2 * d)) + n) / (2 * n) = (2 * m + d) / (2 * d).
Proof.
  intros Hm Hd Hn.
  set (u := (2 * (m * n) + d) / (2 * d)).
  set (k := (2 * m + d) / (2 * d)).
  assert (Hu := Z.div_mod (2 * (m * n) + d) (2 * d) ltac:(lia)).
  assert (Hu' := Z.mod_pos_bound (2 * (m * n) + d) (2 * d) ltac:(lia)).
  assert (Hk := Z.div_mod (2 * m + d) (2 * d) ltac:(lia)).
  assert (Hk' := Z.mod_pos_bound (2 * m + d) (2 * d) ltac:(lia)).
  fold u in Hu. fold k in Hk.
  symmetry. apply (Z.div_unique_pos _ _ k (2 * u + n - 2 * n * k)); [|lia].
  nia.
Qed.

(** The leading base-10000 digit and its weight bracket the number. *)
Lemma nbase_leading_spec (fuel : nat) :
  forall n, 0 <= n < 10000 ^ Z.of_nat fuel ->
  forall w d, nbase_leading fuel n = (w, d) ->
  0 <= w /\ 0 <= d < 10000 /\ (0 < n -> 0 < d)
  /\ d * 10000 ^ w <= n < (d + 1) * 10000 ^ w.
Proof.
  induction fuel as [|fuel IH]; intros n Hn w d.
  - simpl in *. intros H. inversion H; subst. simpl. lia.
  - cbn [nbase_leading]. destruct (n <? 10000) eqn:Hlt.
    + apply Z.ltb_lt in Hlt. intros H. inversion H; subst.
      rewrite Z.pow_0_r. lia.
    + apply Z.ltb_ge in Hlt.
      rewrite Nat2Z.inj_succ, Z.pow_succ_r in Hn by lia.
      assert (Hq : 0 <= n / 10000 < 10000 ^ Z.of_nat fuel).
      { split; [apply Z.div_pos; lia|].
        apply Z.div_lt_upper_bound; lia. }
      destruct (nbase_leading fuel (n / 10000)) as [w' d'] eqn:Hrec.
      intros H. inversion H; subst. clear H.
      destruct (IH _ Hq _ _ Hrec) as [Hw [Hd [Hpos Hbr]]].
      assert (Hq1 : 0 < n / 10000) by (apply Z.div_str_pos; lia).
      assert (Hdm := Z.div_mod n 10000 ltac:(lia)).
      assert (Hmb := Z.mod_pos_bound n 10000 ltac:(lia)).
      rewrite Z.pow_add_r, Z.pow_1_r by lia.
      assert (Hp : 0 < 10000 ^ w') by (apply Z.pow_pos_nonneg; lia).
      repeat split; try lia; nia.
Qed.

Lemma nbase_weight_digit_spec (n w d : Z) :
  0 <= n -> nbase_weight_digit n = (w, d) ->
  0 <= w /\ 0 <= d < 10000 /\ (0 < n -> 0 < d)
  /\ d * 10000 ^ w <= n < (d + 1) * 10000 ^ w.
Proof.
  intros Hn. unfold nbase_weight_digit.
  apply nbase_leading_spec. split; [exact Hn|].
  assert (Hl : 0 <= Z.log2 n) by apply Z.log2_nonneg.
  rewrite Nat2Z.inj_succ, Z2Nat.id by exact Hl.
  destruct (Z.eq_dec n 0) as [->|Hne].
  - apply Z.pow_pos_nonneg; lia.
  - apply Z.lt_le_trans with (2 ^ Z.succ (Z.log2 n)).
    + apply Z.log2_spec. lia.
    + apply Z.pow_le_mono_l. lia.
Qed.

(** A quotient below 10000 gets at least 16 digits after the point. *)
Lemma select_div_scale_min (n d : Z) :
  0 <= n -> 0 < d -> n < 10000 * d ->
  16 <= select_div_scale n d <= 1000.
Proof.
  intros Hn Hd Hlt. unfold select_div_scale.
  rewrite (Z.abs_eq n), (Z.abs_eq d) by lia.
  destruct (nbase_weight_digit n) as [w1 d1] eqn:H1.
  destruct (nbase_weight_digit d) as [w2 d2] eqn:H2.
  destruct (nbase_weight_digit_spec _ _ _ Hn H1) as [Hw1 [Hd1 [Hp1 Hb1]]].
  destruct (nbase_weight_digit_spec _ _ _ (Z.lt_le_incl _ _ Hd) H2)
    as [Hw2 [Hd2 [Hp2 Hb2]]].
  specialize (Hp2 Hd).
  assert (Hq : (if d1 <=? d2 then w1 - w2 - 1 else w1 - w2) <= 0).
  { destruct (Z.eq_dec n 0) as [->|Hne].
    - assert (d1 = 0).
      { assert (0 < 10000 ^ w1) by (apply Z.pow_pos_nonneg; lia). nia. }
      subst d1. replace (0 <=? d2) with true by (symmetry; apply Z.leb_le; lia).
      assert (w1 = 0).
      { unfold nbase_weight_digit in H1. simpl in H1. congruence. }
      lia.
    - specialize (Hp1 ltac:(lia)).
      assert (Hw : w1 <= w2 + 1).
      { destruct (Z_le_gt_dec w1 (w2 + 1)) as [|Hgt]; [assumption|exfalso].
        assert (Hm : 10000 ^ (w2 + 2) <= 10000 ^ w1)
          by (apply Z.pow_le_mono_r; lia).
        replace (w2 + 2) with (w2 + 1 + 1) in Hm by lia.
        rewrite Z.pow_add_r, Z.pow_1_r in Hm by lia.
        rewrite Z.pow_add_r, Z.pow_1_r in Hm by lia.
        assert (0 < 10000 ^ w2) by (apply Z.pow_pos_nonneg; lia).
        nia. }
      destruct (d1 <=? d2) eqn:Hle; [lia|].
      apply Z.leb_gt in Hle.
      destruct (Z.eq_dec w1 (w2 + 1)) as [->|]; [exfalso|lia].
      rewrite Z.pow_add_r, Z.pow_1_r in Hb1 by lia.
      assert (0 < 10000 ^ w2) by (apply Z.pow_pos_nonneg; lia).
      nia. }
  lia.
Qed.

(** With at least 16 digits kept by the division, the two roundings of
    the view give [100 * n / d] rounded once to two decimals. *)
Lemma rate_percent_exact (n d : Z) :
  0 <= n -> 0 < d < 10 ^ 12 -> n < 10 ^ 4 * d ->
  rate_percent n d = Ok (exact_rate_percent n d).
Proof.
  intros Hn Hd Hlt.
  destruct (rate_percent_nonzero n d ltac:(lia)) as [q [Hq ->]].
  unfold numeric_div_integers in Hq.
  replace (d =? 0) with false in Hq by (symmetry; apply Z.eqb_neq; lia).
  inversion Hq as [Hq']. clear Hq Hq'.
  assert (Hs := select_div_scale_min n d Hn ltac:(lia) ltac:(lia)).
  set (s := select_div_scale n d) in *.
  unfold exact_rate_percent.
  replace (d =? 0) with false by (symmetry; apply Z.eqb_neq; lia).
  rewrite Z.sgn_pos, Z.abs_eq, !Z.mul_1_l by lia.
  unfold numeric_round, numeric_mul, numeric_of_int. cbn [unscaled dscale].
  replace (Nat.leb (Z.to_nat s + 0) 2) with false
    by (symmetry; apply Nat.leb_gt; lia).
  f_equal. f_equal.
  replace (Z.of_nat (Z.to_nat s + 0 - 2)) with (s - 4 + 2) by lia.
  set (N := 10 ^ (s - 4)).
  assert (HN : 10 ^ 12 <= N) by (apply Z.pow_le_mono_r; lia).
  assert (Hs4 : 10 ^ s = 10 ^ 4 * N).
  { unfold N. rewrite <- Z.pow_add_r by lia. f_equal. lia. }
  rewrite Z.pow_add_r by lia. fold N.
  assert (H0 : 0 <= n * 10 ^ s) by (rewrite Hs4; nia).
  rewrite (div_round_half_away_nonneg (n * 10 ^ s) d H0) by lia.
  rewrite (div_round_half_away_nonneg (10000 * n) d) by lia.
  set (u := (2 * (n * 10 ^ s) + d) / (2 * d)).
  assert (Hu : 0 <= u) by (apply Z.div_pos; lia).
  rewrite div_round_half_away_nonneg by lia.
  replace (2 * (u * 100) + N * 10 ^ 2) with (100 * (2 * u + N)) by lia.
  replace (2 * (N * 10 ^ 2)) with (100 * (2 * N)) by lia.
  rewrite Z.div_mul_cancel_l by lia.
  unfold u. rewrite Hs4.
  replace (n * (10 ^ 4 * N)) with (10000 * n * N) by lia.
  apply round_twice_exact; lia.
Qed.

(** With no reservation the rate is zero whatever the divisor. *)
Lemma rate_percent_zero_numerator (d : Z) :
  exists x, rate_percent 0 d = Ok x /\ unscaled x = 0.
Proof.
  destruct (Z.eq_dec d 0) as [->|Hd].
  - eexists. split; [apply rate_percent_zero|reflexivity].
  - destruct (rate_percent_nonzero 0 d Hd) as [q [Hq ->]].
    eexists. split; [reflexivity|].
    unfold numeric_div_integers in Hq.
    replace (d =? 0) with false in Hq by (symmetry; apply Z.eqb_neq; lia).
    inversion Hq as [Hq']. clear Hq Hq'.
    unfold numeric_round, numeric_mul, div_round_half_away.
    cbn [unscaled dscale]. rewrite Z.mul_0_l. cbn [Z.sgn Z.abs].
    rewrite ?Z.mul_0_l, ?Z.mul_0_r.
    destruct (Nat.leb _ 2); cbn [unscaled Z.sgn]; lia.
Qed.

(** C7: the view never fails on a division.  In the row of every
    screening both rates are [0] when their divisor is zero; otherwise
    they are the quotient of the two counts times 100, rounded to two
    decimals, which is [100 * total / capacity] and
    [100 * checked_in / total] rounded to two decimals for capacities and
    totals within range.  With capacity 50 and 30 reservations of which
    10 are checked in, the rates are 60.00 and 33.33. *)
Theorem screening_stats_rates :
  (forall (db : database) (s : Screening.row),
      In s (screenings db) ->
      exists rows st,
        screening_stats db = Ok rows
        /\ In st rows
        /\ screening_stat db s = Ok st
        /\ ScreeningStat.total_reservations st
           = Z.of_nat (List.length (reservations_of_screening s db))
        /\ ScreeningStat.checked_in_count st
           = count_filter
               (fun r => reservation_status_eqb (Reservation.status r)
                           checked_in)
               (reservations_of_screening s db)
        /\ (Screening.capacity s = 0 ->
            ScreeningStat.occupancy_rate st = numeric_of_int 0)
        /\ (ScreeningStat.total_reservations st = 0 ->
            ScreeningStat.attendance_rate st = numeric_of_int 0
            /\ unscaled (ScreeningStat.occupancy_rate st) = 0)
        /\ (Screening.capacity s <> 0 ->
            exists q,
              numeric_div_integers (ScreeningStat.total_reservations st)
                (Screening.capacity s) = Ok q
              /\ ScreeningStat.occupancy_rate st
                 = numeric_round (numeric_mul q (numeric_of_int 100)) 2)
        /\ (ScreeningStat.total_reservations st <> 0 ->
            exists q,
              numeric_div_integers (ScreeningStat.checked_in_count st)
                (ScreeningStat.total_reservations st) = Ok q
              /\ ScreeningStat.attendance_rate st
                 = numeric_round (numeric_mul q (numeric_of_int 100)) 2)
        /\ (0 < Screening.capacity s < 10 ^ 12 ->
            ScreeningStat.total_reservations st
            < 10 ^ 4 * Screening.capacity s ->
            ScreeningStat.occupancy_rate st
            = exact_rate_percent (ScreeningStat.total_reservations st)
                (Screening.capacity s))
        /\ (ScreeningStat.total_reservations st < 10 ^ 12 ->
            ScreeningStat.attendance_rate st
            = exact_rate_percent (ScreeningStat.checked_in_count st)
                (ScreeningStat.total_reservations st)))
  /\ (exists st,
        screening_stats dune_db = Ok [st]
        /\ ScreeningStat.capacity st = 50
        /\ ScreeningStat.total_reservations st = 30
        /\ ScreeningStat.checked_in_count st = 10
        /\ ScreeningStat.occupancy_rate st
           = {| unscaled := 6000; dscale := 2 |}
        /\ ScreeningStat.attendance_rate st
           = {| unscaled := 3333; dscale := 2 |}).
Proof.
  split.
  - intros db s Hin.
    destruct (screening_stats_rows db) as [rows [Hrows Hall]].
    destruct (Hall s Hin) as [st [Hst Hrow]].
    destruct (screening_stat_ok db s)
      as [st' [Hrow' [Hocc [Hatt [_ [_ [Htot [_ Hchk]]]]]]]].
    assert (st' = st) by congruence. subst st'.
    assert (Htot0 : 0 <= ScreeningStat.total_reservations st)
      by (rewrite Htot; lia).
    assert (Hchk0 : 0 <= ScreeningStat.checked_in_count st
                    <= ScreeningStat.total_reservations st).
    { rewrite Hchk, Htot. unfold count_filter. split; [lia|].
      apply inj_le. apply filter_length_le. }
    exists rows, st.
    repeat (split; [assumption|]).
    split.
    { intros H0. rewrite H0, rate_percent_zero in Hocc. congruence. }
    split.
    { intros H0. rewrite H0 in Hatt, Hocc. split.
      - rewrite rate_percent_zero in Hatt. congruence.
      - destruct (rate_percent_zero_numerator (Screening.capacity s))
          as [x [Hx Hx0]].
        congruence. }
    split.
    { intros Hne.
      destruct (rate_percent_nonzero (ScreeningStat.total_reservations st)
                  _ Hne) as [q [Hq Hr]].
      exists q. split; [exact Hq|congruence]. }
    split.
    { intros Hne.
      destruct (rate_percent_nonzero (ScreeningStat.checked_in_count st)
                  _ Hne) as [q [Hq Hr]].
      exists q. split; [exact Hq|congruence]. }
    split.
    { intros Hcap Hlt.
      rewrite rate_percent_exact in Hocc by lia. congruence. }
    intros Hlt.
    destruct (Z.eq_dec (ScreeningStat.total_reservations st) 0) as [H0|Hne].
    + rewrite H0 in *. rewrite rate_percent_zero in Hatt.
      inversion Hatt. reflexivity.
    + rewrite rate_percent_exact in Hatt by lia. congruence.
  - eexists. split; [vm_compute; reflexivity|]. repeat split.
Qed.

Lemma screening_stats_rates_witness :
  exists rows st,
    screening_stats dune_db = Ok rows
    /\ In st rows
    /\ ScreeningStat.occupancy_rate st = exact_rate_percent 30 50
    /\ ScreeningStat.attendance_rate st = exact_rate_percent 10 30.
Proof.
  destruct (proj1 screening_stats_rates dune_db sample_screening)
    as [rows [st [Hrows [Hin [Hst [Htot [Hchk [_ [_ [_ [_ [Hocc Hatt]]]]]]]]]]]].
  - simpl. left. reflexivity.
  - exists rows, st. split; [exact Hrows|]. split; [exact Hin|].
    assert (Ht : ScreeningStat.total_reservations st = 30)
      by (rewrite Htot; reflexivity).
    assert (Hc : ScreeningStat.checked_in_count st = 10)
      by (rewrite Hchk; reflexivity).
    rewrite Ht, Hc in *. split.
    + apply Hocc; simpl; lia.
    + apply Hatt. lia.
Defined.

(** * Further properties *)

(** ** What a call leaves alone *)

(** A valid result means the scanner passed the foreign key check. *)
Lemma validate_valid_scanner sess p_token p_scanner db res db1 :
  validate_reservation_qr sess p_token p_scanner db = Ok (res, db1) ->
  is_valid res = true ->
  scanner_is_known p_scanner db = true.
Proof.
  unfold validate_reservation_qr.
  destruct (current_user_is_admin sess db); simpl;
    [|intros H; inversion H; subst; discriminate].
  destruct (token_is_blank p_token);
    [intros H; inversion H; subst; discriminate|].
  destruct (match p_token with
            | Some t => select_reservation_by_token t db
            | None => None
            end) as [r|];
    [|intros H; inversion H; subst; discriminate].
  destruct (reservation_status_eqb (Reservation.status r) cancelled);
    [intros H; inversion H; subst; discriminate|].
  destruct (attendance_log_exists (Reservation.id r) db);
    [intros H; inversion H; subst; discriminate|].
  unfold insert_attendance_log, scanner_is_known.
  destruct (existsb _ (attendance_logs db)); simpl; [discriminate|].
  destruct (existsb _ (attendance_logs db)); simpl; [discriminate|].
  destruct (existsb _ (reservations db)); simpl; [|discriminate].
  destruct p_scanner as [u|]; [|reflexivity].
  destruct (existsb (N.eqb u) (auth_users db)); simpl;
    [reflexivity|discriminate].
Qed.

(** The two ways a call can leave the database. *)
Lemma db_after_call_cases (c : call) (db : database) :
  db_after_call c db = db
  \/ exists t r,
      call_token c = Some t
      /\ token_is_blank (Some t) = false
      /\ select_reservation_by_token t db = Some r
      /\ Reservation.status r <> cancelled
      /\ attendance_log_exists (Reservation.id r) db = false
      /\ log_id_is_new (call_session c) db = true
      /\ scanner_is_known (call_scanner c) db = true
      /\ db_after_call c db
         = checked_in_db (call_session c) r (call_scanner c) db.
Proof.
  unfold db_after_call.
  destruct (validate_reservation_qr (call_session c) (call_token c)
              (call_scanner c) db) as [[res db1]|e] eqn:Hval;
    [|left; reflexivity].
  destruct (validate_db_cases _ _ _ _ _ _ Hval) as [->|Hvalid];
    [left; reflexivity|].
  right.
  destruct (validate_valid_inv _ _ _ _ _ _ Hval Hvalid)
    as [t [r [Ht [Hb [Hsel [Hst [Hlog [Hnew [Hdb _]]]]]]]]].
  exists t, r. repeat split; try assumption.
  apply (validate_valid_scanner _ _ _ _ _ _ Hval Hvalid).
Qed.

Lemma db_after_call_frame (c : call) (db : database) :
  auth_users (db_after_call c db) = auth_users db
  /\ profiles (db_after_call c db) = profiles db
  /\ movies (db_after_call c db) = movies db
  /\ screenings (db_after_call c db) = screenings db
  /\ map reservation_fixed_columns (reservations (db_after_call c db))
     = map reservation_fixed_columns (reservations db)
  /\ exists added,
      attendance_logs (db_after_call c db)
      = (attendance_logs db ++ added)%list
      /\ (List.length added <= 1)%nat.
Proof.
  destruct (db_after_call_cases c db)
    as [->|[t [r [_ [_ [_ [_ [_ [_ [_ ->]]]]]]]]]].
  - repeat split. exists []. rewrite app_nil_r. split; [reflexivity|].
    simpl. lia.
  - unfold checked_in_db. cbn [auth_users profiles movies screenings
      reservations attendance_logs].
    repeat split.
    + rewrite map_map. apply map_ext. intros x.
      destruct (N.eqb (Reservation.id x) (Reservation.id r)); reflexivity.
    + eexists. split; [reflexivity|]. simpl. lia.
Qed.

(** X1: whatever the callers, tokens and outcomes, a sequence of calls of
    the routine leaves [auth.users], profiles, movies and screenings as
    they were, keeps every reservation in place with its id, screening,
    user, seat label, token and creation times, and never removes or
    rewrites an attendance log: the logs it found are a prefix of the logs
    it leaves, with at most one more per call. *)
Theorem validate_calls_frame (cs : list call) (db : database) :
  auth_users (db_after_calls cs db) = auth_users db
  /\ profiles (db_after_calls cs db) = profiles db
  /\ movies (db_after_calls cs db) = movies db
  /\ screenings (db_after_calls cs db) = screenings db
  /\ map reservation_fixed_columns (reservations (db_after_calls cs db))
     = map reservation_fixed_columns (reservations db)
  /\ exists added,
      attendance_logs (db_after_calls cs db)
      = (attendance_logs db ++ added)%list
      /\ (List.length added <= List.length cs)%nat.
Proof.
  unfold db_after_calls. revert db.
  induction cs as [|c cs IH]; intros db; simpl.
  - repeat split. exists []. rewrite app_nil_r. split; [reflexivity|].
    simpl. lia.
  - destruct (IH (db_after_call c db))
      as [Ha [Hp [Hm [Hs [Hr [added [Hl Hn]]]]]]].
    destruct (db_after_call_frame c db)
      as [Ha' [Hp' [Hm' [Hs' [Hr' [added' [Hl' Hn']]]]]]].
    repeat split; try congruence.
    exists (added' ++ added)%list. split.
    + rewrite Hl, Hl', app_assoc. reflexivity.
    + rewrite length_app. lia.
Qed.

(** ** Constraints kept by sequences of calls *)

Lemma db_after_call_keeps_unique_keys (c : call) (db : database) :
  unique_keys db -> unique_keys (db_after_call c db).
Proof.
  intros Hk. unfold db_after_call.
  destruct (validate_reservation_qr (call_session c) (call_token c)
              (call_scanner c) db) as [[res db1]|e] eqn:Hval; [|exact Hk].
  exact (validate_keeps_unique_keys _ _ _ _ _ _ Hval Hk).
Qed.

(** X2: the primary keys and unique constraints of [reservations] and
    [attendance_logs] that hold before a sequence of calls of the routine
    hold after it: the routine never stores a second log for a
    reservation, not even when the calls fail or are repeated. *)
Theorem validate_calls_keep_unique_keys (cs : list call) (db : database) :
  unique_keys db -> unique_keys (db_after_calls cs db).
Proof.
  unfold db_after_calls. revert db.
  induction cs as [|c cs IH]; intros db Hk; simpl; [exact Hk|].
  apply IH. apply db_after_call_keeps_unique_keys. exact Hk.
Qed.

Lemma existsb_map_key {A K : Type} (key : A -> K) (eqb : K -> K -> bool)
    (f : A -> A) (k : K) (l : list A) :
  (forall x, key (f x) = key x) ->
  existsb (fun x => eqb (key x) k) (map f l)
  = existsb (fun x => eqb (key x) k) l.
Proof.
  intros Hf. induction l as [|x l IH]; simpl; [reflexivity|].
  rewrite Hf, IH. reflexivity.
Qed.

Lemma checked_in_db_keeps_foreign_keys sess r p_scanner db :
  In r (reservations db) ->
  scanner_is_known p_scanner db = true ->
  foreign_keys db -> foreign_keys (checked_in_db sess r p_scanner db).
Proof.
  intros Hin Hsc [Hs [Hr Hl]].
  set (upd := fun x => if N.eqb (Reservation.id x) (Reservation.id r)
                       then check_in_row sess x else x).
  assert (Hupd_id : forall x, Reservation.id (upd x) = Reservation.id x).
  { intros x. unfold upd.
    destruct (N.eqb (Reservation.id x) (Reservation.id r)); reflexivity. }
  unfold foreign_keys, checked_in_db.
  cbn [movies screenings reservations attendance_logs auth_users].
  fold upd. split; [exact Hs|]. split.
  - apply Forall_forall. intros y Hy. apply in_map_iff in Hy.
    destruct Hy as [x [<- Hx]].
    rewrite Forall_forall in Hr. specialize (Hr x Hx).
    unfold upd. destruct (N.eqb (Reservation.id x) (Reservation.id r));
      exact Hr.
  - apply Forall_app. split.
    + rewrite Forall_forall in *. intros l Hin_l.
      destruct (Hl l Hin_l) as [H1 H2]. split; [|exact H2].
      rewrite <- H1.
      apply (existsb_map_key Reservation.id (fun a b => N.eqb a b)).
      exact Hupd_id.
    + constructor; [|constructor]. simpl. split; [|exact Hsc].
      rewrite (existsb_map_key Reservation.id (fun a b => N.eqb a b))
        by exact Hupd_id.
      apply existsb_exists. exists r. split; [exact Hin|apply N.eqb_refl].
Qed.

Lemma db_after_call_keeps_foreign_keys (c : call) (db : database) :
  foreign_keys db -> foreign_keys (db_after_call c db).
Proof.
  intros Hk.
  destruct (db_after_call_cases c db)
    as [->|[t [r [_ [_ [Hsel [_ [_ [_ [Hsc ->]]]]]]]]]]; [exact Hk|].
  destruct (find_some_in _ _ _ Hsel) as [Hin _].
  apply checked_in_db_keeps_foreign_keys; assumption.
Qed.

(** X3: the foreign keys that hold before a sequence of calls of the
    routine hold after it: every log it writes references a stored
    reservation and a scanner that is null or a stored user. *)
Theorem validate_calls_keep_foreign_keys (cs : list call) (db : database) :
  foreign_keys db -> foreign_keys (db_after_calls cs db).
Proof.
  unfold db_after_calls. revert db.
  induction cs as [|c cs IH]; intros db Hk; simpl; [exact Hk|].
  apply IH. apply db_after_call_keeps_foreign_keys. exact Hk.
Qed.

(** ** Status changes made by the routine *)

Lemma NoDup_map_eq_in {A K : Type} (key : A -> K) (l : list A) (x y : A) :
  NoDup (map key l) -> In x l -> In y l -> key x = key y -> x = y.
Proof.
  induction l as [|a l IH]; simpl; intros Hnd Hx Hy Hk; [contradiction|].
  inversion Hnd as [|? ? Ha Hnd']; subst.
  destruct Hx as [->|Hx], Hy as [->|Hy].
  - reflexivity.
  - exfalso. apply Ha. rewrite Hk. apply in_map. exact Hy.
  - exfalso. apply Ha. rewrite <- Hk. apply in_map. exact Hx.
  - apply IH; assumption.
Qed.

Lemma db_after_call_ids (c : call) (db : database) :
  map Reservation.id (reservations (db_after_call c db))
  = map Reservation.id (reservations db).
Proof.
  destruct (db_after_call_cases c db)
    as [->|[t [r [_ [_ [_ [_ [_ [_ [_ ->]]]]]]]]]]; [reflexivity|].
  unfold checked_in_db. cbn [reservations].
  apply map_key_checked_in. reflexivity.
Qed.

Lemma db_after_call_keeps_cancelled (c : call) (db : database)
    (r : Reservation.row) :
  reservations_pkey db ->
  In r (reservations db) -> Reservation.status r = cancelled ->
  In r (reservations (db_after_call c db)).
Proof.
  intros Hpk Hin Hst.
  destruct (db_after_call_cases c db)
    as [->|[t [r0 [_ [_ [Hsel [Hst0 [_ [_ [_ ->]]]]]]]]]]; [exact Hin|].
  destruct (find_some_in _ _ _ Hsel) as [Hin0 _].
  unfold checked_in_db. cbn [reservations].
  apply in_map_iff. exists r. split; [|exact Hin].
  destruct (N.eqb (Reservation.id r) (Reservation.id r0)) eqn:E;
    [|reflexivity].
  apply N.eqb_eq in E. exfalso. apply Hst0.
  rewrite <- (NoDup_map_eq_in Reservation.id _ r r0 Hpk Hin Hin0 E).
  exact Hst.
Qed.

(** X4: with distinct reservation ids, a cancelled reservation comes out
    of any sequence of calls of the routine exactly as it went in, status
    and [updated_at] included, whoever calls and whatever tokens are
    presented. *)
Theorem validate_calls_keep_cancelled (cs : list call) (db : database)
    (r : Reservation.row) :
  reservations_pkey db ->
  In r (reservations db) -> Reservation.status r = cancelled ->
  In r (reservations (db_after_calls cs db)).
Proof.
  unfold db_after_calls. revert db.
  induction cs as [|c cs IH]; intros db Hpk Hin Hst; simpl; [exact Hin|].
  apply IH.
  - unfold reservations_pkey. rewrite db_after_call_ids. exact Hpk.
  - apply db_after_call_keeps_cancelled; assumption.
  - exact Hst.
Qed.

Lemma attendance_log_exists_checked_in sess r p_scanner db (v_id : uuid) :
  attendance_log_exists v_id (checked_in_db sess r p_scanner db)
  = attendance_log_exists v_id db || N.eqb (Reservation.id r) v_id.
Proof.
  unfold attendance_log_exists, checked_in_db. cbn [attendance_logs].
  rewrite existsb_app. simpl. rewrite orb_false_r. reflexivity.
Qed.

Lemma db_after_call_keeps_logged_checked_in (c : call) (db : database) :
  logged_reservations_checked_in db ->
  logged_reservations_checked_in (db_after_call c db).
Proof.
  intros Hinv.
  destruct (db_after_call_cases c db)
    as [->|[t [r0 [_ [_ [_ [_ [_ [_ [_ ->]]]]]]]]]]; [exact Hinv|].
  intros y Hy Hlog. unfold checked_in_db in Hy. cbn [reservations] in Hy.
  apply in_map_iff in Hy. destruct Hy as [x [<- Hx]]. revert Hlog.
  rewrite attendance_log_exists_checked_in.
  destruct (N.eqb (Reservation.id x) (Reservation.id r0)) eqn:E.
  - reflexivity.
  - rewrite N.eqb_sym, E, orb_false_r. apply Hinv. exact Hx.
Qed.

(** X5: if every reservation that has an attendance log is checked in,
    this is still so after any sequence of calls of the routine: the
    routine never records a log without setting the status, whatever the
    status was. *)
Theorem validate_calls_keep_logged_checked_in (cs : list call)
    (db : database) :
  logged_reservations_checked_in db ->
  logged_reservations_checked_in (db_after_calls cs db).
Proof.
  unfold db_after_calls. revert db.
  induction cs as [|c cs IH]; intros db Hinv; simpl; [exact Hinv|].
  apply IH. apply db_after_call_keeps_logged_checked_in. exact Hinv.
Qed.

(** ** The sample database satisfies its constraints *)

Lemma sample_db_unique_keys : unique_keys sample_db.
Proof.
  unfold unique_keys, reservations_pkey, reservations_user_screening_unique,
    reservations_qr_token_unique, attendance_logs_pkey,
    attendance_logs_reservation_id_unique.
  simpl. repeat split; nodup_by_computation.
Qed.

Lemma sample_db_foreign_keys : foreign_keys sample_db.
Proof.
  unfold foreign_keys. simpl.
  repeat split; repeat (constructor; [repeat split|]); constructor.
Qed.

Lemma sample_db_logged_checked_in : logged_reservations_checked_in sample_db.
Proof. intros r _ H. discriminate H. Qed.

Lemma validate_calls_keep_unique_keys_witness :
  unique_keys (db_after_calls sample_calls sample_db).
Proof.
  apply validate_calls_keep_unique_keys. exact sample_db_unique_keys.
Defined.

Lemma validate_calls_keep_foreign_keys_witness :
  foreign_keys (db_after_calls sample_calls sample_db).
Proof.
  apply validate_calls_keep_foreign_keys. exact sample_db_foreign_keys.
Defined.

Lemma validate_calls_keep_cancelled_witness :
  In (sample_reservation 11 100 3 cancelled "0f1e2d3c4b5a6978")
     (reservations (db_after_calls sample_calls sample_db)).
Proof.
  apply validate_calls_keep_cancelled.
  - exact sample_db_pkey.
  - simpl. right. left. reflexivity.
  - reflexivity.
Defined.

Lemma validate_calls_keep_logged_checked_in_witness :
  logged_reservations_checked_in (db_after_calls sample_calls sample_db).
Proof.
  apply validate_calls_keep_logged_checked_in.
  exact sample_db_logged_checked_in.
Defined.

(** ** Storing a reservation *)

(** When [insert_reservation] stores the row, the policy admitted it and
    the five constraints hold. *)
Lemma insert_reservation_ok_inv sess new_row db db1 :
  insert_reservation sess new_row db = Ok db1 ->
  reservations_policy sess db new_row = true
  /\ existsb (fun r => N.eqb (Reservation.id r) (Reservation.id new_row))
          (reservations db) = false
  /\ existsb (fun r => N.eqb (Reservation.screening_id r)
                             (Reservation.screening_id new_row)
                       && N.eqb (Reservation.user_id r)
                                (Reservation.user_id new_row))
             (reservations db) = false
  /\ existsb (fun r => String.eqb (Reservation.qr_token r)
                                  (Reservation.qr_token new_row))
             (reservations db) = false
  /\ existsb (fun s => N.eqb (Screening.id s)
                             (Reservation.screening_id new_row))
             (screenings db) = true
  /\ existsb (N.eqb (Reservation.user_id new_row)) (auth_users db) = true
  /\ db1 = set_reservations (reservations db ++ [new_row]) db.
Proof.
  unfold insert_reservation.
  destruct (reservations_policy sess db new_row) eqn:Hpol; cbn [negb];
    [|discriminate].
  destruct (existsb _ (reservations db)) eqn:Hpk; [discriminate|].
  destruct (existsb _ (reservations db)) eqn:Hpair in |- *; [discriminate|].
  destruct (existsb _ (reservations db)) eqn:Htok in |- *; [discriminate|].
  destruct (existsb _ (screenings db)) eqn:Hs; simpl; [|discriminate].
  destruct (existsb (N.eqb (Reservation.user_id new_row)) (auth_users db))
    eqn:Hu; simpl; [|discriminate].
  intros H. inversion H. repeat split; reflexivity.
Qed.

Lemma insert_reservation_keeps_foreign_keys sess new_row db db1 :
  insert_reservation sess new_row db = Ok db1 ->
  foreign_keys db -> foreign_keys db1.
Proof.
  intros Hins [Hs [Hr Hl]].
  destruct (insert_reservation_ok_inv _ _ _ _ Hins)
    as [_ [_ [_ [_ [Hs' [Hu' ->]]]]]].
  unfold foreign_keys, set_reservations.
  cbn [movies screenings reservations attendance_logs auth_users].
  split; [exact Hs|]. split.
  - apply Forall_app. split; [exact Hr|].
    constructor; [split; assumption|constructor].
  - rewrite Forall_forall in *. intros l Hin.
    destruct (Hl l Hin) as [H1 H2]. split; [|exact H2].
    rewrite existsb_app, H1. reflexivity.
Qed.

(** X6: a reservation that is stored is added at the end of the table,
    nothing else changes, and the unique keys and foreign keys that held
    before hold after. *)
Theorem insert_reservation_keeps_constraints (sess : session)
    (new_row : Reservation.row) (db db1 : database) :
  insert_reservation sess new_row db = Ok db1 ->
  unique_keys db -> foreign_keys db ->
  unique_keys db1 /\ foreign_keys db1
  /\ reservations db1 = (reservations db ++ [new_row])%list
  /\ attendance_logs db1 = attendance_logs db
  /\ screenings db1 = screenings db
  /\ movies db1 = movies db
  /\ profiles db1 = profiles db
  /\ auth_users db1 = auth_users db.
Proof.
  intros Hins Hk Hf.
  split; [exact (insert_reservation_keeps_unique_keys _ _ _ _ Hins Hk)|].
  split; [exact (insert_reservation_keeps_foreign_keys _ _ _ _ Hins Hf)|].
  destruct (insert_reservation_ok_inv _ _ _ _ Hins)
    as [_ [_ [_ [_ [_ [_ ->]]]]]].
  repeat split.
Qed.

Lemma insert_reservation_keeps_constraints_witness :
  exists db1,
    insert_reservation admin_session
      (sample_reservation 20 100 1 pending "1122334455667788") sample_db
    = Ok db1
    /\ unique_keys db1 /\ foreign_keys db1.
Proof.
  eexists. split; [reflexivity|].
  destruct (insert_reservation_keeps_constraints admin_session
              (sample_reservation 20 100 1 pending "1122334455667788")
              sample_db _ eq_refl sample_db_unique_keys
              sample_db_foreign_keys) as [Hk [Hf _]].
  split; [exact Hk|exact Hf].
Defined.

(** A reservation whose id is new has no attendance log, when every log
    references a stored reservation. *)
Lemma no_log_for_new_id (db : database) (v_id : uuid) :
  foreign_keys db ->
  existsb (fun r => N.eqb (Reservation.id r) v_id) (reservations db) = false ->
  attendance_log_exists v_id db = false.
Proof.
  intros [_ [_ Hl]] Hnew. unfold attendance_log_exists.
  destruct (existsb _ (attendance_logs db)) eqn:E; [|reflexivity].
  apply existsb_exists in E. destruct E as [l [Hin Hid]].
  apply N.eqb_eq in Hid. rewrite Forall_forall in Hl.
  destruct (Hl l Hin) as [H1 _]. rewrite Hid in H1. congruence.
Qed.

(** X7: a reservation that has just been stored, with a status other than
    cancelled and a token that has a character other than a space, is
    checked in by the first scan of its token by an admin (the scanner
    being null or a user, the log id unused). *)
Theorem insert_then_scan (caller : session) (new_row : Reservation.row)
    (db db1 : database) (sess : session) (p_scanner : option uuid) :
  insert_reservation caller new_row db = Ok db1 ->
  unique_keys db -> foreign_keys db ->
  only_spaces (Reservation.qr_token new_row) = false ->
  Reservation.status new_row <> cancelled ->
  current_user_is_admin sess db1 = true ->
  scanner_is_known p_scanner db1 = true ->
  log_id_is_new sess db1 = true ->
  validate_reservation_qr sess (Some (Reservation.qr_token new_row))
    p_scanner db1
  = Ok (checked_in_result new_row,
        checked_in_db sess new_row p_scanner db1).
Proof.
  intros Hins Hk Hf Hsp Hst Hadm Hsc Hnew.
  assert (Hk1 := insert_reservation_keeps_unique_keys _ _ _ _ Hins Hk).
  destruct (insert_reservation_ok_inv _ _ _ _ Hins)
    as [_ [Hid [_ [_ [_ [_ Hdb]]]]]].
  assert (Hin : In new_row (reservations db1)).
  { rewrite Hdb. simpl. apply in_or_app. right. left. reflexivity. }
  destruct Hk1 as [Hpk [_ [Htok _]]].
  assert (Hlog : attendance_log_exists (Reservation.id new_row) db1 = false).
  { rewrite Hdb. apply (no_log_for_new_id db _ Hf Hid). }
  destruct (validate_success sess (Reservation.qr_token new_row) p_scanner
              db1 new_row) as [x [Hx [_ Hval]]]; try assumption.
  - rewrite token_is_blank_Some. exact Hsp.
  - apply select_reservation_by_token_unique; assumption.
  - unfold select_reservation_by_id in Hx.
    rewrite (find_unique_key Reservation.id N.eqb N.eqb_eq) in Hx
      by assumption.
    inversion Hx. subst x. exact Hval.
Qed.

Lemma insert_then_scan_witness :
  exists db1,
    insert_reservation admin_session
      (sample_reservation 20 100 1 pending "1122334455667788") sample_db
    = Ok db1
    /\ validate_reservation_qr admin_session (Some "1122334455667788")
         None db1
       = Ok (checked_in_result
               (sample_reservation 20 100 1 pending "1122334455667788"),
             checked_in_db admin_session
               (sample_reservation 20 100 1 pending "1122334455667788")
               None db1).
Proof.
  eexists. split; [reflexivity|].
  apply (insert_then_scan admin_session
           (sample_reservation 20 100 1 pending "1122334455667788")
           sample_db).
  - reflexivity.
  - exact sample_db_unique_keys.
  - exact sample_db_foreign_keys.
  - reflexivity.
  - discriminate.
  - reflexivity.
  - reflexivity.
  - reflexivity.
Defined.

Lemma existsb_by_key {A K : Type} (key : A -> K) (p : K -> bool)
    (l : list A) :
  existsb (fun x => p (key x)) l = existsb p (map key l).
Proof.
  induction l as [|x l IH]; simpl; [reflexivity|]. rewrite IH. reflexivity.
Qed.

Lemma reservations_of_screening_snoc s db new_row :
  reservations_of_screening s
    (set_reservations (reservations db ++ [new_row]) db)
  = (reservations_of_screening s db
     ++ if N.eqb (Reservation.screening_id new_row) (Screening.id s)
        then [new_row] else [])%list.
Proof.
  unfold reservations_of_screening. cbn [set_reservations reservations].
  rewrite filter_app. simpl.
  destruct (N.eqb (Reservation.screening_id new_row) (Screening.id s));
    reflexivity.
Qed.

(** X8: whether a reservation is stored does not depend on the capacity
    of its screening, nor on anything of the screenings but their ids: an
    insert that is accepted would be accepted with any other capacities,
    and it raises [total_reservations] of its screening in the view by
    one, also beyond the capacity. *)
Theorem insert_reservation_ignores_capacity (sess : session)
    (new_row : Reservation.row) (db db1 : database) :
  insert_reservation sess new_row db = Ok db1 ->
  (forall ss,
      map Screening.id ss = map Screening.id (screenings db) ->
      insert_reservation sess new_row (set_screenings ss db)
      = Ok (set_screenings ss db1))
  /\ (forall s,
        exists st st1,
          screening_stat db s = Ok st
          /\ screening_stat db1 s = Ok st1
          /\ ScreeningStat.capacity st1 = ScreeningStat.capacity st
          /\ ScreeningStat.total_reservations st1
             = ScreeningStat.total_reservations st
               + (if N.eqb (Reservation.screening_id new_row) (Screening.id s)
                  then 1 else 0)).
Proof.
  intros Hins.
  destruct (insert_reservation_ok_inv _ _ _ _ Hins)
    as [Hpol [Hpk [Hpair [Htok [Hs [Hu ->]]]]]].
  split.
  - intros ss Hids. unfold insert_reservation.
    change (reservations_policy sess (set_screenings ss db) new_row)
      with (reservations_policy sess db new_row).
    cbn [set_screenings reservations screenings auth_users].
    rewrite Hpol, Hpk, Hpair, Htok, Hu. cbn [negb].
    rewrite (existsb_by_key Screening.id
               (fun k => N.eqb k (Reservation.screening_id new_row)) ss).
    rewrite Hids.
    rewrite <- (existsb_by_key Screening.id
                  (fun k => N.eqb k (Reservation.screening_id new_row))).
    rewrite Hs. reflexivity.
  - intros s.
    destruct (screening_stat_ok db s)
      as [st [Hst [_ [_ [_ [Hcap [Htot _]]]]]]].
    destruct (screening_stat_ok
                (set_reservations (reservations db ++ [new_row]) db) s)
      as [st1 [Hst1 [_ [_ [_ [Hcap1 [Htot1 _]]]]]]].
    exists st, st1. split; [exact Hst|]. split; [exact Hst1|].
    split; [congruence|].
    rewrite Htot, Htot1, reservations_of_screening_snoc, length_app.
    destruct (N.eqb (Reservation.screening_id new_row) (Screening.id s));
      simpl; lia.
Qed.

Lemma insert_reservation_ignores_capacity_witness :
  exists db1 st st1,
    insert_reservation admin_session
      (sample_reservation 20 100 1 pending "1122334455667788") full_db
    = Ok db1
    /\ screening_stat full_db full_screening = Ok st
    /\ screening_stat db1 full_screening = Ok st1
    /\ ScreeningStat.capacity st = 4
    /\ ScreeningStat.total_reservations st = 4
    /\ ScreeningStat.capacity st1 = 4
    /\ ScreeningStat.total_reservations st1 = 5.
Proof.
  assert (Hins :
    insert_reservation admin_session
      (sample_reservation 20 100 1 pending "1122334455667788") full_db
    = Ok (set_reservations
            (reservations full_db
             ++ [sample_reservation 20 100 1 pending "1122334455667788"])
            full_db)) by reflexivity.
  destruct (proj2 (insert_reservation_ignores_capacity _ _ _ _ Hins)
              full_screening) as [st [st1 [Hst [Hst1 [Hcap Htot]]]]].
  eexists. exists st, st1. split; [exact Hins|].
  split; [exact Hst|]. split; [exact Hst1|].
  assert (Hv : screening_stat full_db full_screening = Ok st) by exact Hst.
  vm_compute in Hv. inversion Hv. subst st. clear Hv.
  simpl in Hcap, Htot. repeat split; try reflexivity; assumption.
Defined.

(** ** Bounds of the view's columns *)

(** The value of a rate whose quotient is below 10000, with [s] the scale
    chosen for the quotient. *)
Lemma rate_percent_value (n d : Z) :
  0 <= n -> 0 < d -> n < 10 ^ 4 * d ->
  exists N u,
    10 ^ 12 <= N
    /\ u = (2 * (n * (10 ^ 4 * N)) + d) / (2 * d)
    /\ rate_percent n d
       = Ok {| unscaled := (2 * u + N) / (2 * N); dscale := 2 |}.
Proof.
  intros Hn Hd Hlt.
  destruct (rate_percent_nonzero n d ltac:(lia)) as [q [Hq ->]].
  unfold numeric_div_integers in Hq.
  replace (d =? 0) with false in Hq by (symmetry; apply Z.eqb_neq; lia).
  inversion Hq as [Hq']. clear Hq Hq'.
  assert (Hs := select_div_scale_min n d Hn ltac:(lia) ltac:(lia)).
  set (s := select_div_scale n d) in *.
  rewrite Z.sgn_pos, Z.abs_eq, !Z.mul_1_l by lia.
  exists (10 ^ (s - 4)). eexists.
  set (N := 10 ^ (s - 4)).
  assert (HN : 10 ^ 12 <= N) by (apply Z.pow_le_mono_r; lia).
  assert (Hs4 : 10 ^ s = 10 ^ 4 * N).
  { unfold N. rewrite <- Z.pow_add_r by lia. f_equal. lia. }
  split; [exact HN|]. split; [reflexivity|].
  unfold numeric_round, numeric_mul, numeric_of_int. cbn [unscaled dscale].
  replace (Nat.leb (Z.to_nat s + 0) 2) with false
    by (symmetry; apply Nat.leb_gt; lia).
  f_equal. f_equal.
  replace (Z.of_nat (Z.to_nat s + 0 - 2)) with (s - 4 + 2) by lia.
  rewrite Z.pow_add_r by lia. fold N.
  assert (H0 : 0 <= n * 10 ^ s) by (rewrite Hs4; nia).
  rewrite (div_round_half_away_nonneg (n * 10 ^ s) d H0) by lia.
  set (u := (2 * (n * 10 ^ s) + d) / (2 * d)).
  assert (Hu : 0 <= u) by (apply Z.div_pos; lia).
  rewrite div_round_half_away_nonneg by lia.
  replace (2 * (u * 100) + N * 10 ^ 2) with (100 * (2 * u + N)) by lia.
  replace (2 * (N * 10 ^ 2)) with (100 * (2 * N)) by lia.
  rewrite Z.div_mul_cancel_l by lia.
  unfold u. rewrite Hs4. reflexivity.
Qed.

(** A part of a whole is at most 100.00 percent of it. *)
Lemma rate_percent_of_part (n d : Z) :
  0 <= n <= d ->
  exists x, rate_percent n d = Ok x /\ 0 <= unscaled x <= 10000.
Proof.
  intros Hnd.
  destruct (Z.eq_dec d 0) as [->|Hd].
  - eexists. split; [apply rate_percent_zero|]. simpl. lia.
  - destruct (rate_percent_value n d) as [N [u [HN [Hu ->]]]]; try lia.
    eexists. split; [reflexivity|]. cbn [unscaled].
    change (10 ^ 4) with 10000 in *.
    assert (Hu1 : 0 <= u < 10000 * N + 1).
    { subst u. split.
      - apply Z.div_pos; nia.
      - apply Z.div_lt_upper_bound; [lia|]. nia. }
    split.
    + apply Z.div_pos; lia.
    + apply Z.lt_succ_r. apply Z.div_lt_upper_bound; lia.
Qed.

Lemma count_filter_le (p q : Reservation.row -> bool)
    (rs : list Reservation.row) :
  (forall r, p r = true -> q r = true) ->
  0 <= count_filter p rs <= count_filter q rs.
Proof.
  intros Hpq. unfold count_filter. split; [lia|].
  apply inj_le.
  induction rs as [|x l IH]; simpl; [lia|].
  destruct (p x) eqn:Hp.
  - rewrite (Hpq x Hp). simpl. lia.
  - destruct (q x); simpl; lia.
Qed.

(** X9: in the row of every screening,
    [0 <= checked_in_count <= active_reservations <= total_reservations],
    and [attendance_rate] lies between 0 and 100.00 whatever the number
    of reservations, with two decimals unless there is no reservation. *)
Theorem screening_stat_bounds (db : database) (s : Screening.row) :
  exists st,
    screening_stat db s = Ok st
    /\ 0 <= ScreeningStat.checked_in_count st
    /\ ScreeningStat.checked_in_count st
       <= ScreeningStat.active_reservations st
    /\ ScreeningStat.active_reservations st
       <= ScreeningStat.total_reservations st
    /\ 0 <= unscaled (ScreeningStat.attendance_rate st) <= 10000
    /\ (ScreeningStat.total_reservations st <> 0 ->
        dscale (ScreeningStat.attendance_rate st) = 2%nat).
Proof.
  destruct (screening_stat_ok db s)
    as [st [Hst [_ [Hatt [_ [_ [Htot [Hact Hchk]]]]]]]].
  exists st. split; [exact Hst|].
  set (rs := reservations_of_screening s db) in *.
  assert (H1 : 0 <= ScreeningStat.checked_in_count st
               <= ScreeningStat.active_reservations st).
  { rewrite Hchk, Hact. apply count_filter_le.
    intros r Hr. apply reservation_status_eqb_eq in Hr. rewrite Hr.
    reflexivity. }
  assert (H2 : ScreeningStat.active_reservations st
               <= ScreeningStat.total_reservations st).
  { rewrite Hact, Htot. unfold count_filter. apply inj_le.
    apply filter_length_le. }
  split; [lia|]. split; [lia|]. split; [exact H2|].
  destruct (rate_percent_of_part (ScreeningStat.checked_in_count st)
              (ScreeningStat.total_reservations st)) as [x [Hx Hb]]; [lia|].
  assert (x = ScreeningStat.attendance_rate st) by congruence. subst x.
  split; [exact Hb|].
  intros Hne.
  destruct (rate_percent_nonzero (ScreeningStat.checked_in_count st) _ Hne)
    as [q [_ Hr]].
  rewrite Hr in Hatt. inversion Hatt as [Heq].
  unfold numeric_round. destruct (Nat.leb _ 2); reflexivity.
Qed.

(** ** A scan seen through the view *)

Lemma filter_map_comm {A : Type} (p : A -> bool) (f : A -> A) (l : list A) :
  (forall x, p (f x) = p x) -> filter p (map f l) = map f (filter p l).
Proof.
  intros Hp. induction l as [|x l IH]; simpl; [reflexivity|].
  rewrite Hp, IH. destruct (p x); reflexivity.
Qed.

Lemma NoDup_map_filter {A K : Type} (key : A -> K) (p : A -> bool)
    (l : list A) :
  NoDup (map key l) -> NoDup (map key (filter p l)).
Proof.
  induction l as [|x l IH]; simpl; intros Hnd; [constructor|].
  inversion Hnd as [|? ? Hx Hnd']; subst.
  destruct (p x); simpl; [|apply IH; exact Hnd'].
  constructor; [|apply IH; exact Hnd'].
  intros Hin. apply Hx. apply in_map_iff in Hin.
  destruct Hin as [y [Hy Hin]]. apply filter_In in Hin.
  apply in_map_iff. exists y. split; [exact Hy|apply Hin].
Qed.

Lemma count_filter_cons (p : Reservation.row -> bool) (x : Reservation.row)
    (l : list Reservation.row) :
  count_filter p (x :: l) = (if p x then 1 else 0) + count_filter p l.
Proof.
  unfold count_filter. cbn [filter]. destruct (p x); cbn [List.length];
    rewrite ?Nat2Z.inj_succ; lia.
Qed.

Lemma count_filter_map (p : Reservation.row -> bool)
    (f : Reservation.row -> Reservation.row) (l : list Reservation.row) :
  count_filter p (map f l) = count_filter (fun x => p (f x)) l.
Proof.
  induction l as [|x l IH]; [reflexivity|].
  cbn [map]. rewrite !count_filter_cons, IH. reflexivity.
Qed.

Lemma count_filter_ext_in (p q : Reservation.row -> bool)
    (l : list Reservation.row) :
  (forall x, In x l -> p x = q x) -> count_filter p l = count_filter q l.
Proof.
  intros H. induction l as [|x l IH]; [reflexivity|].
  rewrite !count_filter_cons, (H x) by (left; reflexivity).
  rewrite IH; [reflexivity|]. intros y Hy. apply H. right. exact Hy.
Qed.

(** Checking [r] in adds one to the count of checked-in rows of a list
    that holds [r], unless [r] was counted already. *)
Lemma count_checked_in_after (sess : session) (r : Reservation.row)
    (l : list Reservation.row) :
  NoDup (map Reservation.id l) ->
  (forall x, In x l -> Reservation.id x = Reservation.id r -> x = r) ->
  count_filter
    (fun x =>
       reservation_status_eqb
         (Reservation.status
            (if N.eqb (Reservation.id x) (Reservation.id r)
             then check_in_row sess x else x))
         checked_in) l
  = count_filter
      (fun x => reservation_status_eqb (Reservation.status x) checked_in) l
    + (if existsb (fun x => N.eqb (Reservation.id x) (Reservation.id r)) l
          && negb (reservation_status_eqb (Reservation.status r) checked_in)
       then 1 else 0).
Proof.
  induction l as [|x l IH]; intros Hnd Hr; [reflexivity|].
  inversion Hnd as [|? ? Hx Hnd']; subst.
  rewrite !count_filter_cons.
  rewrite IH by (try assumption; intros y Hy; apply Hr; right; exact Hy).
  cbn [existsb].
  destruct (N.eqb (Reservation.id x) (Reservation.id r)) eqn:E.
  - apply N.eqb_eq in E.
    assert (x = r) by (apply Hr; [left; reflexivity|exact E]). subst x.
    assert (Hex : existsb (fun y => N.eqb (Reservation.id y)
                                          (Reservation.id r)) l = false).
    { destruct (existsb _ l) eqn:Hex; [|reflexivity].
      apply existsb_exists in Hex. destruct Hex as [y [Hy Hid]].
      apply N.eqb_eq in Hid. exfalso. apply Hx. rewrite <- Hid.
      apply in_map. exact Hy. }
    rewrite Hex. cbn [orb andb check_in_row Reservation.status
      reservation_status_eqb].
    destruct (reservation_status_eqb (Reservation.status r) checked_in);
      cbn [negb]; lia.
  - cbn [orb]. lia.
Qed.

Lemma reservations_of_screening_checked_in sess r p_scanner db s :
  reservations_of_screening s (checked_in_db sess r p_scanner db)
  = map (fun x => if N.eqb (Reservation.id x) (Reservation.id r)
                  then check_in_row sess x else x)
        (reservations_of_screening s db).
Proof.
  unfold reservations_of_screening, checked_in_db. cbn [reservations].
  apply filter_map_comm. intros x.
  destruct (N.eqb (Reservation.id x) (Reservation.id r)); reflexivity.
Qed.

(** X10: with distinct reservation ids, a scan that returns a valid result
    leaves [total_reservations] and [active_reservations] of every
    screening as they were, and raises [checked_in_count] by one for the
    screening of the scanned reservation, unless that reservation already
    had the status checked_in; the other screenings keep their count. *)
Theorem scan_updates_stats (sess : session) (p_token : option string)
    (p_scanner : option uuid) (db db1 : database)
    (res : qr_validation_result) :
  reservations_pkey db ->
  validate_reservation_qr sess p_token p_scanner db = Ok (res, db1) ->
  is_valid res = true ->
  exists r,
    In r (reservations db)
    /\ reservation_id res = Some (Reservation.id r)
    /\ forall s,
        exists st st1,
          screening_stat db s = Ok st
          /\ screening_stat db1 s = Ok st1
          /\ ScreeningStat.total_reservations st1
             = ScreeningStat.total_reservations st
          /\ ScreeningStat.active_reservations st1
             = ScreeningStat.active_reservations st
          /\ ScreeningStat.checked_in_count st1
             = ScreeningStat.checked_in_count st
               + (if N.eqb (Reservation.screening_id r) (Screening.id s)
                     && negb (reservation_status_eqb (Reservation.status r)
                                checked_in)
                  then 1 else 0).
Proof.
  intros Hpk Hval Hvalid.
  destruct (validate_valid_inv _ _ _ _ _ _ Hval Hvalid)
    as [t [r [_ [_ [Hsel [Hst [_ [_ [-> Hrid]]]]]]]]].
  destruct (find_some_in _ _ _ Hsel) as [Hin _].
  exists r. split; [exact Hin|]. split; [exact Hrid|].
  intros s.
  destruct (screening_stat_ok db s)
    as [st [Hrow [_ [_ [_ [_ [Htot [Hact Hchk]]]]]]]].
  destruct (screening_stat_ok (checked_in_db sess r p_scanner db) s)
    as [st1 [Hrow1 [_ [_ [_ [_ [Htot1 [Hact1 Hchk1]]]]]]]].
  exists st, st1. split; [exact Hrow|]. split; [exact Hrow1|].
  rewrite reservations_of_screening_checked_in in Htot1, Hact1, Hchk1.
  set (l := reservations_of_screening s db) in *.
  assert (Hl_in : forall x, In x l -> In x (reservations db)).
  { intros x Hx. unfold l, reservations_of_screening in Hx.
    apply filter_In in Hx. apply Hx. }
  assert (Hl_r : forall x, In x l ->
                           Reservation.id x = Reservation.id r -> x = r).
  { intros x Hx Hid.
    apply (NoDup_map_eq_in Reservation.id _ x r Hpk (Hl_in x Hx) Hin Hid). }
  split; [|split].
  - rewrite Htot1, Htot, length_map. reflexivity.
  - rewrite Hact1, Hact, count_filter_map. apply count_filter_ext_in.
    intros x Hx.
    destruct (N.eqb (Reservation.id x) (Reservation.id r)) eqn:E;
      [|reflexivity].
    apply N.eqb_eq in E. rewrite (Hl_r x Hx E). cbn [check_in_row
      Reservation.status].
    destruct (Reservation.status r); try reflexivity.
    exfalso. apply Hst. reflexivity.
  - rewrite Hchk1, Hchk, count_filter_map.
    rewrite (count_checked_in_after sess r l)
      by (try assumption; apply NoDup_map_filter; exact Hpk).
    f_equal.
    assert (Hex : existsb (fun x => N.eqb (Reservation.id x)
                                          (Reservation.id r)) l
                  = N.eqb (Reservation.screening_id r) (Screening.id s)).
    { destruct (N.eqb (Reservation.screening_id r) (Screening.id s)) eqn:E.
      - apply existsb_exists. exists r. split; [|apply N.eqb_refl].
        unfold l, reservations_of_screening. apply filter_In.
        split; assumption.
      - destruct (existsb _ l) eqn:Hex; [|reflexivity].
        apply existsb_exists in Hex. destruct Hex as [x [Hx Hid]].
        apply N.eqb_eq in Hid. rewrite (Hl_r x Hx Hid) in Hx.
        unfold l, reservations_of_screening in Hx. apply filter_In in Hx.
        destruct Hx as [_ Hx]. congruence. }
    rewrite Hex. reflexivity.
Qed.

Lemma scan_updates_stats_witness :
  exists r,
    In r (reservations sample_db)
    /\ Some 10%N = Some (Reservation.id r)
    /\ forall s,
        exists st st1,
          screening_stat sample_db s = Ok st
          /\ screening_stat sample_scanned_db s = Ok st1
          /\ ScreeningStat.total_reservations st1
             = ScreeningStat.total_reservations st
          /\ ScreeningStat.active_reservations st1
             = ScreeningStat.active_reservations st
          /\ ScreeningStat.checked_in_count st1
             = ScreeningStat.checked_in_count st
               + (if N.eqb (Reservation.screening_id r) (Screening.id s)
                     && negb (reservation_status_eqb (Reservation.status r)
                                checked_in)
                  then 1 else 0).
Proof.
  apply (scan_updates_stats admin_session (Some "a1b2c3d4e5f60718")
           (Some 1%N) sample_db sample_scanned_db
           (checked_in_result
              (sample_reservation 10 100 2 confirmed "a1b2c3d4e5f60718"))).
  - exact sample_db_pkey.
  - reflexivity.
  - reflexivity.
Defined.

(** ** Deleting with cascades *)

(** Children that survive a cascade still have their parent. *)
Lemma cascade_keeps_parents {A B : Type} (key : A -> uuid) (ref : B -> uuid)
    (gone : A -> bool) (parents : list A) (children : list B) :
  Forall (fun c => existsb (fun p => N.eqb (key p) (ref c)) parents = true)
         children ->
  Forall (fun c => existsb (fun p => N.eqb (key p) (ref c))
                           (filter (fun p => negb (gone p)) parents) = true)
         (filter (fun c => negb (existsb (N.eqb (ref c))
                                         (map key (filter gone parents))))
                 children).
Proof.
  intros Hfk. rewrite Forall_forall in *. intros c Hc.
  apply filter_In in Hc. destruct Hc as [Hc Hkept].
  specialize (Hfk c Hc). apply existsb_exists in Hfk.
  destruct Hfk as [p [Hp Hkey]].
  apply existsb_exists. exists p. split; [|exact Hkey].
  apply filter_In. split; [exact Hp|].
  destruct (gone p) eqn:Hg; [|reflexivity].
  exfalso. apply negb_true_iff in Hkept.
  assert (existsb (N.eqb (ref c)) (map key (filter gone parents)) = true).
  { apply existsb_exists. exists (key p). split.
    - apply in_map. apply filter_In. split; assumption.
    - rewrite N.eqb_sym. exact Hkey. }
  congruence.
Qed.

Lemma Forall_filter_keep {A : Type} (P : A -> Prop) (q : A -> bool)
    (l : list A) :
  Forall P l -> Forall P (filter q l).
Proof.
  intros H. rewrite Forall_forall in *. intros x Hx.
  apply filter_In in Hx. apply H. apply Hx.
Qed.

Lemma Forall_and_split {A : Type} (P Q : A -> Prop) (l : list A) :
  Forall (fun x => P x /\ Q x) l <-> Forall P l /\ Forall Q l.
Proof.
  rewrite !Forall_forall. split.
  - intros H. split; intros x Hx; apply (H x Hx).
  - intros [H1 H2] x Hx. split; [apply H1|apply H2]; exact Hx.
Qed.

Lemma delete_reservations_where_keeps_unique_keys gone db :
  unique_keys db -> unique_keys (delete_reservations_where gone db).
Proof.
  intros [H1 [H2 [H3 [H4 H5]]]].
  unfold unique_keys, reservations_pkey, reservations_user_screening_unique,
    reservations_qr_token_unique, attendance_logs_pkey,
    attendance_logs_reservation_id_unique, delete_reservations_where in *.
  cbn [reservations attendance_logs set_reservations set_attendance_logs].
  repeat split; apply NoDup_map_filter; assumption.
Qed.

Lemma delete_reservations_where_keeps_foreign_keys gone db :
  foreign_keys db -> foreign_keys (delete_reservations_where gone db).
Proof.
  intros [Hs [Hr Hl]].
  unfold foreign_keys, delete_reservations_where.
  cbn [movies screenings reservations attendance_logs auth_users
       set_reservations set_attendance_logs scanner_is_known].
  split; [exact Hs|]. split; [apply Forall_filter_keep; exact Hr|].
  apply Forall_and_split in Hl. destruct Hl as [Hl1 Hl2].
  apply Forall_and_split. split.
  - apply (cascade_keeps_parents Reservation.id
             AttendanceLog.reservation_id gone). exact Hl1.
  - apply Forall_filter_keep. exact Hl2.
Qed.

Lemma delete_screenings_where_keeps_unique_keys gone db :
  unique_keys db -> unique_keys (delete_screenings_where gone db).
Proof.
  intros Hk. unfold delete_screenings_where.
  apply delete_reservations_where_keeps_unique_keys. exact Hk.
Qed.

Lemma delete_screenings_where_keeps_foreign_keys gone db :
  foreign_keys db -> foreign_keys (delete_screenings_where gone db).
Proof.
  intros [Hs [Hr Hl]].
  apply Forall_and_split in Hr. destruct Hr as [Hr1 Hr2].
  apply Forall_and_split in Hl. destruct Hl as [Hl1 Hl2].
  unfold foreign_keys, delete_screenings_where, delete_reservations_where.
  cbn [movies screenings reservations attendance_logs auth_users
       set_reservations set_attendance_logs set_screenings scanner_is_known].
  split; [apply Forall_filter_keep; exact Hs|]. split.
  - apply Forall_and_split. split.
    + apply (cascade_keeps_parents Screening.id Reservation.screening_id
               gone). exact Hr1.
    + apply Forall_filter_keep. exact Hr2.
  - apply Forall_and_split. split.
    + apply (cascade_keeps_parents Reservation.id
               AttendanceLog.reservation_id). exact Hl1.
    + apply Forall_filter_keep. exact Hl2.
Qed.

Lemma delete_movie_keeps_foreign_keys sess v_id db :
  foreign_keys db -> foreign_keys (delete_movie sess v_id db).
Proof.
  intros Hf. unfold delete_movie.
  destruct (current_user_is_admin sess db); [|exact Hf].
  destruct Hf as [Hs [Hr Hl]].
  apply Forall_and_split in Hr. destruct Hr as [Hr1 Hr2].
  apply Forall_and_split in Hl. destruct Hl as [Hl1 Hl2].
  unfold foreign_keys, delete_screenings_where, delete_reservations_where.
  cbn [movies screenings reservations attendance_logs auth_users
       set_reservations set_attendance_logs set_screenings set_movies
       scanner_is_known].
  split.
  - apply (cascade_keeps_parents Movie.id Screening.movie_id). exact Hs.
  - split.
    + apply Forall_and_split. split.
      * apply (cascade_keeps_parents Screening.id Reservation.screening_id).
        exact Hr1.
      * apply Forall_filter_keep. exact Hr2.
    + apply Forall_and_split. split.
      * apply (cascade_keeps_parents Reservation.id
                 AttendanceLog.reservation_id). exact Hl1.
      * apply Forall_filter_keep. exact Hl2.
Qed.

(** X11: deleting a movie, a screening, a reservation or an attendance
    log, by any caller, keeps the unique keys and the foreign keys: the
    cascades remove every screening of a removed movie, every reservation
    of a removed screening and every log of a removed reservation, so no
    row is left pointing at a removed one. *)
Theorem deletes_keep_constraints (sess : session) (v_id : uuid)
    (db : database) :
  unique_keys db -> foreign_keys db ->
  (unique_keys (delete_movie sess v_id db)
   /\ foreign_keys (delete_movie sess v_id db))
  /\ (unique_keys (delete_screening sess v_id db)
      /\ foreign_keys (delete_screening sess v_id db))
  /\ (unique_keys (delete_reservation sess v_id db)
      /\ foreign_keys (delete_reservation sess v_id db))
  /\ (unique_keys (delete_attendance_log sess v_id db)
      /\ foreign_keys (delete_attendance_log sess v_id db)).
Proof.
  intros Hk Hf.
  split; [split|split; [split|split; [split|split]]].
  - unfold delete_movie. destruct (current_user_is_admin sess db);
      [|exact Hk].
    apply delete_screenings_where_keeps_unique_keys. exact Hk.
  - apply delete_movie_keeps_foreign_keys. exact Hf.
  - unfold delete_screening. destruct (current_user_is_admin sess db);
      [|exact Hk].
    apply delete_screenings_where_keeps_unique_keys. exact Hk.
  - unfold delete_screening. destruct (current_user_is_admin sess db);
      [|exact Hf].
    apply delete_screenings_where_keeps_foreign_keys. exact Hf.
  - apply delete_reservations_where_keeps_unique_keys. exact Hk.
  - apply delete_reservations_where_keeps_foreign_keys. exact Hf.
  - unfold delete_attendance_log.
    destruct (current_user_is_admin sess db); [|exact Hk].
    destruct Hk as [H1 [H2 [H3 [H4 H5]]]].
    unfold unique_keys, reservations_pkey,
      reservations_user_screening_unique, reservations_qr_token_unique,
      attendance_logs_pkey, attendance_logs_reservation_id_unique in *.
    cbn [reservations attendance_logs set_attendance_logs].
    repeat split; try assumption; apply NoDup_map_filter; assumption.
  - unfold delete_attendance_log.
    destruct (current_user_is_admin sess db); [|exact Hf].
    destruct Hf as [Hs [Hr Hl]].
    unfold foreign_keys.
    cbn [movies screenings reservations attendance_logs auth_users
         set_attendance_logs scanner_is_known].
    split; [exact Hs|]. split; [exact Hr|].
    apply Forall_filter_keep. exact Hl.
Qed.

Lemma sample_scanned_db_unique_keys : unique_keys sample_scanned_db.
Proof.
  apply (validate_keeps_unique_keys admin_session (Some "a1b2c3d4e5f60718")
           (Some 1%N) sample_db
           (checked_in_result
              (sample_reservation 10 100 2 confirmed "a1b2c3d4e5f60718"))).
  - reflexivity.
  - exact sample_db_unique_keys.
Qed.

Lemma sample_scanned_db_foreign_keys : foreign_keys sample_scanned_db.
Proof.
  apply checked_in_db_keeps_foreign_keys.
  - simpl. left. reflexivity.
  - reflexivity.
  - exact sample_db_foreign_keys.
Qed.

Lemma deletes_keep_constraints_witness :
  (unique_keys (delete_movie admin_session 1000%N sample_scanned_db)
   /\ foreign_keys (delete_movie admin_session 1000%N sample_scanned_db))
  /\ (unique_keys (delete_screening admin_session 1000%N sample_scanned_db)
      /\ foreign_keys
           (delete_screening admin_session 1000%N sample_scanned_db))
  /\ (unique_keys (delete_reservation admin_session 1000%N sample_scanned_db)
      /\ foreign_keys
           (delete_reservation admin_session 1000%N sample_scanned_db))
  /\ (unique_keys
        (delete_attendance_log admin_session 1000%N sample_scanned_db)
      /\ foreign_keys
           (delete_attendance_log admin_session 1000%N sample_scanned_db)).
Proof.
  apply deletes_keep_constraints.
  - exact sample_scanned_db_unique_keys.
  - exact sample_scanned_db_foreign_keys.
Defined.

(** ** Deleting a reservation, then scanning its code *)

(** X12: after a reservation is deleted by a caller the policies admit
    (an admin, or the user it belongs to), it is gone from the table with
    its attendance logs, and an admin who scans its token gets
    [is_valid = false], [already_scanned = false] and null identifiers:
    the answer that no reservation was found when the token has a
    character other than a space, the answer for a malformed code when it
    has none.  Tokens are taken to be unique, as the table requires. *)
Theorem delete_then_scan (sess sess' : session) (p_scanner : option uuid)
    (db : database) (r : Reservation.row) :
  reservations_policy sess db r = true ->
  reservations_qr_token_unique db ->
  In r (reservations db) ->
  current_user_is_admin sess' db = true ->
  ~ In r (reservations (delete_reservation sess (Reservation.id r) db))
  /\ attendance_log_exists (Reservation.id r)
       (delete_reservation sess (Reservation.id r) db) = false
  /\ (only_spaces (Reservation.qr_token r) = false ->
      validate_reservation_qr sess' (Some (Reservation.qr_token r)) p_scanner
        (delete_reservation sess (Reservation.id r) db)
      = Ok (not_found_result, delete_reservation sess (Reservation.id r) db))
  /\ (only_spaces (Reservation.qr_token r) = true ->
      validate_reservation_qr sess' (Some (Reservation.qr_token r)) p_scanner
        (delete_reservation sess (Reservation.id r) db)
      = Ok (invalid_token_result,
            delete_reservation sess (Reservation.id r) db)).
Proof.
  intros Hpol Htok Hin Hadm.
  set (gone := fun x => N.eqb (Reservation.id x) (Reservation.id r)
                        && reservations_policy sess db x).
  assert (Hgone : gone r = true).
  { unfold gone. rewrite N.eqb_refl, Hpol. reflexivity. }
  split; [|split; [|split]].
  - unfold delete_reservation, delete_reservations_where.
    cbn [reservations set_reservations set_attendance_logs].
    intros H. apply filter_In in H. destruct H as [_ H].
    rewrite N.eqb_refl, Hpol in H. discriminate.
  - unfold attendance_log_exists, delete_reservation,
      delete_reservations_where.
    cbn [attendance_logs set_attendance_logs]. fold gone.
    destruct (existsb _ (filter _ (attendance_logs db))) eqn:E;
      [|reflexivity].
    apply existsb_exists in E. destruct E as [l [Hl Hid]].
    apply filter_In in Hl. destruct Hl as [_ Hkept].
    apply negb_true_iff in Hkept. apply N.eqb_eq in Hid.
    assert (existsb (N.eqb (AttendanceLog.reservation_id l))
                    (map Reservation.id (filter gone (reservations db)))
            = true).
    { apply existsb_exists. exists (Reservation.id r). split.
      - apply in_map. apply filter_In. split; assumption.
      - rewrite Hid. apply N.eqb_refl. }
    congruence.
  - intros Hsp. apply validate_not_found.
    + exact Hadm.
    + rewrite token_is_blank_Some. exact Hsp.
    + apply select_reservation_by_token_none.
      unfold delete_reservation, delete_reservations_where.
      cbn [reservations set_reservations set_attendance_logs]. fold gone.
      intros x Hx Heq. apply filter_In in Hx. destruct Hx as [Hx Hkept].
      assert (x = r)
        by (apply (NoDup_map_eq_in Reservation.qr_token _ x r Htok Hx Hin
                     Heq)).
      subst x. rewrite N.eqb_refl, Hpol in Hkept. discriminate.
  - intros Hsp. apply validate_blank.
    + exact Hadm.
    + rewrite token_is_blank_Some. exact Hsp.
Qed.

Lemma delete_then_scan_witness :
  ~ In (check_in_row admin_session
          (sample_reservation 10 100 2 confirmed "a1b2c3d4e5f60718"))
       (reservations (delete_reservation student_session 10%N
                        sample_scanned_db))
  /\ attendance_log_exists 10%N
       (delete_reservation student_session 10%N sample_scanned_db) = false
  /\ validate_reservation_qr admin_session (Some "a1b2c3d4e5f60718") None
       (delete_reservation student_session 10%N sample_scanned_db)
     = Ok (not_found_result,
           delete_reservation student_session 10%N sample_scanned_db).
Proof.
  destruct (delete_then_scan student_session admin_session None
              sample_scanned_db
              (check_in_row admin_session
                 (sample_reservation 10 100 2 confirmed "a1b2c3d4e5f60718")))
    as [H1 [H2 [H3 _]]].
  - reflexivity.
  - destruct sample_scanned_db_unique_keys as [_ [_ [H _]]]. exact H.
  - simpl. left. reflexivity.
  - reflexivity.
  - split; [exact H1|]. split; [exact H2|]. apply H3. reflexivity.
Defined.

(** ** What a caller who is not an admin cannot touch *)

(** X13: a caller who is not an admin cannot change or delete a
    reservation of another user: whatever id, status and seat label the
    update or delete names, such a row stays in the table as it was, and
    with distinct reservation ids its attendance logs stay too. *)
Theorem other_users_rows_are_kept (sess : session) (db : database)
    (r : Reservation.row) (v_id : uuid) (new_status : reservation_status)
    (new_seat_label : option string) :
  current_user_is_admin sess db = false ->
  auth_uid sess <> Some (Reservation.user_id r) ->
  reservations_pkey db ->
  In r (reservations db) ->
  In r (reservations
          (update_reservation sess v_id new_status new_seat_label db))
  /\ In r (reservations (delete_reservation sess v_id db))
  /\ forall l, In l (attendance_logs db) ->
               AttendanceLog.reservation_id l = Reservation.id r ->
               In l (attendance_logs (delete_reservation sess v_id db)).
Proof.
  intros Hadm Huid Hpk Hin.
  assert (Hpol : reservations_policy sess db r = false).
  { unfold reservations_policy. rewrite Hadm. simpl.
    destruct (auth_uid sess) as [uid|]; [|reflexivity].
    apply N.eqb_neq. intros Heq. apply Huid. rewrite Heq. reflexivity. }
  split; [|split].
  - unfold update_reservation. cbn [reservations set_reservations].
    apply in_map_iff. exists r. split; [|exact Hin].
    rewrite Hpol, andb_false_r. reflexivity.
  - unfold delete_reservation, delete_reservations_where.
    cbn [reservations set_reservations set_attendance_logs].
    apply filter_In. split; [exact Hin|].
    rewrite Hpol, andb_false_r. reflexivity.
  - intros l Hl Hid.
    unfold delete_reservation, delete_reservations_where.
    cbn [attendance_logs set_attendance_logs].
    apply filter_In. split; [exact Hl|].
    apply negb_true_iff.
    match goal with
    | |- existsb ?p ?ids = false => destruct (existsb p ids) eqn:E
    end; [|reflexivity].
    exfalso. apply existsb_exists in E. destruct E as [k [Hk Hkeq]].
    apply N.eqb_eq in Hkeq. apply in_map_iff in Hk.
    destruct Hk as [x [Hxk Hx]]. apply filter_In in Hx.
    destruct Hx as [Hx Hgone].
    assert (x = r).
    { apply (NoDup_map_eq_in Reservation.id _ x r Hpk Hx Hin). congruence. }
    subst x. rewrite Hpol, andb_false_r in Hgone. discriminate.
Qed.

Lemma other_users_rows_are_kept_witness :
  In (check_in_row admin_session
        (sample_reservation 10 100 2 confirmed "a1b2c3d4e5f60718"))
     (reservations
        (update_reservation
           {| auth_uid := Some 3%N; now := 6000; gen_random_uuid := 901%N |}
           10%N cancelled None sample_scanned_db))
  /\ In (check_in_row admin_session
           (sample_reservation 10 100 2 confirmed "a1b2c3d4e5f60718"))
        (reservations
           (delete_reservation
              {| auth_uid := Some 3%N; now := 6000;
                 gen_random_uuid := 901%N |}
              10%N sample_scanned_db))
  /\ forall l, In l (attendance_logs sample_scanned_db) ->
               AttendanceLog.reservation_id l = 10%N ->
               In l (attendance_logs
                       (delete_reservation
                          {| auth_uid := Some 3%N; now := 6000;
                             gen_random_uuid := 901%N |}
                          10%N sample_scanned_db)).
Proof.
  apply (other_users_rows_are_kept
           {| auth_uid := Some 3%N; now := 6000; gen_random_uuid := 901%N |}
           sample_scanned_db
           (check_in_row admin_session
              (sample_reservation 10 100 2 confirmed "a1b2c3d4e5f60718"))).
  - reflexivity.
  - discriminate.
  - destruct sample_scanned_db_unique_keys as [H _]. exact H.
  - simpl. left. reflexivity.
Defined.

(** ** Editing a reservation, then scanning its code *)

Lemma select_by_token_after_update sess v_id st lbl db t :
  select_reservation_by_token t (update_reservation sess v_id st lbl db)
  = option_map
      (fun r => if N.eqb (Reservation.id r) v_id
                   && reservations_policy sess db r
                then edited_row sess st lbl r else r)
      (select_reservation_by_token t db).
Proof.
  unfold select_reservation_by_token, update_reservation.
  cbn [reservations set_reservations].
  apply (find_map_key Reservation.qr_token String.eqb).
  intros x.
  destruct (N.eqb (Reservation.id x) v_id && reservations_policy sess db x);
    reflexivity.
Qed.

(** X14: let a caller the policies admit (an admin, or the owner) edit
    the status and seat label of a reservation, tokens being unique.  The
    attendance logs are left as they are, and an admin who then scans its
    token gets the answer for the edited row.  A token without a
    character other than a space gets the answer for a malformed code.
    Otherwise: when the new status is cancelled, the cancelled answer
    with [already_scanned = false], although a log may exist; when it is
    another status and a log exists, the already-validated answer with
    the new status echoed; when it is another status and no log exists,
    a valid result (reservation ids distinct, scanner null or a user, log
    id unused). *)
Theorem update_then_scan (sess sess' : session) (p_scanner : option uuid)
    (db : database) (r : Reservation.row) (new_status : reservation_status)
    (new_seat_label : option string) :
  reservations_policy sess db r = true ->
  reservations_qr_token_unique db ->
  In r (reservations db) ->
  current_user_is_admin sess' db = true ->
  attendance_logs
    (update_reservation sess (Reservation.id r) new_status new_seat_label db)
  = attendance_logs db
  /\ (only_spaces (Reservation.qr_token r) = true ->
      validate_reservation_qr sess' (Some (Reservation.qr_token r)) p_scanner
        (update_reservation sess (Reservation.id r) new_status
           new_seat_label db)
      = Ok (invalid_token_result,
            update_reservation sess (Reservation.id r) new_status
              new_seat_label db))
  /\ (only_spaces (Reservation.qr_token r) = false ->
      new_status = cancelled ->
      validate_reservation_qr sess' (Some (Reservation.qr_token r)) p_scanner
        (update_reservation sess (Reservation.id r) new_status
           new_seat_label db)
      = Ok ({| reservation_id := Some (Reservation.id r);
               screening_id := Some (Reservation.screening_id r);
               status := Some cancelled;
               message :=
                 "La reserva está cancelada y no puede registrarse asistencia.";
               already_scanned := false; is_valid := false |},
            update_reservation sess (Reservation.id r) new_status
              new_seat_label db))
  /\ (only_spaces (Reservation.qr_token r) = false ->
      new_status <> cancelled ->
      attendance_log_exists (Reservation.id r) db = true ->
      validate_reservation_qr sess' (Some (Reservation.qr_token r)) p_scanner
        (update_reservation sess (Reservation.id r) new_status
           new_seat_label db)
      = Ok ({| reservation_id := Some (Reservation.id r);
               screening_id := Some (Reservation.screening_id r);
               status := Some new_status;
               message := "Esta reserva ya fue validada previamente.";
               already_scanned := true; is_valid := false |},
            update_reservation sess (Reservation.id r) new_status
              new_seat_label db))
  /\ (only_spaces (Reservation.qr_token r) = false ->
      new_status <> cancelled ->
      attendance_log_exists (Reservation.id r) db = false ->
      reservations_pkey db ->
      scanner_is_known p_scanner db = true ->
      log_id_is_new sess' db = true ->
      validate_reservation_qr sess' (Some (Reservation.qr_token r)) p_scanner
        (update_reservation sess (Reservation.id r) new_status
           new_seat_label db)
      = Ok ({| reservation_id := Some (Reservation.id r);
               screening_id := Some (Reservation.screening_id r);
               status := Some checked_in;
               message := "Asistencia registrada correctamente.";
               already_scanned := false; is_valid := true |},
            checked_in_db sess'
              (edited_row sess new_status new_seat_label r) p_scanner
              (update_reservation sess (Reservation.id r) new_status
                 new_seat_label db))).
Proof.
  intros Hpol Htok Hin Hadm.
  set (db' := update_reservation sess (Reservation.id r) new_status
                new_seat_label db).
  assert (Hadm' : current_user_is_admin sess' db' = true) by exact Hadm.
  assert (Hsel :
    select_reservation_by_token (Reservation.qr_token r) db'
    = Some (edited_row sess new_status new_seat_label r)).
  { unfold db'. rewrite select_by_token_after_update.
    rewrite (select_reservation_by_token_unique db r Htok Hin). simpl.
    rewrite N.eqb_refl, Hpol. reflexivity. }
  split; [reflexivity|]. split; [|split; [|split]].
  - intros Hsp. apply validate_blank; [exact Hadm'|].
    rewrite token_is_blank_Some. exact Hsp.
  - intros Hsp ->.
    apply (validate_cancelled sess' _ p_scanner _
             (edited_row sess cancelled new_seat_label r));
      try assumption; try reflexivity.
    rewrite token_is_blank_Some. exact Hsp.
  - intros Hsp Hne Hlog.
    apply (validate_already_scanned sess' _ p_scanner _
             (edited_row sess new_status new_seat_label r));
      try assumption.
    rewrite token_is_blank_Some. exact Hsp.
  - intros Hsp Hne Hlog Hpk Hsc Hnew.
    destruct (validate_success sess' (Reservation.qr_token r) p_scanner db'
                (edited_row sess new_status new_seat_label r))
      as [x [Hx [_ Hval]]]; try assumption.
    + rewrite token_is_blank_Some. exact Hsp.
    + unfold select_reservation_by_id, db', update_reservation in Hx.
      cbn [reservations set_reservations edited_row Reservation.id] in Hx.
      rewrite (find_map_key Reservation.id N.eqb) in Hx.
      * rewrite (find_unique_key Reservation.id N.eqb N.eqb_eq) in Hx
          by assumption.
        simpl in Hx. rewrite N.eqb_refl, Hpol in Hx. simpl in Hx.
        inversion Hx. subst x. exact Hval.
      * intros y.
        destruct (N.eqb (Reservation.id y) (Reservation.id r)
                  && reservations_policy sess db y); reflexivity.
Qed.

Lemma update_then_scan_witness :
  validate_reservation_qr admin_session (Some "a1b2c3d4e5f60718") None
    (update_reservation student_session 10%N cancelled None
       sample_scanned_db)
  = Ok ({| reservation_id := Some 10%N;
           screening_id := Some 100%N;
           status := Some cancelled;
           message :=
             "La reserva está cancelada y no puede registrarse asistencia.";
           already_scanned := false; is_valid := false |},
        update_reservation student_session 10%N cancelled None
          sample_scanned_db)
  /\ attendance_log_exists 10%N
       (update_reservation student_session 10%N cancelled None
          sample_scanned_db) = true.
Proof.
  destruct (update_then_scan student_session admin_session None
              sample_scanned_db
              (check_in_row admin_session
                 (sample_reservation 10 100 2 confirmed "a1b2c3d4e5f60718"))
              cancelled None) as [_ [_ [Hc _]]].
  - reflexivity.
  - destruct sample_scanned_db_unique_keys as [_ [_ [H _]]]. exact H.
  - simpl. left. reflexivity.
  - reflexivity.
  - split; [exact (Hc eq_refl eq_refl)|reflexivity].
Defined.

(** ** Attendance logs written or removed by hand *)

Lemma insert_attendance_log_ok_inv sess v_id p_scanner db db1 :
  insert_attendance_log sess v_id p_scanner db = Ok db1 ->
  db1 = set_attendance_logs
          (attendance_logs db ++ [new_attendance_log sess v_id p_scanner]) db.
Proof.
  unfold insert_attendance_log.
  destruct (existsb _ (attendance_logs db)); [discriminate|].
  destruct (existsb _ (attendance_logs db)); [discriminate|].
  destruct (negb _); [discriminate|].
  destruct (match p_scanner with
            | Some u => negb (existsb (N.eqb u) (auth_users db))
            | None => false
            end); [discriminate|].
  intros H. inversion H. reflexivity.
Qed.

(** X15: an attendance log is stored through the table, not by the
    routine, only for an admin, and it leaves the reservations as they
    are.  An admin who then scans the token of the logged reservation
    (tokens being unique) never gets a valid result: a token without a
    character other than a space gets the answer for a malformed code;
    otherwise a cancelled reservation gets the cancelled answer with
    [already_scanned = false], and any other one the already-validated
    answer with its untouched status echoed. *)
Theorem manual_log_then_scan (sess sess' : session)
    (p_scanner p_scanner' : option uuid) (db db1 : database)
    (r : Reservation.row) :
  create_attendance_log sess (Reservation.id r) p_scanner db = Ok db1 ->
  reservations_qr_token_unique db ->
  In r (reservations db) ->
  current_user_is_admin sess' db1 = true ->
  current_user_is_admin sess db = true
  /\ reservations db1 = reservations db
  /\ (only_spaces (Reservation.qr_token r) = true ->
      validate_reservation_qr sess' (Some (Reservation.qr_token r))
        p_scanner' db1
      = Ok (invalid_token_result, db1))
  /\ (only_spaces (Reservation.qr_token r) = false ->
      Reservation.status r = cancelled ->
      validate_reservation_qr sess' (Some (Reservation.qr_token r))
        p_scanner' db1
      = Ok ({| reservation_id := Some (Reservation.id r);
               screening_id := Some (Reservation.screening_id r);
               status := Some cancelled;
               message :=
                 "La reserva está cancelada y no puede registrarse asistencia.";
               already_scanned := false; is_valid := false |}, db1))
  /\ (only_spaces (Reservation.qr_token r) = false ->
      Reservation.status r <> cancelled ->
      validate_reservation_qr sess' (Some (Reservation.qr_token r))
        p_scanner' db1
      = Ok ({| reservation_id := Some (Reservation.id r);
               screening_id := Some (Reservation.screening_id r);
               status := Some (Reservation.status r);
               message := "Esta reserva ya fue validada previamente.";
               already_scanned := true; is_valid := false |}, db1)).
Proof.
  unfold create_attendance_log.
  destruct (current_user_is_admin sess db) eqn:Hadm0; [|discriminate].
  intros Hins Htok Hin Hadm.
  apply insert_attendance_log_ok_inv in Hins. subst db1.
  assert (Hsel : select_reservation_by_token (Reservation.qr_token r)
                   (set_attendance_logs
                      (attendance_logs db
                       ++ [new_attendance_log sess (Reservation.id r)
                             p_scanner]) db) = Some r)
    by apply (select_reservation_by_token_unique db r Htok Hin).
  split; [reflexivity|]. split; [reflexivity|]. split; [|split].
  - intros Hsp. apply validate_blank; [exact Hadm|].
    rewrite token_is_blank_Some. exact Hsp.
  - intros Hsp Hst.
    rewrite (validate_cancelled sess' _ p_scanner' _ r Hadm); try assumption.
    + unfold cancelled_result. rewrite Hst. reflexivity.
    + rewrite token_is_blank_Some. exact Hsp.
  - intros Hsp Hst.
    apply (validate_already_scanned sess' _ p_scanner' _ r); try assumption.
    + rewrite token_is_blank_Some. exact Hsp.
    + unfold attendance_log_exists.
      cbn [attendance_logs set_attendance_logs].
      rewrite existsb_app. simpl. rewrite N.eqb_refl, orb_true_r.
      reflexivity.
Qed.

Lemma manual_log_then_scan_witness :
  exists db1,
    create_attendance_log admin_session 10%N None sample_db = Ok db1
    /\ validate_reservation_qr admin_session (Some "a1b2c3d4e5f60718") None
         db1
       = Ok ({| reservation_id := Some 10%N;
                screening_id := Some 100%N;
                status := Some confirmed;
                message := "Esta reserva ya fue validada previamente.";
                already_scanned := true; is_valid := false |}, db1).
Proof.
  eexists. split; [reflexivity|].
  destruct (manual_log_then_scan admin_session admin_session None None
              sample_db _
              (sample_reservation 10 100 2 confirmed "a1b2c3d4e5f60718")
              eq_refl sample_db_tokens_unique)
    as [_ [_ [_ [_ H]]]].
  - simpl. left. reflexivity.
  - reflexivity.
  - apply H; [reflexivity|discriminate].
Defined.

(** X16: when an admin deletes the attendance log of a reservation
    (reservation ids and tokens distinct, one log per reservation, as the
    tables require), the reservations are left as they are and the
    reservation has no log any more.  The next scan of its token by an
    admin then answers as for a reservation never scanned: the answer for
    a malformed code when the token has no character other than a space;
    otherwise the cancelled answer when the reservation is cancelled; and
    otherwise, the scanner being null or a user and the log id unused, a
    valid result that checks the reservation in and writes a new log. *)
Theorem delete_log_then_rescan (sess sess' : session)
    (p_scanner : option uuid) (db : database) (r : Reservation.row)
    (l : AttendanceLog.row) :
  current_user_is_admin sess db = true ->
  reservations_pkey db ->
  reservations_qr_token_unique db ->
  attendance_logs_reservation_id_unique db ->
  In r (reservations db) ->
  In l (attendance_logs db) ->
  AttendanceLog.reservation_id l = Reservation.id r ->
  current_user_is_admin sess'
    (delete_attendance_log sess (AttendanceLog.id l) db) = true ->
  reservations (delete_attendance_log sess (AttendanceLog.id l) db)
  = reservations db
  /\ attendance_log_exists (Reservation.id r)
       (delete_attendance_log sess (AttendanceLog.id l) db) = false
  /\ (only_spaces (Reservation.qr_token r) = true ->
      validate_reservation_qr sess' (Some (Reservation.qr_token r)) p_scanner
        (delete_attendance_log sess (AttendanceLog.id l) db)
      = Ok (invalid_token_result,
            delete_attendance_log sess (AttendanceLog.id l) db))
  /\ (only_spaces (Reservation.qr_token r) = false ->
      Reservation.status r = cancelled ->
      validate_reservation_qr sess' (Some (Reservation.qr_token r)) p_scanner
        (delete_attendance_log sess (AttendanceLog.id l) db)
      = Ok ({| reservation_id := Some (Reservation.id r);
               screening_id := Some (Reservation.screening_id r);
               status := Some cancelled;
               message :=
                 "La reserva está cancelada y no puede registrarse asistencia.";
               already_scanned := false; is_valid := false |},
            delete_attendance_log sess (AttendanceLog.id l) db))
  /\ (only_spaces (Reservation.qr_token r) = false ->
      Reservation.status r <> cancelled ->
      scanner_is_known p_scanner
        (delete_attendance_log sess (AttendanceLog.id l) db) = true ->
      log_id_is_new sess'
        (delete_attendance_log sess (AttendanceLog.id l) db) = true ->
      validate_reservation_qr sess' (Some (Reservation.qr_token r)) p_scanner
        (delete_attendance_log sess (AttendanceLog.id l) db)
      = Ok (checked_in_result r,
            checked_in_db sess' r p_scanner
              (delete_attendance_log sess (AttendanceLog.id l) db))).
Proof.
  intros Hadm Hpk Htok Hlu Hin Hl Hlr.
  unfold delete_attendance_log. rewrite Hadm.
  set (db1 := set_attendance_logs _ db).
  intros Hadm'.
  assert (Hlog : attendance_log_exists (Reservation.id r) db1 = false).
  { unfold attendance_log_exists, db1.
    cbn [attendance_logs set_attendance_logs].
    destruct (existsb _ (filter _ (attendance_logs db))) eqn:E;
      [|reflexivity].
    apply existsb_exists in E. destruct E as [l' [Hl' Hid]].
    apply filter_In in Hl'. destruct Hl' as [Hl' Hkept].
    apply N.eqb_eq in Hid.
    assert (l' = l).
    { apply (NoDup_map_eq_in AttendanceLog.reservation_id _ l' l Hlu Hl' Hl).
      congruence. }
    subst l'. rewrite N.eqb_refl in Hkept. discriminate. }
  assert (Hsel : select_reservation_by_token (Reservation.qr_token r) db1
                 = Some r)
    by apply (select_reservation_by_token_unique db r Htok Hin).
  split; [reflexivity|]. split; [exact Hlog|]. split; [|split].
  - intros Hsp. apply validate_blank; [exact Hadm'|].
    rewrite token_is_blank_Some. exact Hsp.
  - intros Hsp Hst.
    rewrite (validate_cancelled sess' _ p_scanner _ r Hadm'); try assumption.
    + unfold cancelled_result. rewrite Hst. reflexivity.
    + rewrite token_is_blank_Some. exact Hsp.
  - intros Hsp Hst Hsc Hnew.
    destruct (validate_success sess' (Reservation.qr_token r) p_scanner db1 r)
      as [x [Hx [_ Hval]]]; try assumption.
    + rewrite token_is_blank_Some. exact Hsp.
    + unfold select_reservation_by_id in Hx.
      change (reservations db1) with (reservations db) in Hx.
      rewrite (find_unique_key Reservation.id N.eqb N.eqb_eq) in Hx
        by assumption.
      inversion Hx. subst x. exact Hval.
Qed.

Lemma delete_log_then_rescan_witness :
  validate_reservation_qr
    {| auth_uid := Some 1%N; now := 7000; gen_random_uuid := 901%N |}
    (Some "a1b2c3d4e5f60718") None
    (delete_attendance_log admin_session 900%N sample_scanned_db)
  = Ok (checked_in_result
          (check_in_row admin_session
             (sample_reservation 10 100 2 confirmed "a1b2c3d4e5f60718")),
        checked_in_db
          {| auth_uid := Some 1%N; now := 7000; gen_random_uuid := 901%N |}
          (check_in_row admin_session
             (sample_reservation 10 100 2 confirmed "a1b2c3d4e5f60718"))
          None
          (delete_attendance_log admin_session 900%N sample_scanned_db)).
Proof.
  destruct sample_scanned_db_unique_keys as [Hpk [_ [Htok [_ Hlu]]]].
  destruct (delete_log_then_rescan admin_session
              {| auth_uid := Some 1%N; now := 7000;
                 gen_random_uuid := 901%N |}
              None sample_scanned_db
              (check_in_row admin_session
                 (sample_reservation 10 100 2 confirmed "a1b2c3d4e5f60718"))
              (new_attendance_log admin_session 10%N (Some 1%N)))
    as [_ [_ [_ [_ H]]]]; try assumption.
  - reflexivity.
  - simpl. left. reflexivity.
  - simpl. left. reflexivity.
  - reflexivity.
  - reflexivity.
  - apply H; [reflexivity|discriminate|reflexivity|reflexivity].
Defined.

(** ** Deleting a movie, seen through the view *)

Lemma find_filter_keep {A : Type} (p q : A -> bool) (l : list A) :
  (forall x, p x = true -> q x = true) -> find p (filter q l) = find p l.
Proof.
  intros H. induction l as [|x l IH]; simpl; [reflexivity|].
  destruct (p x) eqn:Hp.
  - rewrite (H x Hp). simpl. rewrite Hp. reflexivity.
  - destruct (q x); simpl; [rewrite Hp|]; exact IH.
Qed.

Lemma filter_filter_keep {A : Type} (p q : A -> bool) (l : list A) :
  (forall x, p x = true -> q x = true) -> filter p (filter q l) = filter p l.
Proof.
  intros H. induction l as [|x l IH]; simpl; [reflexivity|].
  destruct (p x) eqn:Hp.
  - rewrite (H x Hp). simpl. rewrite Hp, IH. reflexivity.
  - destruct (q x); simpl; [rewrite Hp|]; exact IH.
Qed.

Lemma gone_movie_ids (v_id : uuid) (ms : list Movie.row) (k : uuid) :
  In k (map Movie.id (filter (fun m => N.eqb (Movie.id m) v_id) ms)) ->
  k = v_id.
Proof.
  intros H. apply in_map_iff in H. destruct H as [m [<- Hm]].
  apply filter_In in Hm. apply N.eqb_eq. apply Hm.
Qed.

(** X17: when screening ids are distinct, deleting a movie leaves every
    screening of another movie in place, with the same row in the view;
    and when the caller is an admin and every screening refers to a
    stored movie, no screening of the deleted movie is left. *)
Theorem delete_movie_keeps_other_stats (sess : session) (v_id : uuid)
    (db : database) :
  (screenings_pkey db ->
   forall s, In s (screenings db) -> Screening.movie_id s <> v_id ->
     In s (screenings (delete_movie sess v_id db))
     /\ screening_stat (delete_movie sess v_id db) s = screening_stat db s)
  /\ (current_user_is_admin sess db = true -> foreign_keys db ->
      forall s', In s' (screenings (delete_movie sess v_id db)) ->
                 Screening.movie_id s' <> v_id).
Proof.
  unfold delete_movie.
  set (gone_m := map Movie.id
                   (filter (fun m => N.eqb (Movie.id m) v_id) (movies db))).
  set (gone_s := fun x : Screening.row =>
                   existsb (N.eqb (Screening.movie_id x)) gone_m).
  split.
  - intros Hpk s Hin Hne.
    destruct (current_user_is_admin sess db);
      [|split; [exact Hin|reflexivity]].
    assert (Hs_kept : gone_s s = false).
    { unfold gone_s.
      destruct (existsb (N.eqb (Screening.movie_id s)) gone_m) eqn:E;
        [|reflexivity].
      apply existsb_exists in E. destruct E as [k [Hk Hkeq]].
      apply gone_movie_ids in Hk. apply N.eqb_eq in Hkeq. congruence. }
    split.
    + unfold delete_screenings_where, delete_reservations_where.
      cbn [screenings set_screenings set_reservations set_attendance_logs
           set_movies].
      apply filter_In. split; [exact Hin|]. fold gone_s.
      rewrite Hs_kept. reflexivity.
    + unfold screening_stat, reservations_of_screening,
        delete_screenings_where, delete_reservations_where.
      cbn [movies screenings reservations set_screenings set_reservations
           set_attendance_logs set_movies].
      fold gone_s.
      rewrite find_filter_keep.
      * rewrite filter_filter_keep; [reflexivity|].
        intros x Hx. apply N.eqb_eq in Hx. apply negb_true_iff.
        match goal with
        | |- existsb ?p ?ids = false => destruct (existsb p ids) eqn:E
        end; [|reflexivity].
        exfalso. apply existsb_exists in E. destruct E as [k [Hk Hkeq]].
        apply N.eqb_eq in Hkeq. apply in_map_iff in Hk.
        destruct Hk as [s' [Hs'k Hs']]. apply filter_In in Hs'.
        destruct Hs' as [Hs' Hgone].
        assert (s' = s).
        { apply (NoDup_map_eq_in Screening.id _ s' s Hpk Hs' Hin).
          congruence. }
        subst s'. congruence.
      * intros m Hm. apply N.eqb_eq in Hm. apply negb_true_iff.
        apply N.eqb_neq. congruence.
  - intros -> [Hfk _] s' Hs'.
    unfold delete_screenings_where, delete_reservations_where in Hs'.
    cbn [screenings set_screenings set_reservations set_attendance_logs
         set_movies] in Hs'.
    apply filter_In in Hs'. destruct Hs' as [Hs' Hkept].
    apply negb_true_iff in Hkept. intros Heq.
    rewrite Forall_forall in Hfk. specialize (Hfk s' Hs').
    apply existsb_exists in Hfk. destruct Hfk as [m [Hm Hid]].
    apply N.eqb_eq in Hid.
    assert (Hex : existsb (N.eqb (Screening.movie_id s')) gone_m = true).
    { apply existsb_exists. exists (Movie.id m). split.
      - unfold gone_m. apply in_map. apply filter_In. split; [exact Hm|].
        apply N.eqb_eq. congruence.
      - apply N.eqb_eq. congruence. }
    exact (eq_true_false_abs _ Hex Hkept).
Qed.

Lemma two_movie_db_screenings_pkey : screenings_pkey two_movie_db.
Proof. unfold screenings_pkey. simpl. nodup_by_computation. Qed.

Lemma two_movie_db_foreign_keys : foreign_keys two_movie_db.
Proof.
  unfold foreign_keys. simpl.
  repeat split; repeat (constructor; [repeat split|]); constructor.
Qed.

Lemma delete_movie_keeps_other_stats_witness :
  In sample_screening (screenings (delete_movie admin_session 2000%N
                                     two_movie_db))
  /\ screening_stat (delete_movie admin_session 2000%N two_movie_db)
       sample_screening
     = screening_stat two_movie_db sample_screening
  /\ ~ In second_screening
         (screenings (delete_movie admin_session 2000%N two_movie_db)).
Proof.
  destruct (delete_movie_keeps_other_stats admin_session 2000%N two_movie_db)
    as [Hkeep Hgone].
  destruct (Hkeep two_movie_db_screenings_pkey sample_screening) as [H1 H2].
  - simpl. left. reflexivity.
  - discriminate.
  - split; [exact H1|]. split; [exact H2|].
    intros Hin.
    apply (Hgone eq_refl two_movie_db_foreign_keys second_screening Hin).
    reflexivity.
Defined.

(** ** Scheduling a screening *)

Lemma no_reservations_for_new_id (ss : list Screening.row)
    (rs : list Reservation.row) (k : uuid) :
  Forall (fun r => existsb (fun s => N.eqb (Screening.id s)
                                           (Reservation.screening_id r))
                           ss = true) rs ->
  existsb (fun s => N.eqb (Screening.id s) k) ss = false ->
  filter (fun r => N.eqb (Reservation.screening_id r) k) rs = [].
Proof.
  intros Hfk Hnew. induction Hfk as [|x l Hx _ IH]; [reflexivity|].
  cbn [filter]. destruct (N.eqb (Reservation.screening_id x) k) eqn:E;
    [|exact IH].
  apply N.eqb_eq in E. rewrite E in Hx. congruence.
Qed.

(** X18: a screening is stored only for an admin, with a capacity above
    zero, an end that is null or later than the start, a new id and a
    stored movie; it keeps the foreign keys, and its row in the view
    starts with no reservations: the three counts are 0, the occupancy
    rate is 0.00 and the attendance rate is 0. *)
Theorem insert_screening_then_stats (sess : session)
    (new_row : Screening.row) (db db1 : database) :
  insert_screening sess new_row db = Ok db1 ->
  foreign_keys db ->
  current_user_is_admin sess db = true
  /\ 0 < Screening.capacity new_row
  /\ screenings_time_range new_row = true
  /\ existsb (fun s => N.eqb (Screening.id s) (Screening.id new_row))
       (screenings db) = false
  /\ existsb (fun m => N.eqb (Movie.id m) (Screening.movie_id new_row))
       (movies db) = true
  /\ screenings db1 = (screenings db ++ [new_row])%list
  /\ foreign_keys db1
  /\ exists st,
      screening_stat db1 new_row = Ok st
      /\ ScreeningStat.total_reservations st = 0
      /\ ScreeningStat.active_reservations st = 0
      /\ ScreeningStat.checked_in_count st = 0
      /\ ScreeningStat.occupancy_rate st = {| unscaled := 0; dscale := 2 |}
      /\ ScreeningStat.attendance_rate st = numeric_of_int 0.
Proof.
  unfold insert_screening.
  destruct (current_user_is_admin sess db); simpl; [|discriminate].
  destruct (0 <? Screening.capacity new_row) eqn:Hcap; simpl;
    [|discriminate].
  destruct (screenings_time_range new_row) eqn:Htime; simpl;
    [|discriminate].
  destruct (existsb _ (screenings db)) eqn:Hpk; [discriminate|].
  destruct (existsb _ (movies db)) eqn:Hfk; simpl; [|discriminate].
  intros H [Hs [Hr Hl]]. inversion H. clear H. subst db1.
  apply Z.ltb_lt in Hcap.
  split; [reflexivity|]. split; [exact Hcap|]. split; [reflexivity|].
  split; [reflexivity|]. split; [reflexivity|].
  split; [reflexivity|]. split.
  - unfold foreign_keys.
    cbn [movies screenings reservations attendance_logs auth_users
         set_screenings scanner_is_known].
    split; [|split; [|exact Hl]].
    + apply Forall_app. split; [exact Hs|].
      constructor; [exact Hfk|constructor].
    + rewrite Forall_forall in *. intros r Hin.
      destruct (Hr r Hin) as [H1 H2]. split; [|exact H2].
      rewrite existsb_app, H1. reflexivity.
  - set (db1 := set_screenings (screenings db ++ [new_row]) db).
    assert (Hnone : reservations_of_screening new_row db1 = []).
    { unfold reservations_of_screening, db1.
      cbn [reservations set_screenings].
      apply Forall_and_split in Hr. destruct Hr as [Hr1 _].
      apply (no_reservations_for_new_id (screenings db)); assumption. }
    destruct (screening_stat_ok db1 new_row)
      as [st [Hst [Hocc [Hatt [_ [_ [Htot [Hact Hchk]]]]]]]].
    rewrite Hnone in Htot, Hact, Hchk.
    change (Z.of_nat (List.length (@nil Reservation.row))) with 0 in Htot.
    change (count_filter _ []) with 0 in Hact, Hchk.
    exists st. split; [exact Hst|].
    split; [exact Htot|]. split; [exact Hact|]. split; [exact Hchk|].
    rewrite Htot in Hocc, Hatt. rewrite Hchk in Hatt.
    rewrite rate_percent_zero in Hatt.
    split; [|congruence].
    destruct (rate_percent_zero_numerator (Screening.capacity new_row))
      as [x [Hx Hx0]].
    assert (x = ScreeningStat.occupancy_rate st) by congruence. subst x.
    destruct (rate_percent_nonzero 0 (Screening.capacity new_row)
                ltac:(lia)) as [q [_ Hq]].
    assert (Hd : dscale (ScreeningStat.occupancy_rate st) = 2%nat).
    { rewrite Hq in Hocc. inversion Hocc as [Ho].
      unfold numeric_round. destruct (Nat.leb _ 2); reflexivity. }
    destruct (ScreeningStat.occupancy_rate st) as [u d].
    simpl in Hx0, Hd. subst u d. reflexivity.
Qed.

Lemma insert_screening_then_stats_witness :
  exists db1 st,
    insert_screening admin_session second_screening
      (set_movies [sample_movie; second_movie] sample_db) = Ok db1
    /\ screening_stat db1 second_screening = Ok st
    /\ ScreeningStat.total_reservations st = 0
    /\ ScreeningStat.occupancy_rate st = {| unscaled := 0; dscale := 2 |}.
Proof.
  destruct (insert_screening_then_stats admin_session second_screening
              (set_movies [sample_movie; second_movie] sample_db)
              (set_screenings [sample_screening; second_screening]
                 (set_movies [sample_movie; second_movie] sample_db)))
    as [_ [_ [_ [_ [_ [_ [_ [st [Hst [Htot [_ [_ [Hocc _]]]]]]]]]]]]].
  - reflexivity.
  - unfold foreign_keys. simpl.
    repeat split; repeat (constructor; [repeat split|]); constructor.
  - eexists. exists st. split; [reflexivity|].
    split; [exact Hst|]. split; [exact Htot|exact Hocc].
Defined.
